(** * TrendRadar configuration loader ([trendradar/core/loader.py])

    A shallow embedding of the configuration-resolution layer: the [.env]
    overlay, the typed accessors over the process environment, the section
    resolvers that merge the YAML mapping with the environment, the channel
    summary and [load_config] itself, followed by the properties the
    specification states about them. *)

From Stdlib Require Import ZArith Ascii String.
From stdpp Require Import gmap strings list fin_maps.

Set Warnings "-register-all".
Local Open Scope string_scope.
Local Open Scope Z_scope.

(** ** Python strings

    A Python [str] is modelled by [string]; a character is a code point
    below 256.  The functions below are the [str] methods the loader calls,
    on that range. *)

Module PyStr.

(** [str.isspace] on one code point: TAB..CR, FS..US, SPACE, NEL, NBSP. *)
Definition is_space (c : ascii) : bool :=
  let n := N_of_ascii c in
  ((9 <=? n) && (n <=? 13) || (28 <=? n) && (n <=? 32)
   || (n =? 133) || (n =? 160))%N.

Fixpoint lstrip (s : string) : string :=
  match s with
  | String c s' => if is_space c then lstrip s' else s
  | EmptyString => EmptyString
  end.

Fixpoint rstrip (s : string) : string :=
  match s with
  | String c s' =>
      match rstrip s' with
      | EmptyString => if is_space c then EmptyString else String c EmptyString
      | r => String c r
      end
  | EmptyString => EmptyString
  end.

(** [s.strip()] *)
Definition strip (s : string) : string := rstrip (lstrip s).

(** [str.lower] on one code point: A..Z and the Latin-1 capitals. *)
Definition lower_char (c : ascii) : ascii :=
  let n := N_of_ascii c in
  if ((65 <=? n) && (n <=? 90)
      || (192 <=? n) && (n <=? 222) && negb (n =? 215))%N
  then ascii_of_N (n + 32) else c.

(** [s.lower()] *)
Fixpoint lower (s : string) : string :=
  match s with
  | String c s' => String (lower_char c) (lower s')
  | EmptyString => EmptyString
  end.

(** The double and the single quote character *)
Definition dquote : ascii := "034".
Definition squote : ascii := "039".

(** [not s] for a string *)
Definition is_empty (s : string) : bool :=
  match s with EmptyString => true | _ => false end.

(** [s.startswith(c)] and [s.endswith(c)] for a one-character [c] *)
Definition startswith (c : ascii) (s : string) : bool :=
  match s with String a _ => Ascii.eqb a c | EmptyString => false end.

Fixpoint endswith (c : ascii) (s : string) : bool :=
  match s with
  | String a EmptyString => Ascii.eqb a c
  | String _ s' => endswith c s'
  | EmptyString => false
  end.

(** [s[:-1]] *)
Fixpoint drop_last (s : string) : string :=
  match s with
  | String _ EmptyString => EmptyString
  | String a s' => String a (drop_last s')
  | EmptyString => EmptyString
  end.

(** [s[1:-1]] *)
Definition slice_1_m1 (s : string) : string :=
  match s with
  | String _ s' => drop_last s'
  | EmptyString => EmptyString
  end.

(** [s.partition(c)]: [None] stands for [c not in s], where Python
    returns [(s, "", "")]; otherwise the text before and after the first
    occurrence. *)
Fixpoint partition (c : ascii) (s : string) : option (string * string) :=
  match s with
  | String a s' =>
      if Ascii.eqb a c then Some (EmptyString, s')
      else match partition c s' with
           | Some (k, v) => Some (String a k, v)
           | None => None
           end
  | EmptyString => None
  end.

(** [s.split(c)] *)
Fixpoint split (c : ascii) (s : string) : list string :=
  match s with
  | String a s' =>
      if Ascii.eqb a c then EmptyString :: split c s'
      else match split c s' with
           | w :: ws => String a w :: ws
           | [] => [String a EmptyString]
           end
  | EmptyString => [EmptyString]
  end.

Definition digit_of (c : ascii) : option Z :=
  let n := N_of_ascii c in
  if ((48 <=? n) && (n <=? 57))%N then Some (Z.of_N n - 48) else None.

(** Digits of a base-10 literal, with single underscores allowed between
    two digits.  [prev] tells whether the previous character was a
    digit. *)
Fixpoint int_digits (acc : Z) (prev : bool) (s : string) : option Z :=
  match s with
  | String c s' =>
      match digit_of c with
      | Some d => int_digits (10 * acc + d) true s'
      | None =>
          if Ascii.eqb c "_" && prev then int_digits acc false s' else None
      end
  | EmptyString => if prev then Some acc else None
  end.

(** [int(s)] for an already stripped [s]: [None] is [ValueError].
    (CPython's limit on the number of digits is not modelled.) *)
Definition int (s : string) : option Z :=
  match s with
  | String "+" s' => int_digits 0 false s'
  | String "-" s' => Z.opp <$> int_digits 0 false s'
  | _ => int_digits 0 false s
  end.

End PyStr.

(** ** The process environment ([os.environ]) *)

Abbreviation environ := (gmap string string).

(** [os.environ.get(key, "")] *)
Definition environ_get (env : environ) (key : string) : string :=
  default "" (env !! key).

(** [_get_env_bool(key)]: [None] when the variable is unset or blank. *)
Definition _get_env_bool (env : environ) (key : string) : option bool :=
  let value := PyStr.lower (PyStr.strip (environ_get env key)) in
  if PyStr.is_empty value then None
  else Some (String.eqb value "true" || String.eqb value "1").

(** [_get_env_int(key, default)] *)
Definition _get_env_int (env : environ) (key : string) (dflt : Z) : Z :=
  let value := PyStr.strip (environ_get env key) in
  if PyStr.is_empty value then dflt
  else match PyStr.int value with
       | Some n => n
       | None => dflt
       end.

(** [_get_env_str(key, default)] *)
Definition _get_env_str (env : environ) (key : string) (dflt : string) : string :=
  let value := PyStr.strip (environ_get env key) in
  if PyStr.is_empty value then dflt else value.

(** Presence of an override in the sense of section 4.1 of the
    specification: the variable is set to a string that is not empty after
    trimming. *)
Definition env_present (env : environ) (key : string) : bool :=
  match env !! key with
  | Some v => negb (PyStr.is_empty (PyStr.strip v))
  | None => false
  end.

(** ** The [.env] overlay ([_load_dotenv]) *)

Module Dotenv.

(** The state the loop of [_load_dotenv] carries. *)
Record state := State { environ_of : environ; loaded_count : nat }.

(** One line, up to the removal of the quotes: the key and the value, or
    [None] for a line that is skipped (blank, comment, no [=]). *)
Definition parse_line (line : string) : option (string * string) :=
  let line := PyStr.strip line in
  if PyStr.is_empty line || PyStr.startswith "#" line then None
  else match PyStr.partition "=" line with
       | Some (key, value) =>
           let key := PyStr.strip key in
           let value := PyStr.strip value in
           let value :=
             if PyStr.startswith PyStr.dquote value
                && PyStr.endswith PyStr.dquote value
                || PyStr.startswith PyStr.squote value
                   && PyStr.endswith PyStr.squote value
             then PyStr.slice_1_m1 value else value in
           Some (key, value)
       | None => None
       end.

Fixpoint has_nul (s : string) : bool :=
  match s with
  | String c s' => Ascii.eqb c "000" || has_nul s'
  | EmptyString => false
  end.

(** [os.environ[key] = value]: [None] is the [ValueError] of [putenv] on
    an embedded NUL. *)
Definition environ_set (key value : string) (env : environ) : option environ :=
  if has_nul key || has_nul value then None else Some (<[key := value]> env).

(** The body of the [for] loop; [None] is an exception, which leaves the
    loop. *)
Definition step (st : state) (line : string) : option state :=
  match parse_line line with
  | Some (key, value) =>
      if negb (PyStr.is_empty key) && bool_decide (environ_of st !! key = None)
      then match environ_set key value (environ_of st) with
           | Some env' => Some (State env' (S (loaded_count st)))
           | None => None
           end
      else Some st
  | None => Some st
  end.

(** The loop inside the [try]: the final state and whether the loop ran
    to its end. *)
Fixpoint run (st : state) (lines : list string) : state * bool :=
  match lines with
  | line :: rest =>
      match step st line with
      | Some st' => run st' rest
      | None => (st, false)
      end
  | [] => (st, true)
  end.

End Dotenv.

(** [_load_dotenv(env_path)]: [file] is [None] when [env_path] does not
    exist and the lines of the file otherwise.  Returns the environment
    afterwards and the function's result. *)
Definition _load_dotenv (file : option (list string)) (env : environ)
  : environ * bool :=
  match file with
  | None => (env, false)
  | Some lines =>
      let '(st, ok) := Dotenv.run (Dotenv.State env 0) lines in
      (Dotenv.environ_of st, ok)
  end.

(** ** Python values and exceptions

    What [yaml.safe_load] can return and what the resolved configuration
    holds.  A float is the finite value [m * 2^e].  A mapping is keyed by
    strings: the loader only ever looks string keys up. *)

Inductive pyval : Type :=
| VNone
| VBool (b : bool)
| VInt (z : Z)
| VFloat (m e : Z)
| VStr (s : string)
| VList (l : list pyval)
| VDict (d : gmap string pyval).

Abbreviation pydict := (gmap string pyval).

Inductive exn : Type :=
| FileNotFoundError
| OSError
| YAMLError
| AttributeError
| TypeError
| KeyError.

(** A computation that returns a value or raises. *)
Inductive result (A : Type) : Type :=
| Ok (a : A)
| Raise (e : exn).
Arguments Ok {A} a.
Arguments Raise {A} e.

#[global] Instance result_ret : MRet result := λ A a, Ok a.
#[global] Instance result_bind : MBind result := λ A B f m,
  match m with
  | Ok a => f a
  | Raise e => Raise e
  end.

Definition returns {A} (m : result A) : bool :=
  match m with Ok _ => true | Raise _ => false end.

(** [bool(v)] *)
Definition truthy (v : pyval) : bool :=
  match v with
  | VNone => false
  | VBool b => b
  | VInt z => negb (z =? 0)
  | VFloat m _ => negb (m =? 0)
  | VStr s => negb (PyStr.is_empty s)
  | VList l => match l with [] => false | _ => true end
  | VDict d => negb (bool_decide (d = ∅))
  end.

(** [v.get(key, default)]: only a mapping has the method. *)
Definition py_get (v : pyval) (key : string) (dflt : pyval) : result pyval :=
  match v with
  | VDict d => Ok (default dflt (d !! key))
  | _ => Raise AttributeError
  end.

(** [d[key]] on a dictionary *)
Definition py_getitem (d : pydict) (key : string) : result pyval :=
  match d !! key with
  | Some v => Ok v
  | None => Raise KeyError
  end.

(** [a or b]: [b] is evaluated only when [a] is falsy. *)
Definition or_else (a : pyval) (b : result pyval) : result pyval :=
  if truthy a then Ok a else b.

(** [x if x is not None else b] for the result of [_get_env_bool] *)
Definition if_not_none (x : option bool) (b : result pyval) : result pyval :=
  match x with
  | Some t => Ok (VBool t)
  | None => b
  end.

(** [min(n, m)] for an integer [n]: [m] when [m < n], else [n]. *)
Definition py_min (n : Z) (m : pyval) : result pyval :=
  match m with
  | VInt z => Ok (if z <? n then VInt z else VInt n)
  | VBool b => Ok (if Z.b2z b <? n then VBool b else VInt n)
  | VFloat f e =>
      Ok (if (if 0 <=? e then f * 2 ^ e <? n else f <? n * 2 ^ (- e))
          then VFloat f e else VInt n)
  | _ => Raise TypeError
  end.

(** [config.update(d)] *)
Definition dict_update (d config : pydict) : pydict := d ∪ config.

(** ** Section resolvers *)

(** [_load_app_config(config_data)] *)
Definition _load_app_config (env : environ) (config_data : pyval) : result pydict :=
  app_config ← py_get config_data "app" (VDict ∅);
  version_check_url ← py_get app_config "version_check_url" (VStr "");
  show_version_update ← py_get app_config "show_version_update" (VBool true);
  timezone ← or_else (VStr (_get_env_str env "TIMEZONE" ""))
                     (py_get app_config "timezone" (VStr "Asia/Shanghai"));
  Ok (list_to_map [
    ("VERSION_CHECK_URL", version_check_url);
    ("SHOW_VERSION_UPDATE", show_version_update);
    ("TIMEZONE", timezone)]).

(** [_load_crawler_config(config_data)] *)
Definition _load_crawler_config (env : environ) (config_data : pyval) : result pydict :=
  crawler_config ← py_get config_data "crawler" (VDict ∅);
  let enable_crawler_env := _get_env_bool env "ENABLE_CRAWLER" in
  request_interval ← py_get crawler_config "request_interval" (VInt 100);
  use_proxy ← py_get crawler_config "use_proxy" (VBool false);
  default_proxy ← py_get crawler_config "default_proxy" (VStr "");
  enable_crawler ← if_not_none enable_crawler_env
                     (py_get crawler_config "enable_crawler" (VBool true));
  Ok (list_to_map [
    ("REQUEST_INTERVAL", request_interval);
    ("USE_PROXY", use_proxy);
    ("DEFAULT_PROXY", default_proxy);
    ("ENABLE_CRAWLER", enable_crawler)]).

(** [_load_report_config(config_data)] *)
Definition _load_report_config (env : environ) (config_data : pyval) : result pydict :=
  report_config ← py_get config_data "report" (VDict ∅);
  let sort_by_position_env := _get_env_bool env "SORT_BY_POSITION_FIRST" in
  let reverse_content_env := _get_env_bool env "REVERSE_CONTENT_ORDER" in
  let max_news_env := _get_env_int env "MAX_NEWS_PER_KEYWORD" 0 in
  report_mode ← or_else (VStr (_get_env_str env "REPORT_MODE" ""))
                        (py_get report_config "mode" (VStr "daily"));
  rank_threshold ← py_get report_config "rank_threshold" (VInt 10);
  sort_by_position_first ← if_not_none sort_by_position_env
      (py_get report_config "sort_by_position_first" (VBool false));
  max_news_per_keyword ← or_else (VInt max_news_env)
      (py_get report_config "max_news_per_keyword" (VInt 0));
  reverse_content_order ← if_not_none reverse_content_env
      (py_get report_config "reverse_content_order" (VBool false));
  Ok (list_to_map [
    ("REPORT_MODE", report_mode);
    ("RANK_THRESHOLD", rank_threshold);
    ("SORT_BY_POSITION_FIRST", sort_by_position_first);
    ("MAX_NEWS_PER_KEYWORD", max_news_per_keyword);
    ("REVERSE_CONTENT_ORDER", reverse_content_order)]).

(** [_load_notification_config(config_data)] *)
Definition _load_notification_config (env : environ) (config_data : pyval)
  : result pydict :=
  notification ← py_get config_data "notification" (VDict ∅);
  let enable_notification_env := _get_env_bool env "ENABLE_NOTIFICATION" in
  enable_notification ← if_not_none enable_notification_env
      (py_get notification "enable_notification" (VBool true));
  message_batch_size ← py_get notification "message_batch_size" (VInt 4000);
  dingtalk_batch_size ← py_get notification "dingtalk_batch_size" (VInt 20000);
  feishu_batch_size ← py_get notification "feishu_batch_size" (VInt 29000);
  bark_batch_size ← py_get notification "bark_batch_size" (VInt 3600);
  slack_batch_size ← py_get notification "slack_batch_size" (VInt 4000);
  batch_send_interval ← py_get notification "batch_send_interval" (VFloat 1 0);
  feishu_message_separator ←
    py_get notification "feishu_message_separator" (VStr "---");
  max_accounts_per_channel ←
    or_else (VInt (_get_env_int env "MAX_ACCOUNTS_PER_CHANNEL" 0))
            (py_get notification "max_accounts_per_channel" (VInt 3));
  Ok (list_to_map [
    ("ENABLE_NOTIFICATION", enable_notification);
    ("MESSAGE_BATCH_SIZE", message_batch_size);
    ("DINGTALK_BATCH_SIZE", dingtalk_batch_size);
    ("FEISHU_BATCH_SIZE", feishu_batch_size);
    ("BARK_BATCH_SIZE", bark_batch_size);
    ("SLACK_BATCH_SIZE", slack_batch_size);
    ("BATCH_SEND_INTERVAL", batch_send_interval);
    ("FEISHU_MESSAGE_SEPARATOR", feishu_message_separator);
    ("MAX_ACCOUNTS_PER_CHANNEL", max_accounts_per_channel)]).

(** [_load_push_window_config(config_data)] *)
Definition _load_push_window_config (env : environ) (config_data : pyval)
  : result pydict :=
  notification ← py_get config_data "notification" (VDict ∅);
  push_window ← py_get notification "push_window" (VDict ∅);
  time_range ← py_get push_window "time_range" (VDict ∅);
  let enabled_env := _get_env_bool env "PUSH_WINDOW_ENABLED" in
  let once_per_day_env := _get_env_bool env "PUSH_WINDOW_ONCE_PER_DAY" in
  enabled ← if_not_none enabled_env (py_get push_window "enabled" (VBool false));
  start ← or_else (VStr (_get_env_str env "PUSH_WINDOW_START" ""))
                  (py_get time_range "start" (VStr "08:00"));
  end_ ← or_else (VStr (_get_env_str env "PUSH_WINDOW_END" ""))
                 (py_get time_range "end" (VStr "22:00"));
  once_per_day ← if_not_none once_per_day_env
                   (py_get push_window "once_per_day" (VBool true));
  Ok (list_to_map [
    ("ENABLED", enabled);
    ("TIME_RANGE", VDict (list_to_map [("START", start); ("END", end_)]));
    ("ONCE_PER_DAY", once_per_day)]).

(** [_load_weight_config(config_data)] *)
Definition _load_weight_config (config_data : pyval) : result pydict :=
  weight ← py_get config_data "weight" (VDict ∅);
  rank_weight ← py_get weight "rank_weight" (VFloat 1 0);
  frequency_weight ← py_get weight "frequency_weight" (VFloat 1 0);
  hotness_weight ← py_get weight "hotness_weight" (VFloat 1 0);
  Ok (list_to_map [
    ("RANK_WEIGHT", rank_weight);
    ("FREQUENCY_WEIGHT", frequency_weight);
    ("HOTNESS_WEIGHT", hotness_weight)]).

(** [_load_storage_config(config_data)] *)
Definition _load_storage_config (env : environ) (config_data : pyval)
  : result pydict :=
  storage ← py_get config_data "storage" (VDict ∅);
  formats ← py_get storage "formats" (VDict ∅);
  local ← py_get storage "local" (VDict ∅);
  remote ← py_get storage "remote" (VDict ∅);
  pull ← py_get storage "pull" (VDict ∅);
  let txt_enabled_env := _get_env_bool env "STORAGE_TXT_ENABLED" in
  let html_enabled_env := _get_env_bool env "STORAGE_HTML_ENABLED" in
  let pull_enabled_env := _get_env_bool env "PULL_ENABLED" in
  backend ← or_else (VStr (_get_env_str env "STORAGE_BACKEND" ""))
                    (py_get storage "backend" (VStr "auto"));
  sqlite ← py_get formats "sqlite" (VBool true);
  txt ← if_not_none txt_enabled_env (py_get formats "txt" (VBool true));
  html ← if_not_none html_enabled_env (py_get formats "html" (VBool true));
  data_dir ← py_get local "data_dir" (VStr "output");
  local_retention_days ←
    or_else (VInt (_get_env_int env "LOCAL_RETENTION_DAYS" 0))
            (py_get local "retention_days" (VInt 0));
  endpoint_url ← or_else (VStr (_get_env_str env "S3_ENDPOINT_URL" ""))
                         (py_get remote "endpoint_url" (VStr ""));
  bucket_name ← or_else (VStr (_get_env_str env "S3_BUCKET_NAME" ""))
                        (py_get remote "bucket_name" (VStr ""));
  access_key_id ← or_else (VStr (_get_env_str env "S3_ACCESS_KEY_ID" ""))
                          (py_get remote "access_key_id" (VStr ""));
  secret_access_key ←
    or_else (VStr (_get_env_str env "S3_SECRET_ACCESS_KEY" ""))
            (py_get remote "secret_access_key" (VStr ""));
  region ← or_else (VStr (_get_env_str env "S3_REGION" ""))
                   (py_get remote "region" (VStr ""));
  remote_retention_days ←
    or_else (VInt (_get_env_int env "REMOTE_RETENTION_DAYS" 0))
            (py_get remote "retention_days" (VInt 0));
  pull_enabled ← if_not_none pull_enabled_env (py_get pull "enabled" (VBool false));
  pull_days ← or_else (VInt (_get_env_int env "PULL_DAYS" 0))
                      (py_get pull "days" (VInt 7));
  Ok (list_to_map [
    ("BACKEND", backend);
    ("FORMATS", VDict (list_to_map [
       ("SQLITE", sqlite); ("TXT", txt); ("HTML", html)]));
    ("LOCAL", VDict (list_to_map [
       ("DATA_DIR", data_dir); ("RETENTION_DAYS", local_retention_days)]));
    ("REMOTE", VDict (list_to_map [
       ("ENDPOINT_URL", endpoint_url);
       ("BUCKET_NAME", bucket_name);
       ("ACCESS_KEY_ID", access_key_id);
       ("SECRET_ACCESS_KEY", secret_access_key);
       ("REGION", region);
       ("RETENTION_DAYS", remote_retention_days)]));
    ("PULL", VDict (list_to_map [
       ("ENABLED", pull_enabled); ("DAYS", pull_days)]))]).

(** One entry of [_load_webhook_config]:
    [_get_env_str(var) or webhooks.get(key, default)] *)
Definition webhook_field (env : environ) (webhooks : pyval)
    (var key : string) (dflt : pyval) : result pyval :=
  or_else (VStr (_get_env_str env var "")) (py_get webhooks key dflt).

(** [_load_webhook_config(config_data)] *)
Definition _load_webhook_config (env : environ) (config_data : pyval)
  : result pydict :=
  notification ← py_get config_data "notification" (VDict ∅);
  webhooks ← py_get notification "webhooks" (VDict ∅);
  let field := webhook_field env webhooks in
  feishu_webhook_url ← field "FEISHU_WEBHOOK_URL" "feishu_url" (VStr "");
  dingtalk_webhook_url ← field "DINGTALK_WEBHOOK_URL" "dingtalk_url" (VStr "");
  wework_webhook_url ← field "WEWORK_WEBHOOK_URL" "wework_url" (VStr "");
  wework_msg_type ← field "WEWORK_MSG_TYPE" "wework_msg_type" (VStr "markdown");
  telegram_bot_token ← field "TELEGRAM_BOT_TOKEN" "telegram_bot_token" (VStr "");
  telegram_chat_id ← field "TELEGRAM_CHAT_ID" "telegram_chat_id" (VStr "");
  email_from ← field "EMAIL_FROM" "email_from" (VStr "");
  email_password ← field "EMAIL_PASSWORD" "email_password" (VStr "");
  email_to ← field "EMAIL_TO" "email_to" (VStr "");
  email_smtp_server ← field "EMAIL_SMTP_SERVER" "email_smtp_server" (VStr "");
  email_smtp_port ← field "EMAIL_SMTP_PORT" "email_smtp_port" (VStr "");
  ntfy_server_url ←
    (v ← field "NTFY_SERVER_URL" "ntfy_server_url" VNone;
     or_else v (Ok (VStr "https://ntfy.sh")));
  ntfy_topic ← field "NTFY_TOPIC" "ntfy_topic" (VStr "");
  ntfy_token ← field "NTFY_TOKEN" "ntfy_token" (VStr "");
  bark_url ← field "BARK_URL" "bark_url" (VStr "");
  slack_webhook_url ← field "SLACK_WEBHOOK_URL" "slack_webhook_url" (VStr "");
  Ok (list_to_map [
    ("FEISHU_WEBHOOK_URL", feishu_webhook_url);
    ("DINGTALK_WEBHOOK_URL", dingtalk_webhook_url);
    ("WEWORK_WEBHOOK_URL", wework_webhook_url);
    ("WEWORK_MSG_TYPE", wework_msg_type);
    ("TELEGRAM_BOT_TOKEN", telegram_bot_token);
    ("TELEGRAM_CHAT_ID", telegram_chat_id);
    ("EMAIL_FROM", email_from);
    ("EMAIL_PASSWORD", email_password);
    ("EMAIL_TO", email_to);
    ("EMAIL_SMTP_SERVER", email_smtp_server);
    ("EMAIL_SMTP_PORT", email_smtp_port);
    ("NTFY_SERVER_URL", ntfy_server_url);
    ("NTFY_TOPIC", ntfy_topic);
    ("NTFY_TOKEN", ntfy_token);
    ("BARK_URL", bark_url);
    ("SLACK_WEBHOOK_URL", slack_webhook_url)]).

(** ** Multi-account parsing and pairing ([trendradar/core/config.py]) *)

Module Config.

(** Modelled from the spec: [parse_multi_account_config] of
    [trendradar/core/config.py], after section 4.3: the input is split at
    the comma, every token is trimmed and the empty tokens are dropped.
    The order of the tokens is kept. *)
Definition parse_tokens (s : string) : list string :=
  filter (λ t, t ≠ "") (PyStr.strip <$> PyStr.split "," s).

(** Modelled from the spec: the call [parse_multi_account_config(v)] on a
    Python value.  Section 4.3 defines the parser on a single string;
    any other value has no [split] to call. *)
Definition parse_multi_account_config (v : pyval) : result (list string) :=
  match v with
  | VStr s => Ok (parse_tokens s)
  | _ => Raise AttributeError
  end.

(** The token sequence of a field; a field the mapping lacks has none. *)
Fixpoint field_tokens (configs : list (string * list string)) (key : string)
  : list string :=
  match configs with
  | (k, v) :: rest => if String.eqb k key then v else field_tokens rest key
  | [] => []
  end.

(** Modelled from the spec: [validate_paired_configs] of
    [trendradar/core/config.py], after section 4.4: with [n] the length
    of the first required field, the result is [(true, n)] when every
    required field has length [n] and [n > 0], and [(false, 0)]
    otherwise.  Without [required_keys] every field of the mapping is
    required. *)
Definition validate_paired_configs (configs : list (string * list string))
    (channel_name : string) (required_keys : option (list string))
  : bool * Z :=
  let required := default (configs.*1) required_keys in
  let lengths := (λ k, Z.of_nat (length (field_tokens configs k))) <$> required in
  match lengths with
  | n :: _ =>
      if (0 <? n) && forallb (Z.eqb n) lengths then (true, n) else (false, 0)
  | [] => (false, 0)
  end.

End Config.

(** ** The channel summary ([_print_notification_sources]) *)

Inductive channel : Type :=
| Feishu | DingTalk | WeWork | Telegram | Email | Ntfy | Bark | Slack.

(** The two source labels of a summary line: [FromEnvironment] is printed
    as 环境变量 and [FromFile] as 配置文件. *)
Inductive source : Type :=
| FromEnvironment
| FromFile.

(** One element of [notification_sources]: what the f-string of the channel
    interpolates, as in 飞书({source}, {count}个账号).  [entry_count] is
    [None] for a line whose text has no account count, 邮件({from_source}). *)
Record entry : Type := Entry {
  entry_channel : channel;
  entry_source : source;
  entry_count : option pyval;
}.

(** What the function prints: the line of the sources (通知渠道配置来源)
    followed by the line of the maximum (每个渠道最大账号数), or the line that
    no channel is configured (未配置任何通知渠道). *)
Inductive summary : Type :=
| Sources (entries : list entry) (max_accounts : pyval)
| NoChannel.

(** [... if os.environ.get(var) else ...] *)
Definition source_of (env : environ) (var : string) : source :=
  match env !! var with
  | Some v => if PyStr.is_empty v then FromFile else FromEnvironment
  | None => FromFile
  end.

(** The block of a channel with a single multi-account field (Feishu,
    DingTalk, WeWork, Bark, Slack): the entries so far and the channel's
    line appended when the field is truthy. *)
Definition single_field_channel (env : environ) (config : pydict)
    (max_accounts : pyval) (ch : channel) (key : string)
    (notification_sources : list entry) : result (list entry) :=
  url ← py_getitem config key;
  if truthy url then
    accounts ← Config.parse_multi_account_config url;
    count ← py_min (Z.of_nat (length accounts)) max_accounts;
    Ok (notification_sources ++ [Entry ch (source_of env key) (Some count)])%list
  else Ok notification_sources.

(** [a and b]: [b] is evaluated only when [a] is truthy. *)
Definition and_then (a b : result pyval) : result pyval :=
  v ← a; if truthy v then b else Ok v.

Definition telegram_channel (env : environ) (config : pydict)
    (max_accounts : pyval) (notification_sources : list entry)
  : result (list entry) :=
  cond ← and_then (py_getitem config "TELEGRAM_BOT_TOKEN")
                  (py_getitem config "TELEGRAM_CHAT_ID");
  if truthy cond then
    bot_token ← py_getitem config "TELEGRAM_BOT_TOKEN";
    tokens ← Config.parse_multi_account_config bot_token;
    chat_id ← py_getitem config "TELEGRAM_CHAT_ID";
    chat_ids ← Config.parse_multi_account_config chat_id;
    let '(valid, count) :=
      Config.validate_paired_configs
        [("bot_token", tokens); ("chat_id", chat_ids)] "Telegram"
        (Some ["bot_token"; "chat_id"]) in
    if valid && (0 <? count) then
      count ← py_min count max_accounts;
      Ok (notification_sources
            ++ [Entry Telegram (source_of env "TELEGRAM_BOT_TOKEN") (Some count)])%list
    else Ok notification_sources
  else Ok notification_sources.

Definition email_channel (env : environ) (config : pydict)
    (notification_sources : list entry) : result (list entry) :=
  cond ← and_then (py_getitem config "EMAIL_FROM")
            (and_then (py_getitem config "EMAIL_PASSWORD")
                      (py_getitem config "EMAIL_TO"));
  if truthy cond then
    Ok (notification_sources ++ [Entry Email (source_of env "EMAIL_FROM") None])%list
  else Ok notification_sources.

Definition ntfy_channel (env : environ) (config : pydict)
    (max_accounts : pyval) (notification_sources : list entry)
  : result (list entry) :=
  cond ← and_then (py_getitem config "NTFY_SERVER_URL")
                  (py_getitem config "NTFY_TOPIC");
  if truthy cond then
    ntfy_topic ← py_getitem config "NTFY_TOPIC";
    topics ← Config.parse_multi_account_config ntfy_topic;
    ntfy_token ← py_getitem config "NTFY_TOKEN";
    tokens ← Config.parse_multi_account_config ntfy_token;
    match tokens with
    | _ :: _ =>
        let '(valid, count) :=
          Config.validate_paired_configs
            [("topic", topics); ("token", tokens)] "ntfy" None in
        if valid && (0 <? count) then
          count ← py_min count max_accounts;
          Ok (notification_sources
                ++ [Entry Ntfy (source_of env "NTFY_SERVER_URL") (Some count)])%list
        else Ok notification_sources
    | [] =>
        count ← py_min (Z.of_nat (length topics)) max_accounts;
        Ok (notification_sources
              ++ [Entry Ntfy (source_of env "NTFY_SERVER_URL") (Some count)])%list
    end
  else Ok notification_sources.

(** The list [notification_sources] at the end of the channel blocks. *)
Definition notification_sources_of (env : environ) (config : pydict)
    (max_accounts : pyval) : result (list entry) :=
  let single := single_field_channel env config max_accounts in
  l ← single Feishu "FEISHU_WEBHOOK_URL" [];
  l ← single DingTalk "DINGTALK_WEBHOOK_URL" l;
  l ← single WeWork "WEWORK_WEBHOOK_URL" l;
  l ← telegram_channel env config max_accounts l;
  l ← email_channel env config l;
  l ← ntfy_channel env config max_accounts l;
  l ← single Bark "BARK_URL" l;
  single Slack "SLACK_WEBHOOK_URL" l.

(** [_print_notification_sources(config)]: the result is what is printed. *)
Definition _print_notification_sources (env : environ) (config : pydict)
  : result summary :=
  max_accounts ← py_getitem config "MAX_ACCOUNTS_PER_CHANNEL";
  notification_sources ← notification_sources_of env config max_accounts;
  match notification_sources with
  | _ :: _ => Ok (Sources notification_sources max_accounts)
  | [] => Ok NoChannel
  end.

(** ** [load_config] *)

(** The files: a path that exists is mapped to the outcome of opening it
    and of [yaml.safe_load] on its content, the parsed value or the
    exception raised. *)
Abbreviation files := (gmap string (result pyval)).

(** The path [load_config] reads: the argument, or [CONFIG_PATH], or the
    default path. *)
Definition config_path_of (env : environ) (config_path : option string) : string :=
  match config_path with
  | None => default "config/config.yaml" (env !! "CONFIG_PATH")
  | Some p => p
  end.

(** [load_config(config_path)]: the configuration and the printed summary. *)
Definition load_config (fs : files) (env : environ) (config_path : option string)
  : result (pydict * summary) :=
  let config_path := config_path_of env config_path in
  match fs !! config_path with
  | None => Raise FileNotFoundError
  | Some loaded =>
      config_data ← loaded;
      let config : pydict := ∅ in
      app ← _load_app_config env config_data;
      let config := dict_update app config in
      crawler ← _load_crawler_config env config_data;
      let config := dict_update crawler config in
      report ← _load_report_config env config_data;
      let config := dict_update report config in
      notification ← _load_notification_config env config_data;
      let config := dict_update notification config in
      push_window ← _load_push_window_config env config_data;
      let config := <["PUSH_WINDOW" := VDict push_window]> config in
      weight ← _load_weight_config config_data;
      let config := <["WEIGHT_CONFIG" := VDict weight]> config in
      platforms ← py_get config_data "platforms" (VList []);
      let config := <["PLATFORMS" := platforms]> config in
      storage ← _load_storage_config env config_data;
      let config := <["STORAGE" := VDict storage]> config in
      webhook ← _load_webhook_config env config_data;
      let config := dict_update webhook config in
      printed ← _print_notification_sources env config;
      Ok (config, printed)
  end.

(** What a call of [load_config] prints as the summary, and the value the
    returned configuration holds under a key. *)
Definition printed_summary (fs : files) (env : environ)
    (config_path : option string) : result summary :=
  r ← load_config fs env config_path; Ok r.2.

Definition resolved (fs : files) (env : environ) (config_path : option string)
    (key : string) : result pyval :=
  r ← load_config fs env config_path; py_getitem r.1 key.

(** [v[key]] on a value *)
Definition py_index (v : pyval) (key : string) : result pyval :=
  match v with
  | VDict d => py_getitem d key
  | _ => Raise TypeError
  end.

(** ** The fields of the configuration, as the specification lists them *)

(** The section of the file at a path of keys, a section that is missing
    being empty; [None] when a value on the way is not a mapping. *)
Fixpoint file_section (v : pyval) (path : list string) : option pydict :=
  match v with
  | VDict d =>
      match path with
      | k :: rest => file_section (default (VDict ∅) (d !! k)) rest
      | [] => Some d
      end
  | _ => None
  end.

(** The sections the resolvers read. *)
Definition section_paths : list (list string) :=
  [ ["app"]; ["crawler"]; ["report"];
    ["notification"; "push_window"; "time_range"];
    ["notification"; "webhooks"];
    ["weight"];
    ["storage"; "formats"]; ["storage"; "local"]; ["storage"; "remote"];
    ["storage"; "pull"] ].

(** Every section the resolvers read is a mapping or is missing. *)
Definition sections_ok (config_data : pyval) : bool :=
  forallb (λ p, bool_decide (is_Some (file_section config_data p))) section_paths.

(** The Boolean fields with an environment override. *)
Inductive bool_field : Type :=
| ENABLE_CRAWLER
| SORT_BY_POSITION_FIRST
| REVERSE_CONTENT_ORDER
| ENABLE_NOTIFICATION
| PUSH_WINDOW_ENABLED
| PUSH_WINDOW_ONCE_PER_DAY
| STORAGE_TXT_ENABLED
| STORAGE_HTML_ENABLED
| PULL_ENABLED.

(** The integer fields with an environment override. *)
Inductive int_field : Type :=
| MAX_NEWS_PER_KEYWORD
| MAX_ACCOUNTS_PER_CHANNEL
| LOCAL_RETENTION_DAYS
| REMOTE_RETENTION_DAYS
| PULL_DAYS.

(** The description of a field: its environment variable, the section of
    the file and the key it is read from, and its default. *)
Record field_info (D : Type) : Type := FieldInfo {
  field_var : string;
  field_path : list string;
  field_key : string;
  field_default : D;
}.
Arguments FieldInfo {D} _ _ _ _.
Arguments field_var {D} _.
Arguments field_path {D} _.
Arguments field_key {D} _.
Arguments field_default {D} _.

Definition bool_field_info (f : bool_field) : field_info bool :=
  match f with
  | ENABLE_CRAWLER =>
      FieldInfo "ENABLE_CRAWLER" ["crawler"] "enable_crawler" true
  | SORT_BY_POSITION_FIRST =>
      FieldInfo "SORT_BY_POSITION_FIRST" ["report"] "sort_by_position_first" false
  | REVERSE_CONTENT_ORDER =>
      FieldInfo "REVERSE_CONTENT_ORDER" ["report"] "reverse_content_order" false
  | ENABLE_NOTIFICATION =>
      FieldInfo "ENABLE_NOTIFICATION" ["notification"] "enable_notification" true
  | PUSH_WINDOW_ENABLED =>
      FieldInfo "PUSH_WINDOW_ENABLED" ["notification"; "push_window"] "enabled" false
  | PUSH_WINDOW_ONCE_PER_DAY =>
      FieldInfo "PUSH_WINDOW_ONCE_PER_DAY" ["notification"; "push_window"]
        "once_per_day" true
  | STORAGE_TXT_ENABLED =>
      FieldInfo "STORAGE_TXT_ENABLED" ["storage"; "formats"] "txt" true
  | STORAGE_HTML_ENABLED =>
      FieldInfo "STORAGE_HTML_ENABLED" ["storage"; "formats"] "html" true
  | PULL_ENABLED =>
      FieldInfo "PULL_ENABLED" ["storage"; "pull"] "enabled" false
  end.

Definition int_field_info (f : int_field) : field_info Z :=
  match f with
  | MAX_NEWS_PER_KEYWORD =>
      FieldInfo "MAX_NEWS_PER_KEYWORD" ["report"] "max_news_per_keyword" 0
  | MAX_ACCOUNTS_PER_CHANNEL =>
      FieldInfo "MAX_ACCOUNTS_PER_CHANNEL" ["notification"]
        "max_accounts_per_channel" 3
  | LOCAL_RETENTION_DAYS =>
      FieldInfo "LOCAL_RETENTION_DAYS" ["storage"; "local"] "retention_days" 0
  | REMOTE_RETENTION_DAYS =>
      FieldInfo "REMOTE_RETENTION_DAYS" ["storage"; "remote"] "retention_days" 0
  | PULL_DAYS =>
      FieldInfo "PULL_DAYS" ["storage"; "pull"] "days" 7
  end.

(** Where the resolvers put a Boolean field: the value the resolver of the
    field's section returns for it. *)
Definition resolved_bool_field (env : environ) (config_data : pyval)
    (f : bool_field) : result pyval :=
  match f with
  | ENABLE_CRAWLER =>
      r ← _load_crawler_config env config_data; py_getitem r "ENABLE_CRAWLER"
  | SORT_BY_POSITION_FIRST =>
      r ← _load_report_config env config_data;
      py_getitem r "SORT_BY_POSITION_FIRST"
  | REVERSE_CONTENT_ORDER =>
      r ← _load_report_config env config_data;
      py_getitem r "REVERSE_CONTENT_ORDER"
  | ENABLE_NOTIFICATION =>
      r ← _load_notification_config env config_data;
      py_getitem r "ENABLE_NOTIFICATION"
  | PUSH_WINDOW_ENABLED =>
      r ← _load_push_window_config env config_data; py_getitem r "ENABLED"
  | PUSH_WINDOW_ONCE_PER_DAY =>
      r ← _load_push_window_config env config_data; py_getitem r "ONCE_PER_DAY"
  | STORAGE_TXT_ENABLED =>
      r ← _load_storage_config env config_data;
      formats ← py_getitem r "FORMATS"; py_index formats "TXT"
  | STORAGE_HTML_ENABLED =>
      r ← _load_storage_config env config_data;
      formats ← py_getitem r "FORMATS"; py_index formats "HTML"
  | PULL_ENABLED =>
      r ← _load_storage_config env config_data;
      pull ← py_getitem r "PULL"; py_index pull "ENABLED"
  end.

(** Where the resolvers put an integer field. *)
Definition resolved_int_field (env : environ) (config_data : pyval)
    (f : int_field) : result pyval :=
  match f with
  | MAX_NEWS_PER_KEYWORD =>
      r ← _load_report_config env config_data;
      py_getitem r "MAX_NEWS_PER_KEYWORD"
  | MAX_ACCOUNTS_PER_CHANNEL =>
      r ← _load_notification_config env config_data;
      py_getitem r "MAX_ACCOUNTS_PER_CHANNEL"
  | LOCAL_RETENTION_DAYS =>
      r ← _load_storage_config env config_data;
      local ← py_getitem r "LOCAL"; py_index local "RETENTION_DAYS"
  | REMOTE_RETENTION_DAYS =>
      r ← _load_storage_config env config_data;
      remote ← py_getitem r "REMOTE"; py_index remote "RETENTION_DAYS"
  | PULL_DAYS =>
      r ← _load_storage_config env config_data;
      pull ← py_getitem r "PULL"; py_index pull "DAYS"
  end.

(** The value a field falls through to: the value of the file when the key
    exists, else the default. *)
Definition file_or_default (section : pydict) (key : string) (dflt : pyval)
  : pyval :=
  default dflt (section !! key).

(** The three resolution rules the resolvers apply to a field, on a
    section that is a mapping. *)
Definition bool_rule (env : environ) (var : string) (section : pydict)
    (key : string) (dflt : bool) : pyval :=
  match _get_env_bool env var with
  | Some b => VBool b
  | None => file_or_default section key (VBool dflt)
  end.

Definition int_rule (env : environ) (var : string) (section : pydict)
    (key : string) (dflt : Z) : pyval :=
  let n := _get_env_int env var 0 in
  if n =? 0 then file_or_default section key (VInt dflt) else VInt n.

Definition str_rule (env : environ) (var : string) (section : pydict)
    (key : string) (dflt : pyval) : pyval :=
  let s := _get_env_str env var "" in
  if PyStr.is_empty s then file_or_default section key dflt else VStr s.

(** The dictionary [_load_notification_config] returns on a section that
    is a mapping. *)
Definition notification_values (env : environ) (sec : pydict) : pydict :=
  list_to_map [
    ("ENABLE_NOTIFICATION",
      bool_rule env "ENABLE_NOTIFICATION" sec "enable_notification" true);
    ("MESSAGE_BATCH_SIZE", file_or_default sec "message_batch_size" (VInt 4000));
    ("DINGTALK_BATCH_SIZE", file_or_default sec "dingtalk_batch_size" (VInt 20000));
    ("FEISHU_BATCH_SIZE", file_or_default sec "feishu_batch_size" (VInt 29000));
    ("BARK_BATCH_SIZE", file_or_default sec "bark_batch_size" (VInt 3600));
    ("SLACK_BATCH_SIZE", file_or_default sec "slack_batch_size" (VInt 4000));
    ("BATCH_SEND_INTERVAL", file_or_default sec "batch_send_interval" (VFloat 1 0));
    ("FEISHU_MESSAGE_SEPARATOR",
      file_or_default sec "feishu_message_separator" (VStr "---"));
    ("MAX_ACCOUNTS_PER_CHANNEL",
      int_rule env "MAX_ACCOUNTS_PER_CHANNEL" sec "max_accounts_per_channel" 3)].

(** The webhook values: every field but the ntfy server falls through to
    the file, the ntfy server to the public one when the file has nothing
    truthy. *)
Definition ntfy_server_rule (env : environ) (section : pydict) : pyval :=
  let v := str_rule env "NTFY_SERVER_URL" section "ntfy_server_url" VNone in
  if truthy v then v else VStr "https://ntfy.sh".

(** The dictionary [_load_webhook_config] returns on a section that is a
    mapping. *)
Definition webhook_values (env : environ) (sec : pydict) : pydict :=
  list_to_map [
    ("FEISHU_WEBHOOK_URL", str_rule env "FEISHU_WEBHOOK_URL" sec "feishu_url" (VStr ""));
    ("DINGTALK_WEBHOOK_URL",
      str_rule env "DINGTALK_WEBHOOK_URL" sec "dingtalk_url" (VStr ""));
    ("WEWORK_WEBHOOK_URL", str_rule env "WEWORK_WEBHOOK_URL" sec "wework_url" (VStr ""));
    ("WEWORK_MSG_TYPE",
      str_rule env "WEWORK_MSG_TYPE" sec "wework_msg_type" (VStr "markdown"));
    ("TELEGRAM_BOT_TOKEN",
      str_rule env "TELEGRAM_BOT_TOKEN" sec "telegram_bot_token" (VStr ""));
    ("TELEGRAM_CHAT_ID", str_rule env "TELEGRAM_CHAT_ID" sec "telegram_chat_id" (VStr ""));
    ("EMAIL_FROM", str_rule env "EMAIL_FROM" sec "email_from" (VStr ""));
    ("EMAIL_PASSWORD", str_rule env "EMAIL_PASSWORD" sec "email_password" (VStr ""));
    ("EMAIL_TO", str_rule env "EMAIL_TO" sec "email_to" (VStr ""));
    ("EMAIL_SMTP_SERVER",
      str_rule env "EMAIL_SMTP_SERVER" sec "email_smtp_server" (VStr ""));
    ("EMAIL_SMTP_PORT", str_rule env "EMAIL_SMTP_PORT" sec "email_smtp_port" (VStr ""));
    ("NTFY_SERVER_URL", ntfy_server_rule env sec);
    ("NTFY_TOPIC", str_rule env "NTFY_TOPIC" sec "ntfy_topic" (VStr ""));
    ("NTFY_TOKEN", str_rule env "NTFY_TOKEN" sec "ntfy_token" (VStr ""));
    ("BARK_URL", str_rule env "BARK_URL" sec "bark_url" (VStr ""));
    ("SLACK_WEBHOOK_URL",
      str_rule env "SLACK_WEBHOOK_URL" sec "slack_webhook_url" (VStr ""))].

(** The integer an environment variable overrides a field with: the
    variable is present and its trimmed value parses. *)
Definition int_override (env : environ) (var : string) : option Z :=
  if env_present env var then PyStr.int (PyStr.strip (environ_get env var))
  else None.

(** The value [_load_webhook_config] returns under a key. *)
Definition resolved_webhook (env : environ) (cfg : pyval) (key : string)
  : result pyval :=
  r ← _load_webhook_config env cfg; py_getitem r key.

(** The webhook URL fields other than the ntfy server: the environment
    variable, which is also the key of the result, and the key of the
    file. *)
Definition other_url_fields : list (string * string) :=
  [ ("FEISHU_WEBHOOK_URL", "feishu_url");
    ("DINGTALK_WEBHOOK_URL", "dingtalk_url");
    ("WEWORK_WEBHOOK_URL", "wework_url");
    ("BARK_URL", "bark_url");
    ("SLACK_WEBHOOK_URL", "slack_webhook_url") ].

(** The keys of the configuration the channel blocks of the summary read. *)
Definition channel_keys : list string :=
  [ "FEISHU_WEBHOOK_URL"; "DINGTALK_WEBHOOK_URL"; "WEWORK_WEBHOOK_URL";
    "TELEGRAM_BOT_TOKEN"; "TELEGRAM_CHAT_ID";
    "EMAIL_FROM"; "EMAIL_PASSWORD"; "EMAIL_TO";
    "NTFY_SERVER_URL"; "NTFY_TOPIC"; "NTFY_TOKEN";
    "BARK_URL"; "SLACK_WEBHOOK_URL" ].

(** The field whose tokens are the accounts of a channel. *)
Definition account_key (ch : channel) : string :=
  match ch with
  | Feishu => "FEISHU_WEBHOOK_URL"
  | DingTalk => "DINGTALK_WEBHOOK_URL"
  | WeWork => "WEWORK_WEBHOOK_URL"
  | Telegram => "TELEGRAM_BOT_TOKEN"
  | Email => "EMAIL_FROM"
  | Ntfy => "NTFY_TOPIC"
  | Bark => "BARK_URL"
  | Slack => "SLACK_WEBHOOK_URL"
  end.

(** The entries of a printed summary. *)
Definition entries_of (s : summary) : list entry :=
  match s with
  | Sources entries _ => entries
  | NoChannel => []
  end.

Definition is_str (v : pyval) : bool :=
  match v with VStr _ => true | _ => false end.

(** [config.get(key)]: the value under a key, [None] for a key the
    dictionary lacks. *)
Definition field_value (config : pydict) (key : string) : pyval :=
  default VNone (config !! key).

(** What a line of the summary states of the accounts of its channel:
    nothing on the line of the email channel; on the line of another
    channel the number of tokens of the channel's account field, a string,
    capped by [min] at the maximum. *)
Definition states_capped_count (config : pydict) (max_accounts : pyval)
    (e : entry) : Prop :=
  match entry_channel e with
  | Email => entry_count e = None
  | ch =>
      ∃ s count, config !! account_key ch = Some (VStr s)
        ∧ py_min (Z.of_nat (length (Config.parse_tokens s))) max_accounts
          = Ok count
        ∧ entry_count e = Some count
  end.

(** A block of the summary appends nothing, or one line of its channel
    that states the capped count. *)
Definition appends_line (config : pydict) (max_accounts : pyval) (ch : channel)
    (block : list entry → result (list entry)) : Prop :=
  ∀ l l', block l = Ok l' →
    l' = l
    ∨ ∃ e, l' = (l ++ [e])%list ∧ entry_channel e = ch
        ∧ states_capped_count config max_accounts e.

(** The summary has a line of the email channel. *)
Definition lists_email (l : list entry) : Prop :=
  ∃ e, e ∈ l ∧ entry_channel e = Email.

(** The three fields of the email channel are truthy. *)
Definition email_configured (config : pydict) : bool :=
  truthy (field_value config "EMAIL_FROM")
  && truthy (field_value config "EMAIL_PASSWORD")
  && truthy (field_value config "EMAIL_TO").

(** The keys each resolver returns. *)
Definition app_keys : list string :=
  ["VERSION_CHECK_URL"; "SHOW_VERSION_UPDATE"; "TIMEZONE"].
Definition crawler_keys : list string :=
  ["REQUEST_INTERVAL"; "USE_PROXY"; "DEFAULT_PROXY"; "ENABLE_CRAWLER"].
Definition report_keys : list string :=
  ["REPORT_MODE"; "RANK_THRESHOLD"; "SORT_BY_POSITION_FIRST";
   "MAX_NEWS_PER_KEYWORD"; "REVERSE_CONTENT_ORDER"].
Definition notification_keys : list string :=
  ["ENABLE_NOTIFICATION"; "MESSAGE_BATCH_SIZE"; "DINGTALK_BATCH_SIZE";
   "FEISHU_BATCH_SIZE"; "BARK_BATCH_SIZE"; "SLACK_BATCH_SIZE";
   "BATCH_SEND_INTERVAL"; "FEISHU_MESSAGE_SEPARATOR"; "MAX_ACCOUNTS_PER_CHANNEL"].
Definition webhook_keys : list string :=
  ["FEISHU_WEBHOOK_URL"; "DINGTALK_WEBHOOK_URL"; "WEWORK_WEBHOOK_URL";
   "WEWORK_MSG_TYPE"; "TELEGRAM_BOT_TOKEN"; "TELEGRAM_CHAT_ID";
   "EMAIL_FROM"; "EMAIL_PASSWORD"; "EMAIL_TO"; "EMAIL_SMTP_SERVER";
   "EMAIL_SMTP_PORT"; "NTFY_SERVER_URL"; "NTFY_TOPIC"; "NTFY_TOKEN";
   "BARK_URL"; "SLACK_WEBHOOK_URL"].

(** The keys of the configuration [load_config] returns. *)
Definition config_keys : list string :=
  webhook_keys ++ ["STORAGE"; "PLATFORMS"; "WEIGHT_CONFIG"; "PUSH_WINDOW"]
  ++ notification_keys ++ report_keys ++ crawler_keys ++ app_keys.

(** No key of [l1] is in [l2]. *)
Definition distinct_keys (l1 l2 : list string) : bool :=
  forallb (λ k, negb (existsb (String.eqb k) l2)) l1.

(** The fields of the configuration the summary hands to
    [parse_multi_account_config] as soon as they are truthy. *)
Definition account_fields : list string :=
  [ "FEISHU_WEBHOOK_URL"; "DINGTALK_WEBHOOK_URL"; "WEWORK_WEBHOOK_URL";
    "TELEGRAM_BOT_TOKEN"; "TELEGRAM_CHAT_ID"; "NTFY_TOPIC";
    "BARK_URL"; "SLACK_WEBHOOK_URL" ].

(** A value [min] compares with an integer. *)
Definition is_number (v : pyval) : bool :=
  match v with VInt _ | VBool _ | VFloat _ _ => true | _ => false end.

Definition str_or_falsy (v : pyval) : bool := is_str v || negb (truthy v).

(** What the summary needs of a configuration: every account field is a
    string or falsy, [NTFY_TOKEN] is a string unless [NTFY_TOPIC] is
    falsy, and the maximum is a number unless every account field is
    falsy. *)
Definition summary_inputs_ok (config : pydict) : bool :=
  forallb (λ k, str_or_falsy (field_value config k)) account_fields
  && (is_str (field_value config "NTFY_TOKEN")
      || negb (truthy (field_value config "NTFY_TOPIC")))
  && (is_number (field_value config "MAX_ACCOUNTS_PER_CHANNEL")
      || forallb (λ k, negb (truthy (field_value config k))) account_fields).

(** A file [load_config] accepts under an environment: every section the
    resolvers read is a mapping or missing, and the values the webhook
    fields and the maximum of accounts resolve to are what the summary
    needs. *)
Definition file_accepted (env : environ) (cfg : pyval) : bool :=
  sections_ok cfg
  && match _load_webhook_config env cfg, _load_notification_config env cfg with
     | Ok webhook, Ok notification => summary_inputs_ok (webhook ∪ notification)
     | _, _ => false
     end.

(** A computation that does not raise [e0]. *)
Definition never_raises {A} (e0 : exn) (m : result A) : Prop := m ≠ Raise e0.

(** ** Trimming and lower-casing *)

(** The first and the last character of a string. *)
Definition first_char (s : string) : option ascii :=
  match s with String c _ => Some c | EmptyString => None end.

Fixpoint last_char (s : string) : option ascii :=
  match s with
  | String c EmptyString => Some c
  | String _ s' => last_char s'
  | EmptyString => None
  end.

(** A string that [strip] leaves as it is: it neither starts nor ends with
    a whitespace character. *)
Definition trimmed (s : string) : Prop :=
  (∀ c, first_char s = Some c → PyStr.is_space c = false)
  ∧ (∀ c, last_char s = Some c → PyStr.is_space c = false).

(** ** The fields of the section resolvers *)

(** The string fields of the app, report, push-window and storage
    sections that have an environment override. *)
Inductive str_field : Type :=
| TIMEZONE
| REPORT_MODE
| PUSH_WINDOW_START
| PUSH_WINDOW_END
| STORAGE_BACKEND
| S3_ENDPOINT_URL
| S3_BUCKET_NAME
| S3_ACCESS_KEY_ID
| S3_SECRET_ACCESS_KEY
| S3_REGION.

Definition str_field_info (f : str_field) : field_info string :=
  match f with
  | TIMEZONE => FieldInfo "TIMEZONE" ["app"] "timezone" "Asia/Shanghai"
  | REPORT_MODE => FieldInfo "REPORT_MODE" ["report"] "mode" "daily"
  | PUSH_WINDOW_START =>
      FieldInfo "PUSH_WINDOW_START" ["notification"; "push_window"; "time_range"]
        "start" "08:00"
  | PUSH_WINDOW_END =>
      FieldInfo "PUSH_WINDOW_END" ["notification"; "push_window"; "time_range"]
        "end" "22:00"
  | STORAGE_BACKEND => FieldInfo "STORAGE_BACKEND" ["storage"] "backend" "auto"
  | S3_ENDPOINT_URL =>
      FieldInfo "S3_ENDPOINT_URL" ["storage"; "remote"] "endpoint_url" ""
  | S3_BUCKET_NAME =>
      FieldInfo "S3_BUCKET_NAME" ["storage"; "remote"] "bucket_name" ""
  | S3_ACCESS_KEY_ID =>
      FieldInfo "S3_ACCESS_KEY_ID" ["storage"; "remote"] "access_key_id" ""
  | S3_SECRET_ACCESS_KEY =>
      FieldInfo "S3_SECRET_ACCESS_KEY" ["storage"; "remote"] "secret_access_key" ""
  | S3_REGION => FieldInfo "S3_REGION" ["storage"; "remote"] "region" ""
  end.

(** Where the resolvers put a string field. *)
Definition resolved_str_field (env : environ) (config_data : pyval)
    (f : str_field) : result pyval :=
  match f with
  | TIMEZONE => r ← _load_app_config env config_data; py_getitem r "TIMEZONE"
  | REPORT_MODE =>
      r ← _load_report_config env config_data; py_getitem r "REPORT_MODE"
  | PUSH_WINDOW_START =>
      r ← _load_push_window_config env config_data;
      time_range ← py_getitem r "TIME_RANGE"; py_index time_range "START"
  | PUSH_WINDOW_END =>
      r ← _load_push_window_config env config_data;
      time_range ← py_getitem r "TIME_RANGE"; py_index time_range "END"
  | STORAGE_BACKEND =>
      r ← _load_storage_config env config_data; py_getitem r "BACKEND"
  | S3_ENDPOINT_URL =>
      r ← _load_storage_config env config_data;
      remote ← py_getitem r "REMOTE"; py_index remote "ENDPOINT_URL"
  | S3_BUCKET_NAME =>
      r ← _load_storage_config env config_data;
      remote ← py_getitem r "REMOTE"; py_index remote "BUCKET_NAME"
  | S3_ACCESS_KEY_ID =>
      r ← _load_storage_config env config_data;
      remote ← py_getitem r "REMOTE"; py_index remote "ACCESS_KEY_ID"
  | S3_SECRET_ACCESS_KEY =>
      r ← _load_storage_config env config_data;
      remote ← py_getitem r "REMOTE"; py_index remote "SECRET_ACCESS_KEY"
  | S3_REGION =>
      r ← _load_storage_config env config_data;
      remote ← py_getitem r "REMOTE"; py_index remote "REGION"
  end.

(** The fields without an environment override. *)
Inductive plain_field : Type :=
| VERSION_CHECK_URL
| SHOW_VERSION_UPDATE
| REQUEST_INTERVAL
| USE_PROXY
| DEFAULT_PROXY
| RANK_THRESHOLD
| MESSAGE_BATCH_SIZE
| DINGTALK_BATCH_SIZE
| FEISHU_BATCH_SIZE
| BARK_BATCH_SIZE
| SLACK_BATCH_SIZE
| BATCH_SEND_INTERVAL
| FEISHU_MESSAGE_SEPARATOR
| RANK_WEIGHT
| FREQUENCY_WEIGHT
| HOTNESS_WEIGHT
| FORMAT_SQLITE
| LOCAL_DATA_DIR.

(** The section, the key and the default of a field without override; the
    variable of the description is not used. *)
Definition plain_field_info (f : plain_field) : field_info pyval :=
  match f with
  | VERSION_CHECK_URL => FieldInfo "" ["app"] "version_check_url" (VStr "")
  | SHOW_VERSION_UPDATE => FieldInfo "" ["app"] "show_version_update" (VBool true)
  | REQUEST_INTERVAL => FieldInfo "" ["crawler"] "request_interval" (VInt 100)
  | USE_PROXY => FieldInfo "" ["crawler"] "use_proxy" (VBool false)
  | DEFAULT_PROXY => FieldInfo "" ["crawler"] "default_proxy" (VStr "")
  | RANK_THRESHOLD => FieldInfo "" ["report"] "rank_threshold" (VInt 10)
  | MESSAGE_BATCH_SIZE =>
      FieldInfo "" ["notification"] "message_batch_size" (VInt 4000)
  | DINGTALK_BATCH_SIZE =>
      FieldInfo "" ["notification"] "dingtalk_batch_size" (VInt 20000)
  | FEISHU_BATCH_SIZE =>
      FieldInfo "" ["notification"] "feishu_batch_size" (VInt 29000)
  | BARK_BATCH_SIZE => FieldInfo "" ["notification"] "bark_batch_size" (VInt 3600)
  | SLACK_BATCH_SIZE => FieldInfo "" ["notification"] "slack_batch_size" (VInt 4000)
  | BATCH_SEND_INTERVAL =>
      FieldInfo "" ["notification"] "batch_send_interval" (VFloat 1 0)
  | FEISHU_MESSAGE_SEPARATOR =>
      FieldInfo "" ["notification"] "feishu_message_separator" (VStr "---")
  | RANK_WEIGHT => FieldInfo "" ["weight"] "rank_weight" (VFloat 1 0)
  | FREQUENCY_WEIGHT => FieldInfo "" ["weight"] "frequency_weight" (VFloat 1 0)
  | HOTNESS_WEIGHT => FieldInfo "" ["weight"] "hotness_weight" (VFloat 1 0)
  | FORMAT_SQLITE => FieldInfo "" ["storage"; "formats"] "sqlite" (VBool true)
  | LOCAL_DATA_DIR => FieldInfo "" ["storage"; "local"] "data_dir" (VStr "output")
  end.

(** Where the resolvers put a field without override. *)
Definition resolved_plain_field (env : environ) (config_data : pyval)
    (f : plain_field) : result pyval :=
  match f with
  | VERSION_CHECK_URL =>
      r ← _load_app_config env config_data; py_getitem r "VERSION_CHECK_URL"
  | SHOW_VERSION_UPDATE =>
      r ← _load_app_config env config_data; py_getitem r "SHOW_VERSION_UPDATE"
  | REQUEST_INTERVAL =>
      r ← _load_crawler_config env config_data; py_getitem r "REQUEST_INTERVAL"
  | USE_PROXY =>
      r ← _load_crawler_config env config_data; py_getitem r "USE_PROXY"
  | DEFAULT_PROXY =>
      r ← _load_crawler_config env config_data; py_getitem r "DEFAULT_PROXY"
  | RANK_THRESHOLD =>
      r ← _load_report_config env config_data; py_getitem r "RANK_THRESHOLD"
  | MESSAGE_BATCH_SIZE =>
      r ← _load_notification_config env config_data;
      py_getitem r "MESSAGE_BATCH_SIZE"
  | DINGTALK_BATCH_SIZE =>
      r ← _load_notification_config env config_data;
      py_getitem r "DINGTALK_BATCH_SIZE"
  | FEISHU_BATCH_SIZE =>
      r ← _load_notification_config env config_data;
      py_getitem r "FEISHU_BATCH_SIZE"
  | BARK_BATCH_SIZE =>
      r ← _load_notification_config env config_data;
      py_getitem r "BARK_BATCH_SIZE"
  | SLACK_BATCH_SIZE =>
      r ← _load_notification_config env config_data;
      py_getitem r "SLACK_BATCH_SIZE"
  | BATCH_SEND_INTERVAL =>
      r ← _load_notification_config env config_data;
      py_getitem r "BATCH_SEND_INTERVAL"
  | FEISHU_MESSAGE_SEPARATOR =>
      r ← _load_notification_config env config_data;
      py_getitem r "FEISHU_MESSAGE_SEPARATOR"
  | RANK_WEIGHT => r ← _load_weight_config config_data; py_getitem r "RANK_WEIGHT"
  | FREQUENCY_WEIGHT =>
      r ← _load_weight_config config_data; py_getitem r "FREQUENCY_WEIGHT"
  | HOTNESS_WEIGHT =>
      r ← _load_weight_config config_data; py_getitem r "HOTNESS_WEIGHT"
  | FORMAT_SQLITE =>
      r ← _load_storage_config env config_data;
      formats ← py_getitem r "FORMATS"; py_index formats "SQLITE"
  | LOCAL_DATA_DIR =>
      r ← _load_storage_config env config_data;
      local ← py_getitem r "LOCAL"; py_index local "DATA_DIR"
  end.

(** The webhook fields: the environment variable, which is also the key of
    the result, the key of the file and the default. *)
Definition webhook_fields : list (string * string * string) :=
  [ ("FEISHU_WEBHOOK_URL", "feishu_url", "");
    ("DINGTALK_WEBHOOK_URL", "dingtalk_url", "");
    ("WEWORK_WEBHOOK_URL", "wework_url", "");
    ("WEWORK_MSG_TYPE", "wework_msg_type", "markdown");
    ("TELEGRAM_BOT_TOKEN", "telegram_bot_token", "");
    ("TELEGRAM_CHAT_ID", "telegram_chat_id", "");
    ("EMAIL_FROM", "email_from", "");
    ("EMAIL_PASSWORD", "email_password", "");
    ("EMAIL_TO", "email_to", "");
    ("EMAIL_SMTP_SERVER", "email_smtp_server", "");
    ("EMAIL_SMTP_PORT", "email_smtp_port", "");
    ("NTFY_TOPIC", "ntfy_topic", "");
    ("NTFY_TOKEN", "ntfy_token", "");
    ("BARK_URL", "bark_url", "");
    ("SLACK_WEBHOOK_URL", "slack_webhook_url", "") ].

(** ** Sections that are not mappings *)

(** A computation that raises nothing but [e0]. *)
Definition raises_only {A} (e0 : exn) (m : result A) : Prop :=
  ∀ e, m = Raise e → e = e0.

(** The sections a resolver reads a key of whatever the environment holds:
    a value that is not a mapping there makes the resolver raise. *)
Definition eager_paths : list (list string) :=
  [ ["app"]; ["crawler"]; ["report"]; ["notification"];
    ["notification"; "push_window"]; ["weight"];
    ["storage"]; ["storage"; "formats"]; ["storage"; "local"] ].

(** ** The variables of the environment *)

(** The environment variables [load_config] reads. *)
Definition environment_variables : list string :=
  [ "CONFIG_PATH"; "TIMEZONE"; "ENABLE_CRAWLER";
    "SORT_BY_POSITION_FIRST"; "REVERSE_CONTENT_ORDER"; "MAX_NEWS_PER_KEYWORD";
    "REPORT_MODE"; "ENABLE_NOTIFICATION"; "MAX_ACCOUNTS_PER_CHANNEL";
    "PUSH_WINDOW_ENABLED"; "PUSH_WINDOW_ONCE_PER_DAY";
    "PUSH_WINDOW_START"; "PUSH_WINDOW_END";
    "STORAGE_TXT_ENABLED"; "STORAGE_HTML_ENABLED"; "PULL_ENABLED";
    "STORAGE_BACKEND"; "LOCAL_RETENTION_DAYS";
    "S3_ENDPOINT_URL"; "S3_BUCKET_NAME"; "S3_ACCESS_KEY_ID";
    "S3_SECRET_ACCESS_KEY"; "S3_REGION"; "REMOTE_RETENTION_DAYS"; "PULL_DAYS";
    "FEISHU_WEBHOOK_URL"; "DINGTALK_WEBHOOK_URL"; "WEWORK_WEBHOOK_URL";
    "WEWORK_MSG_TYPE"; "TELEGRAM_BOT_TOKEN"; "TELEGRAM_CHAT_ID";
    "EMAIL_FROM"; "EMAIL_PASSWORD"; "EMAIL_TO";
    "EMAIL_SMTP_SERVER"; "EMAIL_SMTP_PORT";
    "NTFY_SERVER_URL"; "NTFY_TOPIC"; "NTFY_TOKEN";
    "BARK_URL"; "SLACK_WEBHOOK_URL" ].

(** Two environments that agree on the variables [load_config] reads. *)
Definition same_variables (env env' : environ) : Prop :=
  ∀ var, var ∈ environment_variables → env !! var = env' !! var.

(** ** Characters of a [.env] line *)

(** [c in s] for a character *)
Fixpoint occurs (c : ascii) (s : string) : bool :=
  match s with
  | String a s' => Ascii.eqb a c || occurs c s'
  | EmptyString => false
  end.

(** [q + v + q]: a value between two quote characters *)
Definition quoted (q : ascii) (v : string) : string :=
  String q (v ++ String q "").

(** A value the loop of [_load_dotenv] does not take for a quoted one. *)
Definition unquoted (v : string) : Prop :=
  PyStr.startswith PyStr.dquote v && PyStr.endswith PyStr.dquote v = false
  ∧ PyStr.startswith PyStr.squote v && PyStr.endswith PyStr.squote v = false.

(** ** The order and the labels of the summary *)

(** The order in which [_print_notification_sources] visits the channels. *)
Definition channel_order : list channel :=
  [Feishu; DingTalk; WeWork; Telegram; Email; Ntfy; Bark; Slack].

(** A summary without its source labels: what is left does not depend on
    where a value came from. *)
Definition unlabelled (e : entry) : channel * option pyval :=
  (entry_channel e, entry_count e).

Definition unlabelled_summary (s : summary)
  : option (list (channel * option pyval) * pyval) :=
  match s with
  | Sources entries max_accounts => Some (unlabelled <$> entries, max_accounts)
  | NoChannel => None
  end.

(** Two blocks that differ by the environment only: they raise alike and
    append lines that differ by the label only. *)
Definition same_lines (a b : result (list entry)) : Prop :=
  match a, b with
  | Ok l, Ok l' => unlabelled <$> l = unlabelled <$> l'
  | Raise e, Raise e' => e = e'
  | _, _ => False
  end.

(** ** Sample files and environments *)

Module Sample.

(** A YAML mapping. *)
Definition mapping (l : list (string * pyval)) : pyval := VDict (list_to_map l).

(** A file at the default path with this parsed content. *)
Definition file (content : pyval) : files :=
  {[ "config/config.yaml" := Ok content ]}.

(** A file with only a [notification.webhooks] section. *)
Definition webhooks (l : list (string * pyval)) : pyval :=
  mapping [("notification", mapping [("webhooks", mapping l)])].

(** An empty file: [yaml.safe_load] returns [None]. *)
Definition empty : pyval := VNone.

(** [notification: {max_accounts_per_channel: 5}] *)
Definition maximum_five : pyval :=
  mapping [("notification", mapping [("max_accounts_per_channel", VInt 5)])].


(** [feishu_url] holds a lone comma: no account. *)
Definition feishu_comma : pyval := webhooks [("feishu_url", VStr ",")].

(** [feishu_url] holds one account. *)
Definition feishu_one : pyval := webhooks [("feishu_url", VStr "u1")].

(** [ntfy_server_url] is set to the empty string. *)
Definition ntfy_blank : pyval := webhooks [("ntfy_server_url", VStr "")].

(** [crawler: {enable_crawler: false}] *)
Definition crawler_off : pyval :=
  mapping [("crawler", mapping [("enable_crawler", VBool false)])].

(** [storage: {pull: {days: 14}}] *)
Definition pull_two_weeks : pyval :=
  mapping [("storage", mapping [("pull", mapping [("days", VInt 14)])])].

(** A resolved configuration: five Feishu accounts, the email channel,
    a maximum of three accounts. *)
Definition resolved_config : pydict :=
  list_to_map [
    ("MAX_ACCOUNTS_PER_CHANNEL", VInt 3);
    ("FEISHU_WEBHOOK_URL", VStr "u1,u2,u3,u4,u5");
    ("DINGTALK_WEBHOOK_URL", VStr "");
    ("WEWORK_WEBHOOK_URL", VStr "");
    ("TELEGRAM_BOT_TOKEN", VStr "");
    ("TELEGRAM_CHAT_ID", VStr "");
    ("EMAIL_FROM", VStr "a@x.io");
    ("EMAIL_PASSWORD", VStr "pw");
    ("EMAIL_TO", VStr "b@x.io");
    ("EMAIL_SMTP_SERVER", VStr "");
    ("EMAIL_SMTP_PORT", VStr "");
    ("NTFY_SERVER_URL", VStr "https://ntfy.sh");
    ("NTFY_TOPIC", VStr "");
    ("NTFY_TOKEN", VStr "");
    ("BARK_URL", VStr "");
    ("SLACK_WEBHOOK_URL", VStr "")].


(** [ntfy_server_url: 8080], an integer. *)
Definition ntfy_port : pyval := webhooks [("ntfy_server_url", VInt 8080)].

(** [feishu_url:] with no value, which YAML reads as null. *)
Definition feishu_null : pyval := webhooks [("feishu_url", VNone)].

(** The email channel with an unquoted numeric password, and a null
    [feishu_url]. *)
Definition numeric_password : pyval :=
  webhooks [("feishu_url", VNone); ("email_from", VStr "a@x.io");
                   ("email_password", VInt 123456); ("email_to", VStr "b@x.io")].



(** The resolved configuration of [resolved_config] with a numeric
    password. *)
Definition numeric_password_config : pydict :=
  <["EMAIL_PASSWORD" := VInt 123456]> resolved_config.

End Sample.

Example strip_ex : PyStr.strip "  a b  " = "a b".
Proof. reflexivity. Qed.
Example int_ex : PyStr.int "-1_000" = Some (-1000) /\ PyStr.int "1__0" = None
  /\ PyStr.int "12a" = None /\ PyStr.int "" = None /\ PyStr.int "+7" = Some 7.
Proof. repeat split; reflexivity. Qed.
Example split_ex : PyStr.split "," "a,b,,c " = ["a"; "b"; ""; "c "].
Proof. reflexivity. Qed.
Example parse_tokens_ex :
  Config.parse_tokens "a,b,,c " = ["a"; "b"; "c"] ∧ Config.parse_tokens "" = [].
Proof. split; reflexivity. Qed.
Example validate_ex :
  Config.validate_paired_configs
    [("bot_token", ["t1"; "t2"]); ("chat_id", ["c1"])] "Telegram" None = (false, 0)
  ∧ Config.validate_paired_configs
      [("topic", ["x"]); ("token", ["y"])] "ntfy" None = (true, 1).
Proof. split; reflexivity. Qed.
Example dotenv_ex :
  _load_dotenv (Some ["# c"; "A = '1'"; "B=x"; "A=2"; "=3"]) {["B" := "old"]}
  = (<["A" := "1"]> {["B" := "old"]}, true).
Proof. by vm_compute. Qed.

(** ** The [.env] overlay leaves the variables already set alone *)

Section DotenvFrame.

Import Dotenv.

Lemma environ_set_lookup key value env env' k :
  environ_set key value env = Some env' →
  env' !! k = if decide (key = k) then Some value else env !! k.
Proof.
  unfold environ_set. case (has_nul key || has_nul value); [done |].
  intros [= <-]. apply lookup_insert.
Qed.

(** A step either leaves the environment as it is or binds the key of
    the line, which was free, to the value of the line. *)
Lemma step_cases st line st' :
  step st line = Some st' →
  environ_of st' = environ_of st
  ∨ ∃ key value, parse_line line = Some (key, value)
      ∧ key ≠ "" ∧ environ_of st !! key = None
      ∧ environ_of st' = <[key := value]> (environ_of st).
Proof.
  unfold step. destruct (parse_line line) as [[key value]|] eqn:Hline.
  - destruct (PyStr.is_empty key) eqn:Hkey; simpl.
    { intros [= <-]. by left. }
    case_bool_decide as Hfree; simpl.
    + unfold environ_set. case (has_nul key || has_nul value); [done |].
      intros [= <-]. right. exists key, value. repeat split; try done.
      intros ->. discriminate Hkey.
    + intros [= <-]. by left.
  - intros [= <-]. by left.
Qed.

Lemma step_preserves st line st' k v :
  step st line = Some st' →
  environ_of st !! k = Some v → environ_of st' !! k = Some v.
Proof.
  intros Hstep Hk. destruct (step_cases _ _ _ Hstep) as [-> | Hnew]; [done |].
  destruct Hnew as (key & value & _ & _ & Hfree & ->).
  rewrite lookup_insert_ne; [done |]. intros ->. congruence.
Qed.

Lemma run_preserves lines st k v :
  environ_of st !! k = Some v → environ_of (run st lines).1 !! k = Some v.
Proof.
  revert st. induction lines as [| line rest IH]; intros st Hk; simpl; [done |].
  destruct (step st line) as [st'|] eqn:Hstep; [| done].
  apply IH. by eapply step_preserves.
Qed.

Lemma run_origin lines st k v :
  environ_of (run st lines).1 !! k = Some v →
  environ_of st !! k = Some v
  ∨ environ_of st !! k = None
    ∧ k ≠ "" ∧ ∃ line, line ∈ lines ∧ parse_line line = Some (k, v).
Proof.
  revert st. induction lines as [| line rest IH]; intros st; simpl.
  { by left. }
  destruct (step st line) as [st'|] eqn:Hstep; [| by left].
  intros Hk. destruct (step_cases _ _ _ Hstep) as [Heq | Hnew].
  - destruct (IH _ Hk) as [Hold | (Hfree & Hne & l & Hin & Hl)].
    + left. by rewrite <- Heq.
    + right. rewrite <- Heq. repeat split; try done.
      exists l. split; [by apply list_elem_of_further | done].
  - destruct Hnew as (key & value & Hline & Hkey & Hfree & Henv).
    destruct (IH _ Hk) as [Hold | (Hnone & Hne & l & Hin & Hl)].
    + rewrite Henv, lookup_insert in Hold. case_decide as Hkk.
      * injection Hold as <-. subst key. right. repeat split; try done.
        exists line. split; [apply list_elem_of_here | done].
      * by left.
    + rewrite Henv, lookup_insert in Hnone. case_decide; [done |].
      right. repeat split; try done.
      exists l. split; [by apply list_elem_of_further | done].
Qed.

End DotenvFrame.

(** C8. Loading the [.env] file never overwrites a variable of the process
    environment: every key that is set before the load keeps its value,
    and a key that is set afterwards but was not before is the (non-empty)
    key of one of the file's [KEY=VALUE] lines, bound to the value of that
    line with its surrounding quotes removed; a comment line yields no
    binding. *)
Theorem load_dotenv_never_overwrites (file : option (list string))
    (env : environ) (k : string) :
  let env' := (_load_dotenv file env).1 in
  (∀ v, env !! k = Some v → env' !! k = Some v)
  ∧ (∀ v, env !! k = None → env' !! k = Some v →
       k ≠ "" ∧ ∃ lines line, file = Some lines ∧ line ∈ lines
                  ∧ Dotenv.parse_line line = Some (k, v))
  ∧ (∀ line, PyStr.startswith "#" (PyStr.strip line) = true →
       Dotenv.parse_line line = None).
Proof.
  unfold _load_dotenv. destruct file as [lines|]; simpl.
  - pose proof (run_preserves lines (Dotenv.State env 0) k) as Hkeep.
    pose proof (run_origin lines (Dotenv.State env 0) k) as Horigin.
    destruct (Dotenv.run (Dotenv.State env 0) lines) as [st ok]; simpl in *.
    split; [| split].
    + intros v Hv. by apply Hkeep.
    + intros v Hnone Hv. destruct (Horigin v Hv) as [Hold | (_ & Hne & l & Hin & Hl)].
      * congruence.
      * split; [done |]. by exists lines, l.
    + intros line Hc. unfold Dotenv.parse_line. rewrite Hc.
      by rewrite orb_true_r.
  - split; [done | split].
    + intros v Hnone Hv. congruence.
    + intros line Hc. unfold Dotenv.parse_line. rewrite Hc.
      by rewrite orb_true_r.
Qed.

(** ** The resolvers on a well-formed file *)

Lemma file_section_step v k rest sec :
  file_section v (k :: rest) = Some sec →
  ∃ d, py_get v k (VDict ∅) = Ok (VDict d) ∧ file_section (VDict d) rest = Some sec.
Proof.
  destruct v as [| | | | | |d0]; try done. simpl.
  destruct (default (VDict ∅) (d0 !! k)) as [| | | | | |d] eqn:Hd;
    try (destruct rest; done).
  intros Hrest. by exists d.
Qed.

Lemma file_section_nil d sec : file_section (VDict d) [] = Some sec → d = sec.
Proof. by intros [= ->]. Qed.

Lemma if_not_none_rule env var sec key dflt :
  if_not_none (_get_env_bool env var) (py_get (VDict sec) key (VBool dflt))
  = Ok (bool_rule env var sec key dflt).
Proof. unfold if_not_none, bool_rule. by destruct (_get_env_bool env var). Qed.

Lemma or_else_int_rule env var sec key dflt :
  or_else (VInt (_get_env_int env var 0)) (py_get (VDict sec) key (VInt dflt))
  = Ok (int_rule env var sec key dflt).
Proof.
  unfold or_else, int_rule. simpl. by destruct (_get_env_int env var 0 =? 0).
Qed.

Lemma or_else_str_rule env var sec key dflt :
  or_else (VStr (_get_env_str env var "")) (py_get (VDict sec) key dflt)
  = Ok (str_rule env var sec key dflt).
Proof.
  unfold or_else, str_rule. simpl.
  by destruct (PyStr.is_empty (_get_env_str env var "")).
Qed.

Lemma py_get_dict sec key dflt :
  py_get (VDict sec) key dflt = Ok (file_or_default sec key dflt).
Proof. done. Qed.

Lemma bind_ok {A B} (a : A) (f : A → result B) : (Ok a ≫= f) = f a.
Proof. done. Qed.

(** Steps through a resolver whose sections are known. *)
Ltac resolver_steps :=
  repeat first
    [ rewrite if_not_none_rule
    | rewrite or_else_int_rule
    | rewrite or_else_str_rule
    | rewrite py_get_dict
    | rewrite bind_ok ].

(** Opens the sections a hypothesis [file_section cfg path = Some sec]
    speaks of. *)
Ltac open_section H :=
  repeat match type of H with
    | file_section _ (_ :: _) = Some _ =>
        let d := fresh "d" in
        let Hget := fresh "Hget" in
        apply file_section_step in H; destruct H as (d & Hget & H)
    | file_section (VDict _) [] = Some _ =>
        apply file_section_nil in H; subst
    end.

Lemma load_crawler_config_ok env cfg sec :
  file_section cfg ["crawler"] = Some sec →
  _load_crawler_config env cfg = Ok (list_to_map [
    ("REQUEST_INTERVAL", file_or_default sec "request_interval" (VInt 100));
    ("USE_PROXY", file_or_default sec "use_proxy" (VBool false));
    ("DEFAULT_PROXY", file_or_default sec "default_proxy" (VStr ""));
    ("ENABLE_CRAWLER", bool_rule env "ENABLE_CRAWLER" sec "enable_crawler" true)]).
Proof.
  intros H. open_section H. unfold _load_crawler_config.
  rewrite Hget. by resolver_steps.
Qed.

(** Identifies the sections two hypotheses name for the same key. *)
Ltac unify_sections :=
  repeat match goal with
    | H1 : py_get ?v ?k ?e = Ok (VDict ?a),
      H2 : py_get ?v ?k ?e = Ok (VDict ?b) |- _ =>
        rewrite H1 in H2; injection H2 as <-
    end.

Ltac open_sections :=
  repeat match goal with
    | H : file_section _ _ = Some _ |- _ => progress (open_section H); unify_sections
    end.

(** Rewrites the reads of the sections with the hypotheses that name them. *)
Ltac enter_sections :=
  repeat first
    [ rewrite bind_ok
    | match goal with H : py_get _ _ _ = Ok _ |- _ => rewrite H end ].

Lemma load_app_config_ok env cfg sec :
  file_section cfg ["app"] = Some sec →
  _load_app_config env cfg = Ok (list_to_map [
    ("VERSION_CHECK_URL", file_or_default sec "version_check_url" (VStr ""));
    ("SHOW_VERSION_UPDATE", file_or_default sec "show_version_update" (VBool true));
    ("TIMEZONE", str_rule env "TIMEZONE" sec "timezone" (VStr "Asia/Shanghai"))]).
Proof.
  intros H. open_sections. unfold _load_app_config.
  rewrite Hget. by resolver_steps.
Qed.

Lemma load_report_config_ok env cfg sec :
  file_section cfg ["report"] = Some sec →
  _load_report_config env cfg = Ok (list_to_map [
    ("REPORT_MODE", str_rule env "REPORT_MODE" sec "mode" (VStr "daily"));
    ("RANK_THRESHOLD", file_or_default sec "rank_threshold" (VInt 10));
    ("SORT_BY_POSITION_FIRST",
      bool_rule env "SORT_BY_POSITION_FIRST" sec "sort_by_position_first" false);
    ("MAX_NEWS_PER_KEYWORD",
      int_rule env "MAX_NEWS_PER_KEYWORD" sec "max_news_per_keyword" 0);
    ("REVERSE_CONTENT_ORDER",
      bool_rule env "REVERSE_CONTENT_ORDER" sec "reverse_content_order" false)]).
Proof.
  intros H. open_sections. unfold _load_report_config.
  rewrite Hget. by resolver_steps.
Qed.

Lemma load_notification_config_ok env cfg sec :
  file_section cfg ["notification"] = Some sec →
  _load_notification_config env cfg = Ok (notification_values env sec).
Proof.
  intros H. open_sections. unfold _load_notification_config, notification_values.
  rewrite Hget. by resolver_steps.
Qed.

Lemma load_push_window_config_ok env cfg push_window time_range :
  file_section cfg ["notification"; "push_window"] = Some push_window →
  file_section cfg ["notification"; "push_window"; "time_range"] = Some time_range →
  _load_push_window_config env cfg = Ok (list_to_map [
    ("ENABLED", bool_rule env "PUSH_WINDOW_ENABLED" push_window "enabled" false);
    ("TIME_RANGE", VDict (list_to_map [
       ("START", str_rule env "PUSH_WINDOW_START" time_range "start" (VStr "08:00"));
       ("END", str_rule env "PUSH_WINDOW_END" time_range "end" (VStr "22:00"))]));
    ("ONCE_PER_DAY",
      bool_rule env "PUSH_WINDOW_ONCE_PER_DAY" push_window "once_per_day" true)]).
Proof.
  intros H1 H2. open_sections. unfold _load_push_window_config.
  enter_sections.
  by resolver_steps.
Qed.

Lemma load_weight_config_ok cfg sec :
  file_section cfg ["weight"] = Some sec →
  _load_weight_config cfg = Ok (list_to_map [
    ("RANK_WEIGHT", file_or_default sec "rank_weight" (VFloat 1 0));
    ("FREQUENCY_WEIGHT", file_or_default sec "frequency_weight" (VFloat 1 0));
    ("HOTNESS_WEIGHT", file_or_default sec "hotness_weight" (VFloat 1 0))]).
Proof.
  intros H. open_sections. unfold _load_weight_config.
  rewrite Hget. by resolver_steps.
Qed.

Lemma load_storage_config_ok env cfg storage formats local remote pull :
  file_section cfg ["storage"] = Some storage →
  file_section cfg ["storage"; "formats"] = Some formats →
  file_section cfg ["storage"; "local"] = Some local →
  file_section cfg ["storage"; "remote"] = Some remote →
  file_section cfg ["storage"; "pull"] = Some pull →
  _load_storage_config env cfg = Ok (list_to_map [
    ("BACKEND", str_rule env "STORAGE_BACKEND" storage "backend" (VStr "auto"));
    ("FORMATS", VDict (list_to_map [
       ("SQLITE", file_or_default formats "sqlite" (VBool true));
       ("TXT", bool_rule env "STORAGE_TXT_ENABLED" formats "txt" true);
       ("HTML", bool_rule env "STORAGE_HTML_ENABLED" formats "html" true)]));
    ("LOCAL", VDict (list_to_map [
       ("DATA_DIR", file_or_default local "data_dir" (VStr "output"));
       ("RETENTION_DAYS",
         int_rule env "LOCAL_RETENTION_DAYS" local "retention_days" 0)]));
    ("REMOTE", VDict (list_to_map [
       ("ENDPOINT_URL", str_rule env "S3_ENDPOINT_URL" remote "endpoint_url" (VStr ""));
       ("BUCKET_NAME", str_rule env "S3_BUCKET_NAME" remote "bucket_name" (VStr ""));
       ("ACCESS_KEY_ID",
         str_rule env "S3_ACCESS_KEY_ID" remote "access_key_id" (VStr ""));
       ("SECRET_ACCESS_KEY",
         str_rule env "S3_SECRET_ACCESS_KEY" remote "secret_access_key" (VStr ""));
       ("REGION", str_rule env "S3_REGION" remote "region" (VStr ""));
       ("RETENTION_DAYS",
         int_rule env "REMOTE_RETENTION_DAYS" remote "retention_days" 0)]));
    ("PULL", VDict (list_to_map [
       ("ENABLED", bool_rule env "PULL_ENABLED" pull "enabled" false);
       ("DAYS", int_rule env "PULL_DAYS" pull "days" 7)]))]).
Proof.
  intros H1 H2 H3 H4 H5. open_sections. unfold _load_storage_config.
  enter_sections.
  by resolver_steps.
Qed.

Lemma load_webhook_config_ok env cfg sec :
  file_section cfg ["notification"; "webhooks"] = Some sec →
  _load_webhook_config env cfg = Ok (webhook_values env sec).
Proof.
  intros H. open_sections. unfold _load_webhook_config, webhook_field.
  enter_sections.
  resolver_steps. unfold webhook_values, or_else, ntfy_server_rule.
  by destruct (truthy (str_rule env "NTFY_SERVER_URL" sec "ntfy_server_url" VNone)).
Qed.

(** ** Lookups in a dictionary display *)

Lemma lookup_list_to_map_cons k v (l : list (string * pyval)) k' :
  (list_to_map ((k, v) :: l) : pydict) !! k'
  = if String.eqb k k' then Some v else (list_to_map l : pydict) !! k'.
Proof.
  simpl. rewrite lookup_insert.
  destruct (String.eqb_spec k k'); by case_decide.
Qed.

Lemma lookup_list_to_map_nil k : (list_to_map [] : pydict) !! k = None.
Proof. apply lookup_empty. Qed.

(** Evaluates the lookup of a literal key in a dictionary display. *)
Ltac dict_lookup :=
  repeat first
    [ rewrite lookup_list_to_map_cons; cbn [String.eqb Ascii.eqb Bool.eqb andb]
    | rewrite lookup_list_to_map_nil ].

(** ** Sections of a well-formed file *)

Lemma file_section_prefix p q v sec :
  file_section v (p ++ q) = Some sec → is_Some (file_section v p).
Proof.
  revert v. induction p as [| k p IH]; intros v Hsec.
  - destruct v; destruct q; done.
  - destruct v as [| | | | | |d]; try done. simpl in *. by apply IH in Hsec.
Qed.

Lemma sections_ok_path cfg p :
  sections_ok cfg = true → p ∈ section_paths → is_Some (file_section cfg p).
Proof.
  unfold sections_ok. rewrite forallb_forall. intros Hall Hp.
  apply list_elem_of_In in Hp. apply Hall in Hp. by apply bool_decide_eq_true in Hp.
Qed.

(** The sections of a well-formed file, by name. *)
Lemma sections_ok_all cfg :
  sections_ok cfg = true →
  ∃ app crawler report notification push_window time_range webhooks weight
    storage formats local remote pull,
    file_section cfg ["app"] = Some app
    ∧ file_section cfg ["crawler"] = Some crawler
    ∧ file_section cfg ["report"] = Some report
    ∧ file_section cfg ["notification"] = Some notification
    ∧ file_section cfg ["notification"; "push_window"] = Some push_window
    ∧ file_section cfg ["notification"; "push_window"; "time_range"] = Some time_range
    ∧ file_section cfg ["notification"; "webhooks"] = Some webhooks
    ∧ file_section cfg ["weight"] = Some weight
    ∧ file_section cfg ["storage"] = Some storage
    ∧ file_section cfg ["storage"; "formats"] = Some formats
    ∧ file_section cfg ["storage"; "local"] = Some local
    ∧ file_section cfg ["storage"; "remote"] = Some remote
    ∧ file_section cfg ["storage"; "pull"] = Some pull.
Proof.
  intros Hok.
  assert (∀ p, p ∈ section_paths → is_Some (file_section cfg p)) as Hp
    by (intros p; by apply sections_ok_path).
  assert (∀ p q, (p ++ q)%list ∈ section_paths → is_Some (file_section cfg p)) as Hpre.
  { intros p q Hin. destruct (Hp _ Hin) as [sec Hsec].
    by eapply file_section_prefix. }
  destruct (Hp ["app"]) as [app ?]; [set_solver |].
  destruct (Hp ["crawler"]) as [crawler ?]; [set_solver |].
  destruct (Hp ["report"]) as [report ?]; [set_solver |].
  destruct (Hpre ["notification"] ["webhooks"]) as [notification ?]; [set_solver |].
  destruct (Hpre ["notification"; "push_window"] ["time_range"])
    as [push_window ?]; [set_solver |].
  destruct (Hp ["notification"; "push_window"; "time_range"])
    as [time_range ?]; [set_solver |].
  destruct (Hp ["notification"; "webhooks"]) as [webhooks ?]; [set_solver |].
  destruct (Hp ["weight"]) as [weight ?]; [set_solver |].
  destruct (Hpre ["storage"] ["formats"]) as [storage ?]; [set_solver |].
  destruct (Hp ["storage"; "formats"]) as [formats ?]; [set_solver |].
  destruct (Hp ["storage"; "local"]) as [local ?]; [set_solver |].
  destruct (Hp ["storage"; "remote"]) as [remote ?]; [set_solver |].
  destruct (Hp ["storage"; "pull"]) as [pull ?]; [set_solver |].
  by exists app, crawler, report, notification, push_window, time_range,
    webhooks, weight, storage, formats, local, remote, pull.
Qed.

(** ** The typed accessors *)

Lemma lower_is_empty s : PyStr.is_empty (PyStr.lower s) = PyStr.is_empty s.
Proof. by destruct s. Qed.

Lemma env_present_strip env var :
  env_present env var = negb (PyStr.is_empty (PyStr.strip (environ_get env var))).
Proof. unfold env_present, environ_get. by destruct (env !! var). Qed.

Lemma bool_rule_spec env var sec key dflt :
  bool_rule env var sec key dflt
  = if env_present env var
    then VBool (let v := PyStr.lower (PyStr.strip (environ_get env var)) in
                String.eqb v "true" || String.eqb v "1")
    else file_or_default sec key (VBool dflt).
Proof.
  unfold bool_rule, _get_env_bool. rewrite env_present_strip, lower_is_empty.
  by destruct (PyStr.is_empty (PyStr.strip (environ_get env var))).
Qed.

(** C3. Every Boolean field resolves, on a file whose sections are
    mappings, by the same rule: when its environment variable is set to a
    string that is not empty after trimming, the value is true exactly
    when the trimmed, lower-cased string is [true] or [1] and false for
    any other string, whatever the file holds; when the variable is unset
    or blank, the value is the file's when the key exists and the field's
    default otherwise. *)
Theorem bool_field_resolution (env : environ) (cfg : pyval) (f : bool_field) :
  sections_ok cfg = true →
  let var := field_var (bool_field_info f) in
  ∃ sec, file_section cfg (field_path (bool_field_info f)) = Some sec
    ∧ resolved_bool_field env cfg f
      = Ok (if env_present env var
            then VBool (let v := PyStr.lower (PyStr.strip (environ_get env var)) in
                        String.eqb v "true" || String.eqb v "1")
            else file_or_default sec (field_key (bool_field_info f))
                   (VBool (field_default (bool_field_info f)))).
Proof.
  intros Hok.
  destruct (sections_ok_all _ Hok)
    as (app & crawler & report & notification & push_window & time_range
        & webhooks & weight & storage & formats & local & remote & pull
        & Happ & Hcrawler & Hreport & Hnotification & Hpush & Htime
        & Hwebhooks & Hweight & Hstorage & Hformats & Hlocal & Hremote & Hpull).
  destruct f; simpl; eexists; (split; [eassumption |]);
    unfold resolved_bool_field;
    first [ rewrite (load_crawler_config_ok _ _ _ Hcrawler)
          | rewrite (load_report_config_ok _ _ _ Hreport)
          | rewrite (load_notification_config_ok _ _ _ Hnotification);
            unfold notification_values
          | rewrite (load_push_window_config_ok _ _ _ _ Hpush Htime)
          | rewrite (load_storage_config_ok _ _ _ _ _ _ _
                       Hstorage Hformats Hlocal Hremote Hpull) ];
    rewrite bind_ok; unfold py_getitem; dict_lookup;
    rewrite ?bind_ok; unfold py_index, py_getitem; dict_lookup;
    by rewrite bool_rule_spec.
Qed.

Lemma int_empty : PyStr.int "" = None.
Proof. done. Qed.

Lemma get_env_int_override env var dflt :
  _get_env_int env var dflt = default dflt (int_override env var).
Proof.
  unfold _get_env_int, int_override. rewrite env_present_strip.
  destruct (PyStr.is_empty (PyStr.strip (environ_get env var))); simpl; [done |].
  by destruct (PyStr.int _).
Qed.

Lemma int_rule_spec env var sec key dflt :
  int_rule env var sec key dflt
  = match int_override env var with
    | Some n => if n =? 0 then file_or_default sec key (VInt dflt) else VInt n
    | None => file_or_default sec key (VInt dflt)
    end.
Proof.
  unfold int_rule. rewrite get_env_int_override.
  by destruct (int_override env var).
Qed.

(** Every integer field is the field's rule applied to its section. *)
Lemma resolved_int_field_rule env cfg f :
  sections_ok cfg = true →
  ∃ sec, file_section cfg (field_path (int_field_info f)) = Some sec
    ∧ resolved_int_field env cfg f
      = Ok (int_rule env (field_var (int_field_info f)) sec
              (field_key (int_field_info f)) (field_default (int_field_info f))).
Proof.
  intros Hok.
  destruct (sections_ok_all _ Hok)
    as (app & crawler & report & notification & push_window & time_range
        & webhooks & weight & storage & formats & local & remote & pull
        & Happ & Hcrawler & Hreport & Hnotification & Hpush & Htime
        & Hwebhooks & Hweight & Hstorage & Hformats & Hlocal & Hremote & Hpull).
  destruct f; simpl; eexists; (split; [eassumption |]);
    unfold resolved_int_field;
    first [ rewrite (load_report_config_ok _ _ _ Hreport)
          | rewrite (load_notification_config_ok _ _ _ Hnotification);
            unfold notification_values
          | rewrite (load_storage_config_ok _ _ _ _ _ _ _
                       Hstorage Hformats Hlocal Hremote Hpull) ];
    rewrite bind_ok; unfold py_getitem; dict_lookup;
    rewrite ?bind_ok; unfold py_index, py_getitem; by dict_lookup.
Qed.

(** C2, as the code has it. Every integer field resolves, on a file whose
    sections are mappings, by one rule: an environment override that
    parses to a non-zero integer wins outright; an override of 0 does not
    override, for every integer field, and the field falls through to the
    file value when the key exists, else to the default.  In particular
    [MAX_ACCOUNTS_PER_CHANNEL] set to [0] resolves to the file value, or to
    3. *)
Theorem int_field_resolution (env : environ) (cfg : pyval) (f : int_field) :
  sections_ok cfg = true →
  let info := int_field_info f in
  ∃ sec, file_section cfg (field_path info) = Some sec
    ∧ let fall_through :=
        file_or_default sec (field_key info) (VInt (field_default info)) in
      resolved_int_field env cfg f
      = Ok (match int_override env (field_var info) with
            | Some n => if n =? 0 then fall_through else VInt n
            | None => fall_through
            end)
      ∧ (env !! field_var info = Some "0" →
         resolved_int_field env cfg f = Ok fall_through).
Proof.
  intros Hok info. destruct (resolved_int_field_rule env cfg f Hok) as (sec & Hsec & Hr).
  exists sec. split; [done |]. simpl. rewrite Hr, int_rule_spec. split; [done |].
  intros H0. unfold int_override, env_present, environ_get. fold info.
  by rewrite H0.
Qed.

(** *** An unparsable integer variable *)

Lemma environ_get_delete_ne env var var' :
  var ≠ var' → environ_get (delete var env) var' = environ_get env var'.
Proof. intros Hne. unfold environ_get. by rewrite lookup_delete_ne. Qed.

Lemma get_env_bool_delete_ne env var var' :
  var ≠ var' → _get_env_bool (delete var env) var' = _get_env_bool env var'.
Proof. intros Hne. unfold _get_env_bool. by rewrite environ_get_delete_ne. Qed.

Lemma get_env_int_delete_ne env var var' dflt :
  var ≠ var' → _get_env_int (delete var env) var' dflt = _get_env_int env var' dflt.
Proof. intros Hne. unfold _get_env_int. by rewrite environ_get_delete_ne. Qed.

Lemma get_env_str_delete_ne env var var' dflt :
  var ≠ var' → _get_env_str (delete var env) var' dflt = _get_env_str env var' dflt.
Proof. intros Hne. unfold _get_env_str. by rewrite environ_get_delete_ne. Qed.

Lemma get_env_int_absent env var dflt :
  _get_env_int (delete var env) var dflt = dflt.
Proof. unfold _get_env_int, environ_get. by rewrite lookup_delete_eq. Qed.

Lemma get_env_int_unparsable env var s dflt :
  env !! var = Some s → PyStr.int (PyStr.strip s) = None →
  _get_env_int env var dflt = dflt.
Proof.
  intros Hs Hint. unfold _get_env_int, environ_get. rewrite Hs. simpl.
  rewrite Hint. by destruct (PyStr.is_empty _).
Qed.

(** Removing a variable whose value does not parse changes no resolver. *)
Ltac forget_variable Hs Hint :=
  rewrite !(get_env_int_unparsable _ _ _ _ Hs Hint), !get_env_int_absent;
  rewrite ?get_env_bool_delete_ne, ?get_env_int_delete_ne,
    ?get_env_str_delete_ne by done;
  reflexivity.

(** C7. An integer variable set to a string that does not parse as an
    integer behaves exactly as if the variable were absent: the accessor
    returns its default without raising, the resolver of the field returns
    what it returns with the variable removed, and on a file whose
    sections are mappings the field falls through to the file value when
    the key exists, else to the default. *)
Theorem unparsable_int_behaves_as_absent (env : environ) (cfg : pyval)
    (f : int_field) (s : string) :
  let info := int_field_info f in
  env !! field_var info = Some s →
  PyStr.int (PyStr.strip s) = None →
  (∀ dflt, _get_env_int env (field_var info) dflt = dflt)
  ∧ resolved_int_field env cfg f
    = resolved_int_field (delete (field_var info) env) cfg f
  ∧ (sections_ok cfg = true →
     ∃ sec, file_section cfg (field_path info) = Some sec
       ∧ resolved_int_field env cfg f
         = Ok (file_or_default sec (field_key info) (VInt (field_default info)))).
Proof.
  intros info Hs Hint. split; [| split].
  - intros dflt. by eapply get_env_int_unparsable.
  - destruct f; simpl in *; unfold resolved_int_field,
      _load_report_config, _load_notification_config, _load_storage_config;
      forget_variable Hs Hint.
  - intros Hok. destruct (resolved_int_field_rule env cfg f Hok) as (sec & Hsec & Hr).
    exists sec. split; [done |]. rewrite Hr. unfold int_rule. fold info.
    by rewrite (get_env_int_unparsable _ _ _ _ Hs Hint).
Qed.

(** ** The webhook fields *)

Lemma get_env_str_spec env var :
  _get_env_str env var ""
  = if env_present env var then PyStr.strip (environ_get env var) else "".
Proof.
  unfold _get_env_str. rewrite env_present_strip.
  by destruct (PyStr.strip (environ_get env var)).
Qed.

Lemma str_rule_spec env var sec key dflt :
  str_rule env var sec key dflt
  = if env_present env var then VStr (PyStr.strip (environ_get env var))
    else file_or_default sec key dflt.
Proof.
  unfold str_rule. rewrite get_env_str_spec, env_present_strip.
  by destruct (PyStr.strip (environ_get env var)).
Qed.

Lemma truthy_str s : truthy (VStr s) = true ↔ s ≠ "".
Proof. destruct s; simpl; split; done. Qed.

(** C9, as the code has it. On a file whose [notification.webhooks]
    section is a mapping or missing, the resolved [NTFY_SERVER_URL] is
    never falsy: it is the trimmed variable when that is present, else the
    value of the file when that is truthy, whatever its type, else
    [https://ntfy.sh]; so it is a non-empty string exactly when the
    variable is present or the value of the file is falsy, missing or a
    string.  Every other webhook URL field resolves to the trimmed
    variable when that is present, else to the value of the file when the
    key exists, whatever it is, else to the empty string; so without the
    variable it is the empty string exactly when the key is missing or set
    to the empty string. *)
Theorem ntfy_server_url_never_empty (env : environ) (cfg : pyval) (sec : pydict) :
  file_section cfg ["notification"; "webhooks"] = Some sec →
  let in_file := file_or_default sec "ntfy_server_url" VNone in
  (∃ v, resolved_webhook env cfg "NTFY_SERVER_URL" = Ok v
     ∧ truthy v = true
     ∧ v = (if env_present env "NTFY_SERVER_URL"
            then VStr (PyStr.strip (environ_get env "NTFY_SERVER_URL"))
            else if truthy in_file then in_file else VStr "https://ntfy.sh")
     ∧ ((∃ s, v = VStr s ∧ s ≠ "")
        ↔ env_present env "NTFY_SERVER_URL" = true
          ∨ truthy in_file = false ∨ is_str in_file = true))
  ∧ (∀ var key, (var, key) ∈ other_url_fields →
       resolved_webhook env cfg var
       = Ok (if env_present env var
             then VStr (PyStr.strip (environ_get env var))
             else file_or_default sec key (VStr ""))
       ∧ (env_present env var = false →
          resolved_webhook env cfg var = Ok (VStr "")
          ↔ sec !! key = None ∨ sec !! key = Some (VStr ""))).
Proof.
  intros Hsec in_file. unfold resolved_webhook.
  rewrite (load_webhook_config_ok _ _ _ Hsec).
  split.
  - rewrite bind_ok. unfold py_getitem, webhook_values.
    dict_lookup. eexists. split; [reflexivity |].
    unfold ntfy_server_rule. rewrite str_rule_spec. fold in_file.
    destruct (env_present env "NTFY_SERVER_URL") eqn:Hp.
    + rewrite env_present_strip in Hp. apply negb_true_iff in Hp.
      assert (truthy (VStr (PyStr.strip (environ_get env "NTFY_SERVER_URL")))
              = true) as Ht by (simpl; by rewrite Hp).
      rewrite Ht. split; [done |]. split; [done |].
      split; [by left |]. intros _. eexists. split; [done |].
      by apply truthy_str.
    + destruct (truthy in_file) eqn:Ht.
      * split; [done |]. split; [done |]. split.
        -- intros (s & -> & _). by right; right.
        -- intros [? | [? | Hstr]]; try done.
           destruct in_file; try done. eexists. split; [done |].
           by apply truthy_str.
      * split; [done |]. split; [done |]. split; [by right; left |].
        intros _. by eexists.
  - intros var key Hin.
    assert (webhook_values env sec !! var
            = Some (str_rule env var sec key (VStr ""))) as Hv.
    { unfold other_url_fields in Hin. unfold webhook_values.
      repeat (apply elem_of_cons in Hin; destruct Hin as [[= -> ->] | Hin]);
        [.. | by apply elem_of_nil in Hin]; by dict_lookup. }
    rewrite !bind_ok. unfold py_getitem. rewrite Hv, str_rule_spec.
    split; [done |].
    intros ->. unfold file_or_default.
    destruct (sec !! key) as [v|]; simpl.
    + split; [intros [= ->]; by right | intros [? | [= ->]]; done].
    + split; [by left | done].
Qed.

(** ** The channel summary *)

Lemma py_min_int n m : py_min n (VInt m) = Ok (VInt (Z.min n m)).
Proof.
  simpl. f_equal. destruct (Z.ltb_spec m n); f_equal; lia.
Qed.

Lemma validate_two_count k1 k2 (l1 l2 : list string) name required count :
  k1 ≠ k2 →
  required = None ∨ required = Some [k1; k2] →
  Config.validate_paired_configs [(k1, l1); (k2, l2)] name required = (true, count) →
  count = Z.of_nat (length l1) ∧ 0 < count.
Proof.
  intros Hne Hreq. unfold Config.validate_paired_configs.
  assert (default ([(k1, l1); (k2, l2)].*1) required = [k1; k2]) as ->
    by (by destruct Hreq as [-> | ->]).
  simpl. rewrite String.eqb_refl.
  destruct (0 <? Z.of_nat (length l1)) eqn:Hpos; simpl; [| done].
  match goal with |- (if ?b then _ else _) = _ → _ => destruct b end; [| done].
  intros [= <-]. split; [done | lia].
Qed.

Lemma parse_str s :
  Config.parse_multi_account_config (VStr s) = Ok (Config.parse_tokens s).
Proof. done. Qed.

(** Runs the steps of a block that return. *)
Ltac run_block :=
  repeat first [ rewrite parse_str | rewrite bind_ok | rewrite py_min_int ].

(** The summary reads neither of the two SMTP fields. *)
Lemma print_ignores_smtp env config server port :
  _print_notification_sources env
    (<["EMAIL_SMTP_SERVER" := server]> (<["EMAIL_SMTP_PORT" := port]> config))
  = _print_notification_sources env config.
Proof.
  unfold _print_notification_sources, notification_sources_of,
    single_field_channel, telegram_channel, email_channel, ntfy_channel,
    and_then, py_getitem.
  by rewrite !lookup_insert_ne by done.
Qed.

Lemma bind_raise {A B} (e : exn) (f : A → result B) : (Raise e ≫= f) = Raise e.
Proof. reflexivity. Qed.

Lemma bind_Ok_inv {A B} (m : result A) (f : A → result B) b :
  m ≫= f = Ok b → ∃ a, m = Ok a ∧ f a = Ok b.
Proof. destruct m as [a|e]; [| done]. intros H. by exists a. Qed.

Lemma getitem_Ok_inv config key v :
  py_getitem config key = Ok v → config !! key = Some v.
Proof. unfold py_getitem. by destruct (config !! key); intros [= ->]. Qed.

Lemma parse_Ok_inv v tokens :
  Config.parse_multi_account_config v = Ok tokens →
  ∃ s, v = VStr s ∧ tokens = Config.parse_tokens s.
Proof. destruct v; try done. intros [= <-]. by eexists. Qed.

Lemma and_then_Ok_inv a b v :
  and_then a b = Ok v →
  ∃ x, a = Ok x ∧ (if truthy x then b = Ok v else v = x).
Proof.
  unfold and_then. destruct a as [x|e]; [| done]. rewrite bind_ok.
  intros H. exists x. split; [done |]. destruct (truthy x); congruence.
Qed.

(** Splits a block that returns into its steps. *)
Ltac block_steps H :=
  repeat first
    [ apply bind_Ok_inv in H as (? & ? & H)
    | match type of H with
      | (if ?b then _ else _) = Ok _ => destruct b eqn:?
      | (let '(_, _) := ?p in _) = Ok _ => destruct p as [? ?] eqn:?
      | match ?l with [] => _ | _ :: _ => _ end = Ok _ => destruct l eqn:?
      end ];
  repeat match goal with
    | H' : py_getitem _ _ = Ok _ |- _ => apply getitem_Ok_inv in H'
    | H' : Config.parse_multi_account_config _ = Ok _ |- _ =>
        apply parse_Ok_inv in H' as (? & -> & ->)
    end.

Lemma single_field_appends env config max_accounts ch :
  ch ≠ Email →
  appends_line config max_accounts ch
    (single_field_channel env config max_accounts ch (account_key ch)).
Proof.
  intros Hch l l' H. unfold single_field_channel in H. block_steps H;
    injection H as <-; [| by left].
  right. eexists. split; [done |]. split; [done |].
  unfold states_capped_count. simpl. destruct ch; try done; by eexists _, _.
Qed.

Lemma telegram_appends env config max_accounts :
  appends_line config max_accounts Telegram
    (telegram_channel env config max_accounts).
Proof.
  intros l l' H. unfold telegram_channel in H. block_steps H;
    injection H as <-; try (by left).
  right. eexists. split; [done |]. split; [done |].
  unfold states_capped_count. simpl.
  match goal with
  | Hv : Config.validate_paired_configs _ _ _ = _, Hb : _ && _ = true |- _ =>
      apply andb_true_iff in Hb as [-> _];
      apply validate_two_count in Hv as [-> _]; [| done | auto]
  end.
  by eexists _, _.
Qed.

Lemma email_appends env config max_accounts :
  appends_line config max_accounts Email (email_channel env config).
Proof.
  intros l l' H. unfold email_channel in H. block_steps H;
    injection H as <-; [| by left].
  right. by eexists.
Qed.

Lemma ntfy_appends env config max_accounts :
  appends_line config max_accounts Ntfy (ntfy_channel env config max_accounts).
Proof.
  intros l l' H. unfold ntfy_channel in H. block_steps H;
    injection H as <-; try (by left);
    right; (eexists; split; [done |]; split; [done |]);
    unfold states_capped_count; simpl.
  - by eexists _, _.
  - match goal with
    | Hv : Config.validate_paired_configs _ _ _ = _, Hb : _ && _ = true |- _ =>
        apply andb_true_iff in Hb as [-> _];
        apply validate_two_count in Hv as [-> _]; [| done | auto]
    end.
    by eexists _, _.
Qed.


(** The blocks of a list of sources that is returned, one by one. *)
Lemma notification_sources_steps env config max_accounts l :
  notification_sources_of env config max_accounts = Ok l →
  ∃ l1 l2 l3 l4 l5 l6 l7,
    single_field_channel env config max_accounts Feishu "FEISHU_WEBHOOK_URL" []
      = Ok l1
    ∧ single_field_channel env config max_accounts DingTalk
        "DINGTALK_WEBHOOK_URL" l1 = Ok l2
    ∧ single_field_channel env config max_accounts WeWork "WEWORK_WEBHOOK_URL" l2
      = Ok l3
    ∧ telegram_channel env config max_accounts l3 = Ok l4
    ∧ email_channel env config l4 = Ok l5
    ∧ ntfy_channel env config max_accounts l5 = Ok l6
    ∧ single_field_channel env config max_accounts Bark "BARK_URL" l6 = Ok l7
    ∧ single_field_channel env config max_accounts Slack "SLACK_WEBHOOK_URL" l7
      = Ok l.
Proof.
  unfold notification_sources_of. cbv zeta. intros H.
  apply bind_Ok_inv in H as (l1 & H1 & H).
  apply bind_Ok_inv in H as (l2 & H2 & H).
  apply bind_Ok_inv in H as (l3 & H3 & H).
  apply bind_Ok_inv in H as (l4 & H4 & H).
  apply bind_Ok_inv in H as (l5 & H5 & H).
  apply bind_Ok_inv in H as (l6 & H6 & H).
  apply bind_Ok_inv in H as (l7 & H7 & H).
  by exists l1, l2, l3, l4, l5, l6, l7.
Qed.

(** The summary that is printed: the maximum it read and the list of the
    sources it built. *)
Lemma print_Ok_inv env config out :
  _print_notification_sources env config = Ok out →
  ∃ max_accounts,
    config !! "MAX_ACCOUNTS_PER_CHANNEL" = Some max_accounts
    ∧ notification_sources_of env config max_accounts = Ok (entries_of out).
Proof.
  unfold _print_notification_sources. intros H.
  apply bind_Ok_inv in H as (m & Hm & H). apply getitem_Ok_inv in Hm.
  apply bind_Ok_inv in H as (l & Hl & H).
  exists m. split; [done |]. by destruct l; injection H as <-.
Qed.



(** ** The line of the email channel *)

Lemma lists_email_app l1 l2 : lists_email (l1 ++ l2) ↔ lists_email l1 ∨ lists_email l2.
Proof.
  unfold lists_email. split.
  - intros (e & He & Hch). apply elem_of_app in He as [He | He]; eauto.
  - intros [(e & He & Hch) | (e & He & Hch)]; exists e; rewrite elem_of_app; auto.
Qed.

Lemma lists_email_nil : ¬ lists_email [].
Proof. intros (e & He & _). by apply elem_of_nil in He. Qed.

Lemma lists_email_singleton e : lists_email [e] ↔ entry_channel e = Email.
Proof.
  unfold lists_email. split.
  - intros (e' & He & Hch). by apply list_elem_of_singleton in He as ->.
  - intros Hch. exists e. split; [apply list_elem_of_here | done].
Qed.

(** A block of another channel leaves the line of the email channel as it
    is. *)
Lemma appends_keeps_email config max_accounts ch block l l' :
  appends_line config max_accounts ch block → ch ≠ Email →
  block l = Ok l' → lists_email l' ↔ lists_email l.
Proof.
  intros Hb Hch Hrun. destruct (Hb l l' Hrun) as [-> | (e & -> & He & _)]; [done |].
  rewrite lists_email_app, lists_email_singleton. rewrite He. intuition.
Qed.

(** The block of the email channel appends its line exactly when the
    three fields are truthy. *)
Lemma email_channel_line env config l l' :
  email_channel env config l = Ok l' →
  l' = (l ++ if email_configured config
             then [Entry Email (source_of env "EMAIL_FROM") None] else [])%list.
Proof.
  unfold email_channel, email_configured, field_value. intros H.
  apply bind_Ok_inv in H as (cond & Hcond & H).
  apply and_then_Ok_inv in Hcond as (f & Hf & Hcond).
  apply getitem_Ok_inv in Hf. rewrite Hf. simpl.
  destruct (truthy f) eqn:Htf.
  - apply and_then_Ok_inv in Hcond as (p & Hp & Hcond).
    apply getitem_Ok_inv in Hp. rewrite Hp. simpl.
    destruct (truthy p) eqn:Htp.
    + apply getitem_Ok_inv in Hcond. rewrite Hcond. simpl.
      destruct (truthy cond); injection H as <-; by rewrite ?app_nil_r.
    + subst cond. rewrite Htp in H. injection H as <-. by rewrite app_nil_r.
  - subst cond. rewrite Htf in H. injection H as <-. by rewrite app_nil_r.
Qed.

(** C10, as the code has it. Whenever the summary is printed, it lists the
    email channel exactly when [EMAIL_FROM], [EMAIL_PASSWORD] and
    [EMAIL_TO] are all truthy, of whatever type they are: for three strings,
    when none is empty.  Whatever [EMAIL_SMTP_SERVER] and [EMAIL_SMTP_PORT]
    are set to, the same summary is printed. *)
Theorem email_listed_iff_from_password_to (env : environ) (config : pydict)
    (out : summary) :
  _print_notification_sources env config = Ok out →
  (lists_email (entries_of out) ↔ email_configured config = true)
  ∧ (∀ f p t,
       config !! "EMAIL_FROM" = Some (VStr f) →
       config !! "EMAIL_PASSWORD" = Some (VStr p) →
       config !! "EMAIL_TO" = Some (VStr t) →
       lists_email (entries_of out) ↔ f ≠ "" ∧ p ≠ "" ∧ t ≠ "")
  ∧ ∀ server port,
      _print_notification_sources env
        (<["EMAIL_SMTP_SERVER" := server]> (<["EMAIL_SMTP_PORT" := port]> config))
      = Ok out.
Proof.
  intros Hout.
  assert (lists_email (entries_of out) ↔ email_configured config = true) as Hiff.
  { apply print_Ok_inv in Hout as (m & _ & Hl).
    apply notification_sources_steps in Hl
      as (l1 & l2 & l3 & l4 & l5 & l6 & l7 & H1 & H2 & H3 & H4 & H5 & H6 & H7 & H8).
    rewrite (appends_keeps_email _ _ _ _ _ _
               (single_field_appends env config m Slack ltac:(done)) ltac:(done) H8).
    rewrite (appends_keeps_email _ _ _ _ _ _
               (single_field_appends env config m Bark ltac:(done)) ltac:(done) H7).
    rewrite (appends_keeps_email _ _ _ _ _ _
               (ntfy_appends env config m) ltac:(done) H6).
    rewrite (email_channel_line _ _ _ _ H5), lists_email_app.
    rewrite (appends_keeps_email _ _ _ _ _ _
               (telegram_appends env config m) ltac:(done) H4).
    rewrite (appends_keeps_email _ _ _ _ _ _
               (single_field_appends env config m WeWork ltac:(done)) ltac:(done) H3).
    rewrite (appends_keeps_email _ _ _ _ _ _
               (single_field_appends env config m DingTalk ltac:(done)) ltac:(done) H2).
    rewrite (appends_keeps_email _ _ _ _ _ _
               (single_field_appends env config m Feishu ltac:(done)) ltac:(done) H1).
    pose proof lists_email_nil as Hnil.
    destruct (email_configured config).
    - rewrite lists_email_singleton. simpl. split; [done | by right].
    - split; [by intros [? | ?] | done]. }
  split; [exact Hiff |]. split.
  - intros f p t Hf Hp Ht. rewrite Hiff. unfold email_configured, field_value.
    rewrite Hf, Hp, Ht. simpl. rewrite !andb_true_iff, !negb_true_iff.
    destruct f, p, t; simpl; intuition congruence.
  - intros server port. by rewrite print_ignores_smtp.
Qed.

(** ** The keys of the configuration *)

Ltac invert_resolver H :=
  repeat (apply bind_Ok_inv in H as (? & ? & H)).

Lemma resolver_keys env cfg :
  (∀ r, _load_app_config env cfg = Ok r → dom r = list_to_set app_keys)
  ∧ (∀ r, _load_crawler_config env cfg = Ok r → dom r = list_to_set crawler_keys)
  ∧ (∀ r, _load_report_config env cfg = Ok r → dom r = list_to_set report_keys)
  ∧ (∀ r, _load_notification_config env cfg = Ok r →
       dom r = list_to_set notification_keys)
  ∧ (∀ r, _load_webhook_config env cfg = Ok r → dom r = list_to_set webhook_keys).
Proof.
  unfold _load_app_config, _load_crawler_config, _load_report_config,
    _load_notification_config, _load_webhook_config.
  repeat split; intros r H; cbv zeta in H; invert_resolver H;
    injection H as <-; by rewrite !dom_insert_L, dom_empty_L.
Qed.

Lemma existsb_eqb_elem_of k (l : list string) :
  existsb (String.eqb k) l = false → k ∉ l.
Proof.
  intros Hf Hin. apply not_true_iff_false in Hf. apply Hf, existsb_exists.
  exists k. split; [by apply list_elem_of_In | apply String.eqb_refl].
Qed.

Lemma fresh_key (m : pydict) (l : list string) k :
  dom m = list_to_set l → existsb (String.eqb k) l = false → m !! k = None.
Proof.
  intros Hdom Hk. apply not_elem_of_dom. rewrite Hdom, elem_of_list_to_set.
  by apply existsb_eqb_elem_of.
Qed.

Lemma disjoint_keys (m1 m2 : pydict) (l1 l2 : list string) :
  dom m1 = list_to_set l1 → dom m2 = list_to_set l2 →
  distinct_keys l1 l2 = true → m1 ##ₘ m2.
Proof.
  intros H1 H2 Hall. apply map_disjoint_dom. rewrite H1, H2.
  unfold distinct_keys in Hall.
  rewrite forallb_forall in Hall. intros k Hk1 Hk2.
  apply elem_of_list_to_set in Hk1, Hk2.
  apply list_elem_of_In, Hall, negb_true_iff, existsb_eqb_elem_of in Hk1. done.
Qed.

(** One [update] of a configuration with a dictionary of other keys: both
    are kept. *)
Lemma update_keeps (d config : pydict) (ld lc : list string) :
  dom d = list_to_set ld → dom config = list_to_set lc →
  distinct_keys ld lc = true →
  d ⊆ dict_update d config ∧ config ⊆ dict_update d config
  ∧ dom (dict_update d config) = list_to_set (ld ++ lc).
Proof.
  intros Hd Hc Hdistinct. unfold dict_update. split; [| split].
  - apply map_union_subseteq_l.
  - apply map_union_subseteq_r. by eapply disjoint_keys.
  - by rewrite dom_union_L, Hd, Hc, list_to_set_app_L.
Qed.

(** One assignment of a new key to a configuration. *)
Lemma assign_keeps (config : pydict) (lc : list string) (key : string) (v : pyval) :
  dom config = list_to_set lc →
  existsb (String.eqb key) lc = false →
  config ⊆ <[key := v]> config
  ∧ dom (<[key := v]> config) = list_to_set (key :: lc).
Proof.
  intros Hc Hfresh. split.
  - apply insert_subseteq. by eapply fresh_key.
  - by rewrite dom_insert_L, Hc.
Qed.

(** The configuration [load_config] returns: the results of the resolvers,
    each under its keys, and the summary printed from it. *)
Lemma load_config_assembled (fs : files) (env : environ)
    (config_path : option string) (config : pydict) (printed : summary) :
  load_config fs env config_path = Ok (config, printed) →
  ∃ cfg app crawler report notification push_window weight platforms storage
    webhook,
    fs !! config_path_of env config_path = Some (Ok cfg)
    ∧ _load_app_config env cfg = Ok app ∧ app ⊆ config
    ∧ _load_crawler_config env cfg = Ok crawler ∧ crawler ⊆ config
    ∧ _load_report_config env cfg = Ok report ∧ report ⊆ config
    ∧ _load_notification_config env cfg = Ok notification ∧ notification ⊆ config
    ∧ _load_webhook_config env cfg = Ok webhook ∧ webhook ⊆ config
    ∧ _load_push_window_config env cfg = Ok push_window
    ∧ config !! "PUSH_WINDOW" = Some (VDict push_window)
    ∧ _load_weight_config cfg = Ok weight
    ∧ config !! "WEIGHT_CONFIG" = Some (VDict weight)
    ∧ py_get cfg "platforms" (VList []) = Ok platforms
    ∧ config !! "PLATFORMS" = Some platforms
    ∧ _load_storage_config env cfg = Ok storage
    ∧ config !! "STORAGE" = Some (VDict storage)
    ∧ _print_notification_sources env config = Ok printed
    ∧ dom config = list_to_set config_keys.
Proof.
  unfold load_config. intros H.
  destruct (fs !! config_path_of env config_path) as [[cfg|e]|] eqn:Hfs; try done.
  rewrite bind_ok in H.
  apply bind_Ok_inv in H as (app & Ha & H).
  apply bind_Ok_inv in H as (crawler & Hc & H).
  apply bind_Ok_inv in H as (report & Hr & H).
  apply bind_Ok_inv in H as (notification & Hn & H).
  apply bind_Ok_inv in H as (push_window & Hp & H).
  apply bind_Ok_inv in H as (weight & Hwt & H).
  apply bind_Ok_inv in H as (platforms & Hpl & H).
  apply bind_Ok_inv in H as (storage & Hs & H).
  apply bind_Ok_inv in H as (webhook & Hw & H).
  apply bind_Ok_inv in H as (out & Hout & H).
  injection H as <- <-.
  destruct (resolver_keys env cfg) as (Ka & Kc & Kr & Kn & Kw).
  destruct (update_keeps app ∅ app_keys [] (Ka _ Ha) dom_empty_L eq_refl)
    as (Sa & _ & D1).
  destruct (update_keeps crawler _ crawler_keys _ (Kc _ Hc) D1 eq_refl)
    as (Sc & S1 & D2).
  destruct (update_keeps report _ report_keys _ (Kr _ Hr) D2 eq_refl)
    as (Sr & S2 & D3).
  destruct (update_keeps notification _ notification_keys _ (Kn _ Hn) D3 eq_refl)
    as (Sn & S3 & D4).
  destruct (assign_keeps _ _ "PUSH_WINDOW" (VDict push_window) D4 eq_refl)
    as (S4 & D5).
  destruct (assign_keeps _ _ "WEIGHT_CONFIG" (VDict weight) D5 eq_refl)
    as (S5 & D6).
  destruct (assign_keeps _ _ "PLATFORMS" platforms D6 eq_refl) as (S6 & D7).
  destruct (assign_keeps _ _ "STORAGE" (VDict storage) D7 eq_refl) as (S7 & D8).
  destruct (update_keeps webhook _ webhook_keys _ (Kw _ Hw) D8 eq_refl)
    as (Sw & S8 & D9).
  exists cfg, app, crawler, report, notification, push_window, weight,
    platforms, storage, webhook.
  split_and!; try assumption.
  - done.
  - repeat (etrans; [eassumption |]). done.
  - repeat (etrans; [eassumption |]). done.
  - repeat (etrans; [eassumption |]). done.
  - repeat (etrans; [eassumption |]). done.
  - eapply lookup_weaken; [| exact S8]. eapply lookup_weaken; [| exact S7].
    eapply lookup_weaken; [| exact S6]. eapply lookup_weaken; [| exact S5].
    apply lookup_insert_eq.
  - eapply lookup_weaken; [| exact S8]. eapply lookup_weaken; [| exact S7].
    eapply lookup_weaken; [| exact S6]. apply lookup_insert_eq.
  - eapply lookup_weaken; [| exact S8]. eapply lookup_weaken; [| exact S7].
    apply lookup_insert_eq.
  - eapply lookup_weaken; [| exact S8]. apply lookup_insert_eq.
Qed.

(** ** The summary is printed *)

Lemma py_min_number n max_accounts :
  is_number max_accounts = true → ∃ count, py_min n max_accounts = Ok count.
Proof. destruct max_accounts; try done; intros _; by eexists. Qed.

Lemma str_or_falsy_truthy v :
  str_or_falsy v = true → truthy v = true → ∃ s, v = VStr s.
Proof.
  unfold str_or_falsy. intros H Ht. rewrite Ht in H.
  destruct v; try done. by eexists.
Qed.

Lemma getitem_Some config key v :
  config !! key = Some v → py_getitem config key = Ok v.
Proof. unfold py_getitem. by intros ->. Qed.

Lemma single_field_returns env config max_accounts ch key v l :
  config !! key = Some v → str_or_falsy v = true →
  is_number max_accounts = true ∨ truthy v = false →
  ∃ l', single_field_channel env config max_accounts ch key l = Ok l'.
Proof.
  intros Hv Hstr Hmax. unfold single_field_channel.
  rewrite (getitem_Some _ _ _ Hv), bind_ok.
  destruct (truthy v) eqn:Ht; [| by eexists].
  destruct (str_or_falsy_truthy v Hstr Ht) as [s ->].
  destruct Hmax as [Hmax | ?]; [| done].
  run_block.
  destruct (py_min_number (Z.of_nat (length (Config.parse_tokens s))) _ Hmax)
    as [count ->].
  rewrite bind_ok. by eexists.
Qed.

Lemma telegram_returns env config max_accounts token chat l :
  config !! "TELEGRAM_BOT_TOKEN" = Some token →
  config !! "TELEGRAM_CHAT_ID" = Some chat →
  str_or_falsy token = true → str_or_falsy chat = true →
  is_number max_accounts = true ∨ truthy token = false →
  ∃ l', telegram_channel env config max_accounts l = Ok l'.
Proof.
  intros Htoken Hchat Hst Hsc Hmax. unfold telegram_channel, and_then.
  rewrite !(getitem_Some _ _ _ Htoken), !(getitem_Some _ _ _ Hchat), !bind_ok.
  destruct (truthy token) eqn:Ht; rewrite ?bind_ok.
  2: { rewrite Ht. by eexists. }
  destruct (truthy chat) eqn:Hc; [| by eexists].
  destruct (str_or_falsy_truthy token Hst Ht) as [t ->].
  destruct (str_or_falsy_truthy chat Hsc Hc) as [c ->].
  destruct Hmax as [Hmax | ?]; [| done].
  run_block.
  destruct (Config.validate_paired_configs _ _ _) as [valid count].
  destruct (valid && (0 <? count)); [| by eexists].
  destruct (py_min_number count _ Hmax) as [capped ->].
  rewrite bind_ok. by eexists.
Qed.

Lemma email_returns env config f p t l :
  config !! "EMAIL_FROM" = Some f →
  config !! "EMAIL_PASSWORD" = Some p →
  config !! "EMAIL_TO" = Some t →
  ∃ l', email_channel env config l = Ok l'.
Proof.
  intros Hf Hp Ht. unfold email_channel, and_then.
  rewrite (getitem_Some _ _ _ Hf), (getitem_Some _ _ _ Hp),
    (getitem_Some _ _ _ Ht), !bind_ok.
  destruct (truthy f) eqn:Htf; rewrite ?bind_ok.
  2: { rewrite Htf. by eexists. }
  destruct (truthy p) eqn:Htp; rewrite ?bind_ok.
  2: { rewrite Htp. by eexists. }
  destruct (truthy t); by eexists.
Qed.

Lemma ntfy_returns env config max_accounts server topic token l :
  config !! "NTFY_SERVER_URL" = Some server →
  config !! "NTFY_TOPIC" = Some topic →
  config !! "NTFY_TOKEN" = Some token →
  str_or_falsy topic = true →
  is_str token = true ∨ truthy topic = false →
  is_number max_accounts = true ∨ truthy topic = false →
  ∃ l', ntfy_channel env config max_accounts l = Ok l'.
Proof.
  intros Hserver Htopic Htoken Hst Hk Hmax. unfold ntfy_channel, and_then.
  rewrite (getitem_Some _ _ _ Hserver), !(getitem_Some _ _ _ Htopic),
    (getitem_Some _ _ _ Htoken), !bind_ok.
  destruct (truthy server) eqn:Hs; rewrite ?bind_ok.
  2: { rewrite Hs. by eexists. }
  destruct (truthy topic) eqn:Ht; [| by eexists].
  destruct (str_or_falsy_truthy topic Hst Ht) as [t ->].
  destruct Hmax as [Hmax | ?]; [| done].
  destruct Hk as [Hk | ?]; [| done].
  destruct token as [| | | |k| |]; try done.
  run_block.
  destruct (Config.parse_tokens k) as [| k1 ks].
  - destruct (py_min_number (Z.of_nat (length (Config.parse_tokens t))) _ Hmax)
      as [capped ->].
    rewrite bind_ok. by eexists.
  - destruct (Config.validate_paired_configs _ _ _) as [valid count].
    destruct (valid && (0 <? count)); [| by eexists].
    destruct (py_min_number count _ Hmax) as [capped ->].
    rewrite bind_ok. by eexists.
Qed.

(** The maximum is a number, or the field at hand is falsy with the other
    account fields. *)
Ltac number_or_falsy H :=
  destruct H as [? | (? & ? & ? & ? & ? & ? & ? & ? & _)]; [by left | by right].

(** The summary is printed from a configuration that holds the keys it
    reads and what it needs under them. *)
Lemma summary_printed env config :
  (∀ k, existsb (String.eqb k) ("MAX_ACCOUNTS_PER_CHANNEL" :: channel_keys) = true →
        is_Some (config !! k)) →
  summary_inputs_ok config = true →
  ∃ out, _print_notification_sources env config = Ok out.
Proof.
  intros Hkeys Hok.
  assert (∀ k, existsb (String.eqb k) ("MAX_ACCOUNTS_PER_CHANNEL" :: channel_keys)
               = true → ∃ v, config !! k = Some v ∧ field_value config k = v)
    as Hkey.
  { intros k Hk. destruct (Hkeys k Hk) as [v Hv].
    exists v. unfold field_value. by rewrite Hv. }
  destruct (Hkey "MAX_ACCOUNTS_PER_CHANNEL" eq_refl) as (m & Hm & Fm).
  destruct (Hkey "FEISHU_WEBHOOK_URL" eq_refl) as (feishu & Hfeishu & Ffeishu).
  destruct (Hkey "DINGTALK_WEBHOOK_URL" eq_refl) as (dingtalk & Hdingtalk & Fdingtalk).
  destruct (Hkey "WEWORK_WEBHOOK_URL" eq_refl) as (wework & Hwework & Fwework).
  destruct (Hkey "TELEGRAM_BOT_TOKEN" eq_refl) as (token & Htoken & Ftoken).
  destruct (Hkey "TELEGRAM_CHAT_ID" eq_refl) as (chat & Hchat & Fchat).
  destruct (Hkey "EMAIL_FROM" eq_refl) as (f & Hf & _).
  destruct (Hkey "EMAIL_PASSWORD" eq_refl) as (p & Hp & _).
  destruct (Hkey "EMAIL_TO" eq_refl) as (t & Ht & _).
  destruct (Hkey "NTFY_SERVER_URL" eq_refl) as (server & Hserver & _).
  destruct (Hkey "NTFY_TOPIC" eq_refl) as (topic & Htopic & Ftopic).
  destruct (Hkey "NTFY_TOKEN" eq_refl) as (ntoken & Hntoken & Fntoken).
  destruct (Hkey "BARK_URL" eq_refl) as (bark & Hbark & Fbark).
  destruct (Hkey "SLACK_WEBHOOK_URL" eq_refl) as (slack & Hslack & Fslack).
  unfold summary_inputs_ok, account_fields in Hok. cbn [forallb] in Hok.
  rewrite Fm, Ffeishu, Fdingtalk, Fwework, Ftoken, Fchat, Ftopic, Fntoken,
    Fbark, Fslack in Hok.
  rewrite !andb_true_iff, !orb_true_iff, !andb_true_iff, !negb_true_iff in Hok.
  destruct Hok as [[(S1 & S2 & S3 & S4 & S5 & S6 & S7 & S8 & _) Hk] Hmax].
  unfold _print_notification_sources, notification_sources_of.
  rewrite (getitem_Some _ _ _ Hm), bind_ok.
  destruct (single_field_returns env config m Feishu _ _ [] Hfeishu S1)
    as [l1 ->]; [number_or_falsy Hmax |]. rewrite bind_ok.
  destruct (single_field_returns env config m DingTalk _ _ l1 Hdingtalk S2)
    as [l2 ->]; [number_or_falsy Hmax |]. rewrite bind_ok.
  destruct (single_field_returns env config m WeWork _ _ l2 Hwework S3)
    as [l3 ->]; [number_or_falsy Hmax |]. rewrite bind_ok.
  destruct (telegram_returns env config m _ _ l3 Htoken Hchat S4 S5)
    as [l4 ->]; [number_or_falsy Hmax |]. rewrite bind_ok.
  destruct (email_returns env config _ _ _ l4 Hf Hp Ht) as [l5 ->].
  rewrite bind_ok.
  destruct (ntfy_returns env config m _ _ _ l5 Hserver Htopic Hntoken S6 Hk)
    as [l6 ->]; [number_or_falsy Hmax |]. rewrite bind_ok.
  destruct (single_field_returns env config m Bark _ _ l6 Hbark S7)
    as [l7 ->]; [number_or_falsy Hmax |]. rewrite bind_ok.
  destruct (single_field_returns env config m Slack _ _ l7 Hslack S8)
    as [l8 ->]; [number_or_falsy Hmax |]. rewrite bind_ok.
  destruct l8; by eexists.
Qed.

Lemma existsb_eqb_In k (l : list string) :
  existsb (String.eqb k) l = true → k ∈ l.
Proof.
  intros H. apply existsb_exists in H as (k' & Hin & Heq).
  apply String.eqb_eq in Heq as <-. by apply list_elem_of_In.
Qed.

Lemma channel_keys_webhook k :
  existsb (String.eqb k) channel_keys = true →
  existsb (String.eqb k) webhook_keys = true.
Proof.
  intros H. apply existsb_exists in H as (k' & Hin & Heq).
  apply String.eqb_eq in Heq as <-. unfold channel_keys in Hin. simpl in Hin.
  repeat (destruct Hin as [<- | Hin]; [reflexivity |]). done.
Qed.

(** On a file whose sections are mappings or missing no resolver raises. *)
Lemma resolvers_return env cfg :
  sections_ok cfg = true →
  ∃ app crawler report notification push_window weight platforms storage
    webhook,
    _load_app_config env cfg = Ok app
    ∧ _load_crawler_config env cfg = Ok crawler
    ∧ _load_report_config env cfg = Ok report
    ∧ _load_notification_config env cfg = Ok notification
    ∧ _load_push_window_config env cfg = Ok push_window
    ∧ _load_weight_config cfg = Ok weight
    ∧ py_get cfg "platforms" (VList []) = Ok platforms
    ∧ _load_storage_config env cfg = Ok storage
    ∧ _load_webhook_config env cfg = Ok webhook.
Proof.
  intros Hok.
  destruct (sections_ok_all _ Hok)
    as (app & crawler & report & notification & push_window & time_range
        & webhooks & weight & storage & formats & local & remote & pull
        & Happ & Hcrawler & Hreport & Hnotification & Hpush & Htime
        & Hwebhooks & Hweight & Hstorage & Hformats & Hlocal & Hremote & Hpull).
  assert (∃ platforms, py_get cfg "platforms" (VList []) = Ok platforms)
    as [platforms Hplatforms] by (destruct cfg; try done; by eexists).
  do 6 eexists. exists platforms. do 2 eexists. split_and!.
  - by apply load_app_config_ok.
  - by apply load_crawler_config_ok.
  - by apply load_report_config_ok.
  - by apply load_notification_config_ok.
  - by eapply load_push_window_config_ok.
  - by apply load_weight_config_ok.
  - done.
  - by eapply load_storage_config_ok.
  - by apply load_webhook_config_ok.
Qed.

(** The keys the summary reads are those of the webhook resolver and the
    maximum of the notification resolver, whatever is merged in
    between. *)
Lemma summary_key_assembled (webhook notification rest : pydict)
    (storage platforms weight push_window : pyval) k :
  existsb (String.eqb k) ("MAX_ACCOUNTS_PER_CHANNEL" :: channel_keys) = true →
  dom webhook = list_to_set webhook_keys →
  dom notification = list_to_set notification_keys →
  let config :=
    dict_update webhook
      (<["STORAGE" := storage]> (<["PLATFORMS" := platforms]>
         (<["WEIGHT_CONFIG" := weight]> (<["PUSH_WINDOW" := push_window]>
            (dict_update notification rest))))) in
  config !! k = (webhook ∪ notification) !! k ∧ is_Some (config !! k).
Proof.
  intros Hk Hw Hn config. subst config. unfold dict_update.
  cbn [existsb] in Hk. apply orb_true_iff in Hk as [Hk | Hk].
  - apply String.eqb_eq in Hk as ->.
    assert (webhook !! "MAX_ACCOUNTS_PER_CHANNEL" = None) as Hnone
      by (by eapply fresh_key).
    assert (is_Some (notification !! "MAX_ACCOUNTS_PER_CHANNEL")) as Hsome.
    { apply elem_of_dom. rewrite Hn. apply elem_of_list_to_set.
      by apply existsb_eqb_In. }
    rewrite !lookup_union_r by done. rewrite !lookup_insert_ne by done.
    rewrite lookup_union_l' by done. done.
  - assert (is_Some (webhook !! k)) as [v Hv].
    { apply elem_of_dom. rewrite Hw. apply elem_of_list_to_set.
      by apply existsb_eqb_In, channel_keys_webhook. }
    rewrite !(lookup_union_Some_l _ _ _ _ Hv). by split.
Qed.

(** The summary reads the keys of the webhook and of the notification
    resolvers only. *)
Lemma summary_inputs_ok_agree (config config' : pydict) :
  (∀ k, existsb (String.eqb k) ("MAX_ACCOUNTS_PER_CHANNEL" :: channel_keys) = true →
        config !! k = config' !! k) →
  summary_inputs_ok config = summary_inputs_ok config'.
Proof.
  intros H. unfold summary_inputs_ok, account_fields, field_value.
  cbn [forallb]. by rewrite !H by reflexivity.
Qed.

(** ** The exceptions of [load_config] once the file is read *)

Lemma never_raises_ok {A} e0 (a : A) : never_raises e0 (Ok a).
Proof. done. Qed.

Lemma never_raises_not {A} e0 (m : result A) : never_raises e0 m → m ≠ Raise e0.
Proof. done. Qed.

Lemma never_raises_bind {A B} e0 (m : result A) (f : A → result B) :
  never_raises e0 m → (∀ a, never_raises e0 (f a)) → never_raises e0 (m ≫= f).
Proof.
  intros Hm Hf. destruct m as [a|e]; [apply Hf |].
  rewrite bind_raise. intros [= ->]. by apply Hm.
Qed.

Lemma never_raises_py_get v key dflt :
  never_raises FileNotFoundError (py_get v key dflt).
Proof. by destruct v. Qed.

Lemma never_raises_py_getitem config key :
  never_raises FileNotFoundError (py_getitem config key).
Proof. unfold py_getitem. by destruct (config !! key). Qed.

Lemma never_raises_parse v :
  never_raises FileNotFoundError (Config.parse_multi_account_config v).
Proof. by destruct v. Qed.

Lemma never_raises_py_min n m : never_raises FileNotFoundError (py_min n m).
Proof. by destruct m. Qed.

Lemma never_raises_or_else e0 a b :
  never_raises e0 b → never_raises e0 (or_else a b).
Proof. intros Hb. unfold or_else. by destruct (truthy a). Qed.

Lemma never_raises_if_not_none e0 x b :
  never_raises e0 b → never_raises e0 (if_not_none x b).
Proof. intros Hb. unfold if_not_none. by destruct x. Qed.

Lemma never_raises_and_then e0 a b :
  never_raises e0 a → never_raises e0 b → never_raises e0 (and_then a b).
Proof.
  intros Ha Hb. unfold and_then. apply never_raises_bind; [done |].
  intros v. by destruct (truthy v).
Qed.

(** Walks through a computation none of whose steps raises
    [FileNotFoundError]. *)
Ltac no_file_not_found :=
  repeat first
    [ apply never_raises_ok
    | apply never_raises_py_get
    | apply never_raises_py_getitem
    | apply never_raises_parse
    | apply never_raises_py_min
    | apply never_raises_or_else
    | apply never_raises_if_not_none
    | apply never_raises_and_then
    | apply never_raises_bind; [| intros ?]
    | match goal with
      | |- never_raises _ (if ?b then _ else _) => destruct b
      | |- never_raises _ (let '(_, _) := ?p in _) => destruct p
      | |- never_raises _ (match ?l with [] => _ | _ :: _ => _ end) => destruct l
      end ].

Lemma never_raises_resolvers env cfg :
  never_raises FileNotFoundError (_load_app_config env cfg)
  ∧ never_raises FileNotFoundError (_load_crawler_config env cfg)
  ∧ never_raises FileNotFoundError (_load_report_config env cfg)
  ∧ never_raises FileNotFoundError (_load_notification_config env cfg)
  ∧ never_raises FileNotFoundError (_load_push_window_config env cfg)
  ∧ never_raises FileNotFoundError (_load_weight_config cfg)
  ∧ never_raises FileNotFoundError (_load_storage_config env cfg)
  ∧ never_raises FileNotFoundError (_load_webhook_config env cfg).
Proof.
  unfold _load_app_config, _load_crawler_config, _load_report_config,
    _load_notification_config, _load_push_window_config, _load_weight_config,
    _load_storage_config, _load_webhook_config, webhook_field.
  repeat split; cbv zeta; no_file_not_found.
Qed.

Lemma never_raises_summary env config :
  never_raises FileNotFoundError (_print_notification_sources env config).
Proof.
  unfold _print_notification_sources, notification_sources_of,
    single_field_channel, telegram_channel, email_channel, ntfy_channel.
  cbv zeta. no_file_not_found.
Qed.

(** C1, as the code has it. [load_config] raises [FileNotFoundError] when
    the path it reads does not exist, and never once the file is read.  A
    file that exists but cannot be read or parsed raises the exception of
    the read, and one whose content is not a mapping (an empty file)
    raises [AttributeError].  When the content is a mapping whose sections
    are mappings or missing, and the values the webhook fields and the
    maximum of accounts resolve to are what the summary needs (account
    fields that are strings or falsy, a token of ntfy that is a string
    unless its topic is falsy, a maximum that is a number unless every
    account field is falsy), [load_config] prints the summary of the
    configuration and returns it, with every key of the configuration. *)
Theorem load_config_outcomes (fs : files) (env : environ)
    (config_path : option string) :
  let path := config_path_of env config_path in
  (fs !! path = None → load_config fs env config_path = Raise FileNotFoundError)
  ∧ (∀ cfg, fs !! path = Some (Ok cfg) →
       load_config fs env config_path ≠ Raise FileNotFoundError)
  ∧ (∀ e, fs !! path = Some (Raise e) → load_config fs env config_path = Raise e)
  ∧ (∀ cfg, fs !! path = Some (Ok cfg) →
       match cfg with VDict _ => False | _ => True end →
       load_config fs env config_path = Raise AttributeError)
  ∧ (∀ cfg, fs !! path = Some (Ok cfg) → file_accepted env cfg = true →
       ∃ config printed,
         load_config fs env config_path = Ok (config, printed)
         ∧ dom config = list_to_set config_keys
         ∧ _print_notification_sources env config = Ok printed).
Proof.
  intros path. split; [| split; [| split; [| split]]].
  - unfold load_config. fold path. by intros ->.
  - intros cfg Hfs. unfold load_config. fold path. rewrite Hfs, bind_ok.
    destruct (never_raises_resolvers env cfg)
      as (Ra & Rc & Rr & Rn & Rp & Rw & Rs & Rh).
    cbv zeta. apply never_raises_not.
    repeat first
      [ apply never_raises_ok
      | apply never_raises_py_get
      | apply never_raises_summary
      | assumption
      | apply never_raises_bind; [| intros ?] ].
  - unfold load_config. fold path. by intros e ->.
  - unfold load_config. fold path. intros cfg -> Hcfg. rewrite bind_ok.
    by destruct cfg.
  - intros cfg Hfs Hacc.
    assert (∃ config printed, load_config fs env config_path = Ok (config, printed))
      as (config & printed & Hload).
    { unfold file_accepted in Hacc. apply andb_true_iff in Hacc as [Hok Hsum].
      destruct (resolvers_return env cfg Hok)
        as (app & crawler & report & notification & push_window & weight
            & platforms & storage & webhook
            & Ha & Hc & Hr & Hn & Hp & Hwt & Hpl & Hs & Hw).
      rewrite Hw, Hn in Hsum.
      destruct (resolver_keys env cfg) as (_ & _ & _ & Kn & Kw).
      specialize (Kn _ Hn). specialize (Kw _ Hw).
      unfold load_config. fold path.
      rewrite Hfs, bind_ok, Ha, bind_ok, Hc, bind_ok, Hr, bind_ok, Hn, bind_ok,
        Hp, bind_ok, Hwt, bind_ok, Hpl, bind_ok, Hs, bind_ok, Hw, bind_ok.
      match goal with
      | |- ∃ _ _, (_print_notification_sources _ ?c ≫= _) = _ =>
          destruct (summary_printed env c) as [out Hout]
      end.
      - intros k Hk. exact (proj2 (summary_key_assembled _ _ _ _ _ _ _ k Hk Kw Kn)).
      - erewrite summary_inputs_ok_agree; [exact Hsum |]. intros k Hk.
        exact (proj1 (summary_key_assembled _ _ _ _ _ _ _ k Hk Kw Kn)).
      - rewrite Hout, bind_ok. by eexists _, _. }
    exists config, printed. split; [done |].
    destruct (load_config_assembled _ _ _ _ _ Hload)
      as (? & ? & ? & ? & ? & ? & ? & ? & ? & ? & _ & _ & _ & _ & _ & _ & _ & _ & _
          & _ & _ & _ & _ & _ & _ & _ & _ & _ & _ & Hprint & Hdom).
    by split.
Qed.

(** ** The claims on sample inputs *)

(** C1, counterexample. The path exists and [load_config] raises: the
    file is empty, [yaml.safe_load] returns [None], and the first resolver
    calls [get] on it. *)
Lemma load_config_empty_file_raises :
  is_Some (Sample.file Sample.empty !! config_path_of ∅ None)
  ∧ load_config (Sample.file Sample.empty) ∅ None = Raise AttributeError.
Proof. split; [by eexists | by vm_compute]. Qed.

Lemma load_config_outcomes_witness :
  load_config ∅ ∅ None = Raise FileNotFoundError
  ∧ load_config (Sample.file Sample.numeric_password) ∅ None
    ≠ Raise FileNotFoundError
  ∧ load_config {[ "c.yaml" := Raise YAMLError ]} ∅ (Some "c.yaml") = Raise YAMLError
  ∧ load_config (Sample.file (VList [])) ∅ None = Raise AttributeError
  ∧ file_accepted ∅ Sample.numeric_password = true
  ∧ ∃ config printed,
      load_config (Sample.file Sample.numeric_password) ∅ None
      = Ok (config, printed)
      ∧ dom config = list_to_set config_keys
      ∧ _print_notification_sources ∅ config = Ok printed.
Proof.
  split; [| split; [| split; [| split; [| split]]]].
  - apply (proj1 (load_config_outcomes ∅ ∅ None)). reflexivity.
  - apply (proj1 (proj2 (load_config_outcomes
             (Sample.file Sample.numeric_password) ∅ None))
             Sample.numeric_password).
    vm_compute; reflexivity.
  - apply (proj1 (proj2 (proj2 (load_config_outcomes
             {[ "c.yaml" := Raise YAMLError ]} ∅ (Some "c.yaml"))))).
    vm_compute; reflexivity.
  - apply (proj1 (proj2 (proj2 (proj2 (load_config_outcomes
             (Sample.file (VList [])) ∅ None)))) (VList []));
      [vm_compute; reflexivity | exact I].
  - vm_compute; reflexivity.
  - apply (proj2 (proj2 (proj2 (proj2 (load_config_outcomes
             (Sample.file Sample.numeric_password) ∅ None))))
             Sample.numeric_password); vm_compute; reflexivity.
Defined.

(** C2, counterexample. With [MAX_ACCOUNTS_PER_CHANNEL] set to [0] in the
    environment and to 5 in the file, the field resolves to 5, not to
    0. *)
Lemma max_accounts_zero_override_ignored :
  resolved (Sample.file Sample.maximum_five)
    {[ "MAX_ACCOUNTS_PER_CHANNEL" := "0" ]} None "MAX_ACCOUNTS_PER_CHANNEL"
  = Ok (VInt 5)
  ∧ resolved (Sample.file Sample.maximum_five)
      {[ "MAX_ACCOUNTS_PER_CHANNEL" := "0" ]} None "MAX_ACCOUNTS_PER_CHANNEL"
    ≠ Ok (VInt 0).
Proof. split; [by vm_compute | vm_compute; discriminate]. Qed.

Lemma int_field_resolution_witness :
  sections_ok Sample.maximum_five = true
  ∧ resolved_int_field {[ "MAX_ACCOUNTS_PER_CHANNEL" := "0" ]}
      Sample.maximum_five MAX_ACCOUNTS_PER_CHANNEL = Ok (VInt 5).
Proof.
  split; [by vm_compute |].
  destruct (int_field_resolution {[ "MAX_ACCOUNTS_PER_CHANNEL" := "0" ]}
              Sample.maximum_five MAX_ACCOUNTS_PER_CHANNEL)
    as (sec & Hsec & _ & Hzero); [by vm_compute |].
  rewrite Hzero by (by vm_compute).
  vm_compute in Hsec. injection Hsec as <-. by vm_compute.
Defined.

Lemma bool_field_resolution_witness :
  sections_ok Sample.crawler_off = true
  ∧ resolved_bool_field {[ "ENABLE_CRAWLER" := " TRUE " ]}
      Sample.crawler_off ENABLE_CRAWLER = Ok (VBool true).
Proof.
  split; [by vm_compute |].
  destruct (bool_field_resolution {[ "ENABLE_CRAWLER" := " TRUE " ]}
              Sample.crawler_off ENABLE_CRAWLER)
    as (sec & _ & ->); [by vm_compute |]. by vm_compute.
Defined.

Lemma unparsable_int_behaves_as_absent_witness :
  ({[ "PULL_DAYS" := "a week" ]} : environ) !! "PULL_DAYS" = Some "a week"
  ∧ PyStr.int (PyStr.strip "a week") = None
  ∧ sections_ok Sample.pull_two_weeks = true
  ∧ resolved_int_field {[ "PULL_DAYS" := "a week" ]} Sample.pull_two_weeks PULL_DAYS
    = resolved_int_field (delete "PULL_DAYS" {[ "PULL_DAYS" := "a week" ]})
        Sample.pull_two_weeks PULL_DAYS
  ∧ resolved_int_field {[ "PULL_DAYS" := "a week" ]} Sample.pull_two_weeks PULL_DAYS
    = Ok (VInt 14).
Proof.
  split; [by vm_compute | split; [by vm_compute | split; [by vm_compute |]]].
  destruct (unparsable_int_behaves_as_absent {[ "PULL_DAYS" := "a week" ]}
              Sample.pull_two_weeks PULL_DAYS "a week")
    as (_ & Hsame & Hfile); [by vm_compute | by vm_compute |].
  split; [exact Hsame |].
  destruct Hfile as (sec & Hsec & ->); [by vm_compute |].
  vm_compute in Hsec. injection Hsec as <-. by vm_compute.
Defined.

Lemma load_dotenv_never_overwrites_witness :
  ({[ "A" := "old" ]} : environ) !! "A" = Some "old"
  ∧ (_load_dotenv (Some ["A=new"; "B='2'"]) {[ "A" := "old" ]}).1 !! "A" = Some "old"
  ∧ (_load_dotenv (Some ["A=new"; "B='2'"]) {[ "A" := "old" ]}).1 !! "B" = Some "2"
  ∧ ∃ lines line, Some ["A=new"; "B='2'"] = Some lines ∧ line ∈ lines
      ∧ Dotenv.parse_line line = Some ("B", "2").
Proof.
  split; [by vm_compute |].
  split; [| split; [by vm_compute |]].
  - apply (proj1 (load_dotenv_never_overwrites (Some ["A=new"; "B='2'"])
                    {[ "A" := "old" ]} "A")). by vm_compute.
  - apply (proj1 (proj2 (load_dotenv_never_overwrites (Some ["A=new"; "B='2'"])
                           {[ "A" := "old" ]} "B")) "2"); by vm_compute.
Defined.

(** C9, counterexample. The file sets [ntfy_server_url] to the integer
    8080: the resolved [NTFY_SERVER_URL] is that integer, not a string.
    The file sets [feishu_url] to null and the variable is not set:
    neither source supplies a truthy value, and [FEISHU_WEBHOOK_URL]
    resolves to null, not to the empty string. *)
Lemma ntfy_server_url_integer_kept :
  resolved (Sample.file Sample.ntfy_port) ∅ None "NTFY_SERVER_URL"
  = Ok (VInt 8080)
  ∧ is_str (VInt 8080) = false
  ∧ env_present ∅ "FEISHU_WEBHOOK_URL" = false
  ∧ resolved (Sample.file Sample.feishu_null) ∅ None "FEISHU_WEBHOOK_URL"
    = Ok VNone
  ∧ VNone ≠ VStr "".
Proof. split_and!; try (by vm_compute). Qed.

Lemma ntfy_server_url_never_empty_witness :
  file_section Sample.ntfy_port ["notification"; "webhooks"]
    = Some (list_to_map [("ntfy_server_url", VInt 8080)])
  ∧ resolved_webhook ∅ Sample.ntfy_port "NTFY_SERVER_URL" = Ok (VInt 8080)
  ∧ resolved_webhook ∅ Sample.ntfy_blank "NTFY_SERVER_URL"
    = Ok (VStr "https://ntfy.sh")
  ∧ resolved_webhook ∅ Sample.ntfy_blank "FEISHU_WEBHOOK_URL" = Ok (VStr "").
Proof.
  split; [by vm_compute |].
  pose proof (ntfy_server_url_never_empty ∅ Sample.ntfy_port
                (list_to_map [("ntfy_server_url", VInt 8080)]) eq_refl) as Hport.
  pose proof (ntfy_server_url_never_empty ∅ Sample.ntfy_blank
                (list_to_map [("ntfy_server_url", VStr "")]) eq_refl) as Hblank.
  cbv zeta in Hport, Hblank.
  destruct Hport as ((v & Hv & _ & Heq & _) & _).
  destruct Hblank as ((v' & Hv' & _ & Heq' & _) & Hother).
  split; [| split].
  - rewrite Hv, Heq. by vm_compute.
  - rewrite Hv', Heq'. by vm_compute.
  - destruct (Hother "FEISHU_WEBHOOK_URL" "feishu_url") as [-> _].
    + unfold other_url_fields. apply list_elem_of_here.
    + by vm_compute.
Defined.



(** C10, counterexample. The file sets [email_password] to the integer
    123456: the resolved [EMAIL_PASSWORD] is not a string, and the summary
    lists the email channel. *)
Lemma email_listed_with_numeric_password :
  resolved (Sample.file Sample.numeric_password) ∅ None "EMAIL_PASSWORD"
  = Ok (VInt 123456)
  ∧ is_str (VInt 123456) = false
  ∧ printed_summary (Sample.file Sample.numeric_password) ∅ None
    = Ok (Sources [Entry Email FromFile None] (VInt 3)).
Proof. split_and!; by vm_compute. Qed.

Lemma email_listed_iff_from_password_to_witness :
  _print_notification_sources ∅ Sample.numeric_password_config
  = Ok (Sources [Entry Feishu FromFile (Some (VInt 3));
                 Entry Email FromFile None] (VInt 3))
  ∧ email_configured Sample.numeric_password_config = true
  ∧ lists_email [Entry Feishu FromFile (Some (VInt 3)); Entry Email FromFile None].
Proof.
  assert (_print_notification_sources ∅ Sample.numeric_password_config
          = Ok (Sources [Entry Feishu FromFile (Some (VInt 3));
                         Entry Email FromFile None] (VInt 3))) as Hout
    by (by vm_compute).
  split; [exact Hout |]. split; [by vm_compute |].
  apply (proj1 (email_listed_iff_from_password_to _ _ _ Hout)). by vm_compute.
Defined.

(** C5, the code at the failing input. The file sets [feishu_url] to a
    lone comma: the field is truthy but holds no account, and the summary
    lists the Feishu channel with a count of 0 instead of stating that no
    channel is configured. *)
Lemma feishu_listed_with_no_account :
  Config.parse_tokens "," = []
  ∧ printed_summary (Sample.file Sample.feishu_comma) ∅ None
    = Ok (Sources [Entry Feishu FromFile (Some (VInt 0))] (VInt 3)).
Proof. split; by vm_compute. Qed.

(** C6, the code at the failing input. [FEISHU_WEBHOOK_URL] is set to a
    blank string: the override is not present, the field resolves to the
    value of the file, and the summary labels the channel with the
    environment as its source. *)
Lemma blank_variable_labelled_environment :
  env_present {[ "FEISHU_WEBHOOK_URL" := " " ]} "FEISHU_WEBHOOK_URL" = false
  ∧ resolved (Sample.file Sample.feishu_one) {[ "FEISHU_WEBHOOK_URL" := " " ]}
      None "FEISHU_WEBHOOK_URL" = Ok (VStr "u1")
  ∧ printed_summary (Sample.file Sample.feishu_one)
      {[ "FEISHU_WEBHOOK_URL" := " " ]} None
    = Ok (Sources [Entry Feishu FromEnvironment (Some (VInt 1))] (VInt 3)).
Proof. repeat split; by vm_compute. Qed.

(** ** Trimming and lower-casing in the typed accessors *)

Lemma lstrip_first s c :
  first_char (PyStr.lstrip s) = Some c → PyStr.is_space c = false.
Proof.
  induction s as [| a s IH]; simpl; [done |].
  destruct (PyStr.is_space a) eqn:Ha; [done |]. simpl. by intros [= <-].
Qed.

Lemma rstrip_first s c :
  first_char s = Some c → PyStr.is_space c = false →
  first_char (PyStr.rstrip s) = Some c.
Proof.
  destruct s as [| a s]; simpl; [done |]. intros [= ->] Hc.
  destruct (PyStr.rstrip s); [by rewrite Hc | done].
Qed.

Lemma rstrip_first_inv s c :
  first_char (PyStr.rstrip s) = Some c → first_char s = Some c.
Proof.
  destruct s as [| a s]; simpl; [done |].
  destruct (PyStr.rstrip s); [| done]. by destruct (PyStr.is_space a).
Qed.

Lemma rstrip_last s c :
  last_char (PyStr.rstrip s) = Some c → PyStr.is_space c = false.
Proof.
  induction s as [| a s IH]; simpl; [done |].
  destruct (PyStr.rstrip s) as [| b r] eqn:Hr.
  - destruct (PyStr.is_space a) eqn:Ha; [done |]. simpl. by intros [= <-].
  - simpl in *. done.
Qed.

Lemma lstrip_fixed s :
  (∀ c, first_char s = Some c → PyStr.is_space c = false) → PyStr.lstrip s = s.
Proof.
  destruct s as [| a s]; simpl; [done |]. intros H. by rewrite (H a).
Qed.

Lemma rstrip_fixed s :
  (∀ c, last_char s = Some c → PyStr.is_space c = false) → PyStr.rstrip s = s.
Proof.
  induction s as [| a s IH]; simpl; [done |]. intros H.
  destruct s as [| b s].
  - simpl. by rewrite (H a).
  - rewrite IH by done. done.
Qed.

Lemma strip_trimmed s : trimmed (PyStr.strip s).
Proof.
  unfold PyStr.strip. split.
  - intros c Hc. apply rstrip_first_inv in Hc. by eapply lstrip_first.
  - intros c Hc. by eapply rstrip_last.
Qed.

Lemma strip_fixed s : trimmed s → PyStr.strip s = s.
Proof.
  intros [Hfirst Hlast]. unfold PyStr.strip.
  rewrite (lstrip_fixed s Hfirst). by apply rstrip_fixed.
Qed.

Lemma strip_idempotent s : PyStr.strip (PyStr.strip s) = PyStr.strip s.
Proof. apply strip_fixed, strip_trimmed. Qed.

Lemma lower_char_space c : PyStr.is_space (PyStr.lower_char c) = PyStr.is_space c.
Proof. destruct c as [[] [] [] [] [] [] [] []]; reflexivity. Qed.

Lemma lower_char_idempotent c :
  PyStr.lower_char (PyStr.lower_char c) = PyStr.lower_char c.
Proof. destruct c as [[] [] [] [] [] [] [] []]; reflexivity. Qed.

Lemma lower_idempotent s : PyStr.lower (PyStr.lower s) = PyStr.lower s.
Proof. induction s as [| c s IH]; simpl; [done |]. by rewrite lower_char_idempotent, IH. Qed.

Lemma lstrip_lower s : PyStr.lstrip (PyStr.lower s) = PyStr.lower (PyStr.lstrip s).
Proof.
  induction s as [| c s IH]; simpl; [done |].
  rewrite lower_char_space. by destruct (PyStr.is_space c).
Qed.

Lemma rstrip_lower s : PyStr.rstrip (PyStr.lower s) = PyStr.lower (PyStr.rstrip s).
Proof.
  induction s as [| c s IH]; simpl; [done |].
  rewrite IH, lower_char_space.
  destruct (PyStr.rstrip s); simpl; [by destruct (PyStr.is_space c) | done].
Qed.

Lemma strip_lower s : PyStr.strip (PyStr.lower s) = PyStr.lower (PyStr.strip s).
Proof. unfold PyStr.strip. by rewrite lstrip_lower, rstrip_lower. Qed.

(** X1. The three typed accessors read a variable through [strip]: whitespace
    around the value of a variable changes the result of none of them. *)
Theorem accessors_ignore_surrounding_whitespace (env : environ) (key s : string) :
  _get_env_str (<[key := PyStr.strip s]> env) key "" = _get_env_str (<[key := s]> env) key ""
  ∧ _get_env_bool (<[key := PyStr.strip s]> env) key = _get_env_bool (<[key := s]> env) key
  ∧ ∀ dflt, _get_env_int (<[key := PyStr.strip s]> env) key dflt
            = _get_env_int (<[key := s]> env) key dflt.
Proof.
  unfold _get_env_str, _get_env_bool, _get_env_int, environ_get.
  rewrite !lookup_insert_eq. simpl. by rewrite strip_idempotent.
Qed.

(** X2. [_get_env_bool] lower-cases the trimmed value before it compares it with
    [true] and [1]: the case of the letters of a value does not change the
    result. *)
Theorem get_env_bool_ignores_case (env : environ) (key s : string) :
  _get_env_bool (<[key := PyStr.lower s]> env) key = _get_env_bool (<[key := s]> env) key.
Proof.
  unfold _get_env_bool, environ_get. rewrite !lookup_insert_eq. simpl.
  by rewrite strip_lower, lower_idempotent.
Qed.

(** X3. [_get_env_str] returns the default when the variable is unset or blank,
    and otherwise the trimmed value of the variable, which is not empty and
    neither starts nor ends with a whitespace character. *)
Theorem get_env_str_shape (env : environ) (key dflt : string) :
  (env_present env key = false → _get_env_str env key dflt = dflt)
  ∧ (env_present env key = true →
     _get_env_str env key dflt ≠ "" ∧ trimmed (_get_env_str env key dflt)
     ∧ _get_env_str env key dflt = PyStr.strip (environ_get env key)).
Proof.
  unfold _get_env_str. rewrite env_present_strip. split.
  - intros H. apply negb_false_iff in H. by rewrite H.
  - intros H. apply negb_true_iff in H. rewrite H. split; [| split; [| done]].
    + intros Heq. by rewrite Heq in H.
    + apply strip_trimmed.
Qed.

Lemma get_env_str_shape_witness :
  env_present {[ "TIMEZONE" := " UTC " ]} "TIMEZONE" = true
  ∧ _get_env_str {[ "TIMEZONE" := " UTC " ]} "TIMEZONE" "Asia/Shanghai" = "UTC"
  ∧ trimmed (_get_env_str {[ "TIMEZONE" := " UTC " ]} "TIMEZONE" "Asia/Shanghai").
Proof.
  split; [by vm_compute |].
  destruct (proj2 (get_env_str_shape {[ "TIMEZONE" := " UTC " ]} "TIMEZONE"
                     "Asia/Shanghai")) as (_ & Htrim & ->); [by vm_compute |].
  split; [by vm_compute | exact Htrim].
Defined.

(** ** Every field of the section resolvers *)

(** Opens every section of a well-formed file. *)
Ltac all_sections Hok :=
  destruct (sections_ok_all _ Hok)
    as (app & crawler & report & notification & push_window & time_range
        & webhooks & weight & storage & formats & local & remote & pull
        & Happ & Hcrawler & Hreport & Hnotification & Hpush & Htime
        & Hwebhooks & Hweight & Hstorage & Hformats & Hlocal & Hremote & Hpull).

(** Rewrites a resolver with the dictionary it returns on the sections in
    the context and looks the field up. *)
Ltac resolve_field :=
  first [ rewrite (load_app_config_ok _ _ _ ltac:(eassumption))
        | rewrite (load_crawler_config_ok _ _ _ ltac:(eassumption))
        | rewrite (load_report_config_ok _ _ _ ltac:(eassumption))
        | rewrite (load_notification_config_ok _ _ _ ltac:(eassumption));
          unfold notification_values
        | rewrite (load_push_window_config_ok _ _ _ _
                     ltac:(eassumption) ltac:(eassumption))
        | rewrite (load_weight_config_ok _ _ ltac:(eassumption))
        | rewrite (load_storage_config_ok _ _ _ _ _ _ _ ltac:(eassumption)
                     ltac:(eassumption) ltac:(eassumption) ltac:(eassumption)
                     ltac:(eassumption)) ];
  rewrite bind_ok; unfold py_getitem; dict_lookup;
  rewrite ?bind_ok; unfold py_index, py_getitem; dict_lookup.

(** X4. On a file whose sections are mappings or are missing, each string field
    with an environment override (the time zone, the report mode, the two
    bounds of the push window, the storage backend and the five S3 fields)
    resolves to the trimmed value of its variable when the variable is
    present, and otherwise to the value of the file, or to the default when
    the section has no such key. *)
Theorem str_field_resolution (env : environ) (cfg : pyval) (f : str_field) :
  sections_ok cfg = true →
  let info := str_field_info f in
  ∃ sec, file_section cfg (field_path info) = Some sec
    ∧ resolved_str_field env cfg f
      = Ok (if env_present env (field_var info)
            then VStr (PyStr.strip (environ_get env (field_var info)))
            else file_or_default sec (field_key info) (VStr (field_default info))).
Proof.
  intros Hok. all_sections Hok.
  destruct f; simpl; eexists; (split; [eassumption |]);
    unfold resolved_str_field; resolve_field; by rewrite str_rule_spec.
Qed.

Lemma str_field_resolution_witness :
  sections_ok Sample.crawler_off = true
  ∧ resolved_str_field {[ "TIMEZONE" := " UTC " ]} Sample.crawler_off TIMEZONE
    = Ok (VStr "UTC")
  ∧ resolved_str_field ∅ Sample.crawler_off TIMEZONE = Ok (VStr "Asia/Shanghai").
Proof.
  split; [by vm_compute |]. split.
  - destruct (str_field_resolution {[ "TIMEZONE" := " UTC " ]}
                Sample.crawler_off TIMEZONE) as (sec & _ & ->); by vm_compute.
  - destruct (str_field_resolution ∅ Sample.crawler_off TIMEZONE)
      as (sec & Hsec & ->); [by vm_compute |].
    vm_compute in Hsec. injection Hsec as <-. by vm_compute.
Defined.

(** X5. On a file whose sections are mappings or are missing, each field without
    an environment override resolves, under every environment, to the value
    of the file, or to its default when the section has no such key. *)
Theorem plain_field_ignores_environment (cfg : pyval) (f : plain_field) :
  sections_ok cfg = true →
  let info := plain_field_info f in
  ∃ sec, file_section cfg (field_path info) = Some sec
    ∧ ∀ env, resolved_plain_field env cfg f
             = Ok (file_or_default sec (field_key info) (field_default info)).
Proof.
  intros Hok. all_sections Hok.
  destruct f; simpl; eexists; (split; [eassumption |]); intros env;
    unfold resolved_plain_field; by resolve_field.
Qed.

Lemma plain_field_ignores_environment_witness :
  sections_ok Sample.crawler_off = true
  ∧ resolved_plain_field {[ "REQUEST_INTERVAL" := "5" ]} Sample.crawler_off
      REQUEST_INTERVAL = Ok (VInt 100).
Proof.
  split; [by vm_compute |].
  destruct (plain_field_ignores_environment Sample.crawler_off REQUEST_INTERVAL)
    as (sec & Hsec & ->); [by vm_compute |].
  vm_compute in Hsec. injection Hsec as <-. by vm_compute.
Defined.

(** X6. Each webhook field other than [NTFY_SERVER_URL] resolves to the trimmed
    value of its variable when the variable is present, and otherwise to the
    value of the file whatever its type, or to the default when
    [notification.webhooks] has no such key. *)
Theorem webhook_field_resolution (env : environ) (cfg : pyval) (sec : pydict)
    (var key dflt : string) :
  file_section cfg ["notification"; "webhooks"] = Some sec →
  (var, key, dflt) ∈ webhook_fields →
  resolved_webhook env cfg var
  = Ok (if env_present env var then VStr (PyStr.strip (environ_get env var))
        else file_or_default sec key (VStr dflt)).
Proof.
  intros Hsec Hin. unfold resolved_webhook.
  rewrite (load_webhook_config_ok _ _ _ Hsec), bind_ok.
  unfold py_getitem, webhook_values, webhook_fields in *.
  repeat (apply elem_of_cons in Hin; destruct Hin as [[= -> -> ->] | Hin]);
    [.. | by apply elem_of_nil in Hin];
    dict_lookup; by rewrite str_rule_spec.
Qed.

Lemma webhook_field_resolution_witness :
  file_section Sample.feishu_one ["notification"; "webhooks"]
    = Some (list_to_map [("feishu_url", VStr "u1")])
  ∧ resolved_webhook {[ "FEISHU_WEBHOOK_URL" := " e1 " ]} Sample.feishu_one
      "FEISHU_WEBHOOK_URL" = Ok (VStr "e1")
  ∧ resolved_webhook ∅ Sample.feishu_one "FEISHU_WEBHOOK_URL" = Ok (VStr "u1").
Proof.
  split; [by vm_compute |]. split.
  - rewrite (webhook_field_resolution {[ "FEISHU_WEBHOOK_URL" := " e1 " ]}
               Sample.feishu_one (list_to_map [("feishu_url", VStr "u1")])
               "FEISHU_WEBHOOK_URL" "feishu_url" "");
      [by vm_compute | by vm_compute | apply list_elem_of_here].
  - rewrite (webhook_field_resolution ∅
               Sample.feishu_one (list_to_map [("feishu_url", VStr "u1")])
               "FEISHU_WEBHOOK_URL" "feishu_url" "");
      [by vm_compute | by vm_compute | apply list_elem_of_here].
Defined.

(** ** A section that is not a mapping *)

Lemma raises_only_ok {A} e0 (a : A) : raises_only e0 (Ok a).
Proof. by intros e. Qed.

Lemma raises_only_bind {A B} e0 (m : result A) (f : A → result B) :
  raises_only e0 m → (∀ a, raises_only e0 (f a)) → raises_only e0 (m ≫= f).
Proof.
  intros Hm Hf e. destruct m as [a|e']; simpl.
  - apply Hf.
  - intros [= <-]. by apply Hm.
Qed.

Lemma raises_only_py_get v key dflt : raises_only AttributeError (py_get v key dflt).
Proof. intros e H. destruct v; simpl in H; congruence. Qed.

Lemma raises_only_or_else e0 a b : raises_only e0 b → raises_only e0 (or_else a b).
Proof. intros Hb e. unfold or_else. destruct (truthy a); [done | apply Hb]. Qed.

Lemma raises_only_if_not_none e0 x b :
  raises_only e0 b → raises_only e0 (if_not_none x b).
Proof. intros Hb e. unfold if_not_none. destruct x; [done | apply Hb]. Qed.

(** Walks through a resolver, whose steps raise nothing but
    [AttributeError]. *)
Ltac only_attribute_error :=
  repeat first
    [ apply raises_only_ok
    | apply raises_only_py_get
    | apply raises_only_or_else
    | apply raises_only_if_not_none
    | apply raises_only_bind; [| intros ?] ].

Lemma raises_only_resolvers env cfg :
  raises_only AttributeError (_load_app_config env cfg)
  ∧ raises_only AttributeError (_load_crawler_config env cfg)
  ∧ raises_only AttributeError (_load_report_config env cfg)
  ∧ raises_only AttributeError (_load_notification_config env cfg)
  ∧ raises_only AttributeError (_load_push_window_config env cfg)
  ∧ raises_only AttributeError (_load_weight_config cfg)
  ∧ raises_only AttributeError (_load_storage_config env cfg)
  ∧ raises_only AttributeError (_load_webhook_config env cfg).
Proof.
  unfold _load_app_config, _load_crawler_config, _load_report_config,
    _load_notification_config, _load_push_window_config, _load_weight_config,
    _load_storage_config, _load_webhook_config, webhook_field.
  repeat split; cbv zeta; only_attribute_error.
Qed.

Lemma py_get_mapping v key dflt r : py_get v key dflt = Ok r → ∃ d, v = VDict d.
Proof. destruct v; try done. by eexists. Qed.

Lemma file_section_of_get cfg k d rest :
  py_get cfg k (VDict ∅) = Ok (VDict d) →
  file_section cfg (k :: rest) = file_section (VDict d) rest.
Proof. destruct cfg as [| | | | | |d0]; try done. simpl. by intros [= ->]. Qed.

(** Turns every value a key is read from into a mapping. *)
Ltac mappings :=
  repeat match goal with
    | H : py_get ?v _ _ = Ok _ |- _ =>
        is_var v; let d := fresh "d" in
        destruct (py_get_mapping _ _ _ _ H) as [d ->]
    end.

Lemma app_config_section env cfg r :
  _load_app_config env cfg = Ok r → is_Some (file_section cfg ["app"]).
Proof.
  unfold _load_app_config. intros H. invert_resolver H. mappings.
  by erewrite file_section_of_get.
Qed.

Lemma crawler_config_section env cfg r :
  _load_crawler_config env cfg = Ok r → is_Some (file_section cfg ["crawler"]).
Proof.
  unfold _load_crawler_config. intros H. invert_resolver H. mappings.
  by erewrite file_section_of_get.
Qed.

Lemma report_config_section env cfg r :
  _load_report_config env cfg = Ok r → is_Some (file_section cfg ["report"]).
Proof.
  unfold _load_report_config. intros H. invert_resolver H. mappings.
  by erewrite file_section_of_get.
Qed.

Lemma notification_config_section env cfg r :
  _load_notification_config env cfg = Ok r →
  is_Some (file_section cfg ["notification"]).
Proof.
  unfold _load_notification_config. intros H. invert_resolver H. mappings.
  by erewrite file_section_of_get.
Qed.

Lemma push_window_config_section env cfg r :
  _load_push_window_config env cfg = Ok r →
  is_Some (file_section cfg ["notification"; "push_window"]).
Proof.
  unfold _load_push_window_config. intros H. invert_resolver H. mappings.
  erewrite file_section_of_get by done. by erewrite file_section_of_get.
Qed.

Lemma weight_config_section cfg r :
  _load_weight_config cfg = Ok r → is_Some (file_section cfg ["weight"]).
Proof.
  unfold _load_weight_config. intros H. invert_resolver H. mappings.
  by erewrite file_section_of_get.
Qed.

Lemma storage_config_sections env cfg r :
  _load_storage_config env cfg = Ok r →
  is_Some (file_section cfg ["storage"])
  ∧ is_Some (file_section cfg ["storage"; "formats"])
  ∧ is_Some (file_section cfg ["storage"; "local"]).
Proof.
  unfold _load_storage_config. intros H. invert_resolver H. mappings.
  repeat split; erewrite file_section_of_get by done;
    try done; by erewrite file_section_of_get.
Qed.

(** X7. Once the file is read, a value that is not a mapping at one of the
    sections of [eager_paths] makes [load_config] raise [AttributeError],
    whatever the environment holds. *)
Theorem load_config_rejects_non_mapping_section (fs : files) (env : environ)
    (config_path : option string) (cfg : pyval) (p : list string) :
  fs !! config_path_of env config_path = Some (Ok cfg) →
  p ∈ eager_paths →
  file_section cfg p = None →
  load_config fs env config_path = Raise AttributeError.
Proof.
  intros Hfs Hp Hnone. unfold load_config. rewrite Hfs, bind_ok.
  destruct (raises_only_resolvers env cfg)
    as (Ra & Rc & Rr & Rn & Rp & Rw & Rs & _).
  destruct (_load_app_config env cfg) as [app|e] eqn:Happ;
    [rewrite bind_ok | by rewrite (Ra e)].
  destruct (_load_crawler_config env cfg) as [crawler|e] eqn:Hcrawler;
    [rewrite bind_ok | by rewrite (Rc e)].
  destruct (_load_report_config env cfg) as [report|e] eqn:Hreport;
    [rewrite bind_ok | by rewrite (Rr e)].
  destruct (_load_notification_config env cfg) as [notification|e] eqn:Hnotification;
    [rewrite bind_ok | by rewrite (Rn e)].
  destruct (_load_push_window_config env cfg) as [push_window|e] eqn:Hpush;
    [rewrite bind_ok | by rewrite (Rp e)].
  destruct (_load_weight_config cfg) as [weight|e] eqn:Hweight;
    [rewrite bind_ok | by rewrite (Rw e)].
  destruct (py_get cfg "platforms" (VList [])) as [platforms|e] eqn:Hplatforms;
    [rewrite bind_ok | by rewrite (raises_only_py_get _ _ _ e Hplatforms)].
  destruct (_load_storage_config env cfg) as [storage|e] eqn:Hstorage;
    [rewrite bind_ok | by rewrite (Rs e)].
  exfalso.
  apply app_config_section in Happ. apply crawler_config_section in Hcrawler.
  apply report_config_section in Hreport.
  apply notification_config_section in Hnotification.
  apply push_window_config_section in Hpush. apply weight_config_section in Hweight.
  apply storage_config_sections in Hstorage as (Hs & Hf & Hl).
  unfold eager_paths in Hp.
  repeat (apply elem_of_cons in Hp; destruct Hp as [-> | Hp]);
    [.. | by apply elem_of_nil in Hp];
    rewrite Hnone in *;
    match goal with H : is_Some None |- _ => by destruct H end.
Qed.

Lemma load_config_rejects_non_mapping_section_witness :
  load_config (Sample.file (Sample.mapping [("storage", VStr "s3")]))
    {[ "STORAGE_BACKEND" := "local" ]} None = Raise AttributeError.
Proof.
  apply (load_config_rejects_non_mapping_section _ _ _
           (Sample.mapping [("storage", VStr "s3")]) ["storage"]);
    [by vm_compute | unfold eager_paths; set_solver | by vm_compute].
Defined.

(** X8. When [notification.push_window] is a mapping whose [time_range] is not a
    mapping, [_load_push_window_config] returns exactly when both
    [PUSH_WINDOW_START] and [PUSH_WINDOW_END] are present in the
    environment, with both bounds taken from them, and raises
    [AttributeError] otherwise. *)
Theorem push_window_time_range_tolerated (env : environ) (cfg : pyval)
    (push_window : pydict) :
  file_section cfg ["notification"; "push_window"] = Some push_window →
  file_section cfg ["notification"; "push_window"; "time_range"] = None →
  _load_push_window_config env cfg
  = if env_present env "PUSH_WINDOW_START" && env_present env "PUSH_WINDOW_END"
    then Ok (list_to_map [
      ("ENABLED", bool_rule env "PUSH_WINDOW_ENABLED" push_window "enabled" false);
      ("TIME_RANGE", VDict (list_to_map [
         ("START", VStr (PyStr.strip (environ_get env "PUSH_WINDOW_START")));
         ("END", VStr (PyStr.strip (environ_get env "PUSH_WINDOW_END")))]));
      ("ONCE_PER_DAY",
        bool_rule env "PUSH_WINDOW_ONCE_PER_DAY" push_window "once_per_day" true)])
    else Raise AttributeError.
Proof.
  intros Hpw Htr.
  apply file_section_step in Hpw as (nd & Hn & Hpw).
  apply file_section_step in Hpw as (pw & Hp & Hpw).
  apply file_section_nil in Hpw as ->.
  rewrite (file_section_of_get _ _ _ _ Hn), (file_section_of_get _ _ _ _ Hp) in Htr.
  unfold _load_push_window_config. rewrite Hn, bind_ok, Hp, bind_ok.
  simpl in Htr. rewrite (py_get_dict push_window "time_range"), bind_ok.
  rewrite !if_not_none_rule, bind_ok.
  unfold file_or_default, or_else.
  rewrite !get_env_str_spec, !env_present_strip in *.
  destruct (default (VDict ∅) (push_window !! "time_range")); try done;
    destruct (PyStr.strip (environ_get env "PUSH_WINDOW_START"));
    destruct (PyStr.strip (environ_get env "PUSH_WINDOW_END")); simpl; try done;
    by rewrite if_not_none_rule.
Qed.

Lemma push_window_time_range_tolerated_witness :
  returns (_load_push_window_config
             {[ "PUSH_WINDOW_START" := "09:00"; "PUSH_WINDOW_END" := "18:00" ]}
             (Sample.mapping [("notification", Sample.mapping [
                ("push_window", Sample.mapping [("time_range", VStr "all day")])])]))
  = true
  ∧ _load_push_window_config {[ "PUSH_WINDOW_START" := "09:00" ]}
      (Sample.mapping [("notification", Sample.mapping [
         ("push_window", Sample.mapping [("time_range", VStr "all day")])])])
    = Raise AttributeError.
Proof.
  split.
  - rewrite (push_window_time_range_tolerated _ _
               (list_to_map [("time_range", VStr "all day")]));
      by vm_compute.
  - rewrite (push_window_time_range_tolerated _ _
               (list_to_map [("time_range", VStr "all day")]));
      by vm_compute.
Defined.

(** ** What [load_config] reads *)

Lemma same_variables_lookups env env' :
  same_variables env env' →
  Forall (λ var, env !! var = env' !! var) environment_variables.
Proof. intros H. apply Forall_forall. intros var Hvar. by apply H. Qed.

Lemma load_config_same_variables (fs : files) (env env' : environ)
    (config_path : option string) :
  same_variables env env' →
  load_config fs env config_path = load_config fs env' config_path.
Proof.
  intros Hsame. apply same_variables_lookups in Hsame.
  unfold environment_variables in Hsame.
  repeat (apply Forall_cons in Hsame as [? Hsame]). clear Hsame.
  unfold load_config, config_path_of, _load_app_config, _load_crawler_config,
    _load_report_config, _load_notification_config, _load_push_window_config,
    _load_storage_config, _load_webhook_config, webhook_field,
    _print_notification_sources, notification_sources_of, single_field_channel,
    telegram_channel, email_channel, ntfy_channel, source_of,
    _get_env_bool, _get_env_int, _get_env_str, environ_get.
  repeat match goal with H : env !! _ = env' !! _ |- _ => rewrite H; clear H end.
  reflexivity.
Qed.

(** X9. [load_config] reads one file and the variables of
    [environment_variables], nothing else: on two file systems that agree
    on the configuration file and two environments that agree on these
    variables it returns the same configuration with the same summary, or
    raises the same exception. *)
Theorem load_config_reads_only_its_variables (fs fs' : files)
    (env env' : environ) (config_path : option string) :
  same_variables env env' →
  fs !! config_path_of env config_path = fs' !! config_path_of env config_path →
  load_config fs env config_path = load_config fs' env' config_path.
Proof.
  intros Hsame Hfile.
  rewrite <- (load_config_same_variables fs' env env' config_path Hsame).
  unfold load_config. by rewrite Hfile.
Qed.

Lemma load_config_reads_only_its_variables_witness :
  load_config (Sample.file Sample.feishu_one) {[ "HOME" := "/root" ]} None
  = load_config (<[ "other.yaml" := Raise YAMLError ]> (Sample.file Sample.feishu_one))
      {[ "LANG" := "C" ]} None.
Proof.
  apply load_config_reads_only_its_variables.
  - intros var Hvar. rewrite !lookup_singleton_ne; [done | |].
    + intros <-. by apply (existsb_eqb_elem_of "LANG" environment_variables).
    + intros <-. by apply (existsb_eqb_elem_of "HOME" environment_variables).
  - vm_compute. reflexivity.
Defined.

(** ** Runs of the [.env] overlay *)

Section DotenvRuns.

Import Dotenv.

Lemma step_grows st line st' :
  step st line = Some st' → environ_of st ⊆ environ_of st'.
Proof.
  intros Hstep. apply map_subseteq_spec. intros k v. by eapply step_preserves.
Qed.

Lemma run_grows lines st : environ_of st ⊆ environ_of (run st lines).1.
Proof. apply map_subseteq_spec. intros k v. apply run_preserves. Qed.

(** A line that was processed changes nothing when it is processed again
    on an environment that holds its outcome. *)
Lemma step_again st line st' env2 n :
  step st line = Some st' → environ_of st' ⊆ env2 →
  step (State env2 n) line = Some (State env2 n).
Proof.
  unfold step. destruct (parse_line line) as [[key value]|]; [| done].
  destruct (PyStr.is_empty key); simpl; [done |].
  intros Hstep Hsub.
  assert (is_Some (env2 !! key)) as [v Hv].
  { case_bool_decide as Hfree.
    - unfold environ_set in Hstep.
      destruct (has_nul key || has_nul value); [done |].
      injection Hstep as <-. exists value.
      eapply lookup_weaken; [apply lookup_insert_eq | done].
    - injection Hstep as <-.
      destruct (environ_of st !! key) as [v|] eqn:Hv; [| done].
      exists v. by eapply lookup_weaken. }
  rewrite bool_decide_eq_false_2; [done |]. by rewrite Hv.
Qed.

(** Whether a line raises depends on the environment only. *)
Lemma step_raises st line n :
  step st line = None → step (State (environ_of st) n) line = None.
Proof.
  unfold step. destruct (parse_line line) as [[key value]|]; [| done]. simpl.
  destruct (negb (PyStr.is_empty key) && bool_decide (environ_of st !! key = None));
    [| done].
  by destruct (environ_set key value (environ_of st)).
Qed.

Lemma run_again lines st st' ok n :
  run st lines = (st', ok) →
  ∃ n', run (State (environ_of st') n) lines = (State (environ_of st') n', ok).
Proof.
  revert st. induction lines as [| line rest IH]; intros st; simpl.
  { intros [= <- <-]. by eexists. }
  destruct (step st line) as [st1|] eqn:Hstep.
  - intros Hrun. rewrite (step_again st line st1); [by eapply IH | done |].
    pose proof (run_grows rest st1) as Hsub. by rewrite Hrun in Hsub.
  - intros [= <- <-]. rewrite (step_raises _ _ _ Hstep). by eexists.
Qed.

Lemma run_app l1 l2 st :
  run st (l1 ++ l2)%list
  = let '(st1, ok) := run st l1 in if ok then run st1 l2 else (st1, false).
Proof.
  revert st. induction l1 as [| line rest IH]; intros st; simpl; [done |].
  destruct (step st line) as [st1|]; [apply IH | done].
Qed.

(** A binding a step adds: the key was free, the line parses to the key
    and the value, and neither holds a NUL. *)
Lemma step_adds st line st' k v :
  step st line = Some st' →
  environ_of st !! k = None → environ_of st' !! k = Some v →
  parse_line line = Some (k, v) ∧ k ≠ ""
  ∧ has_nul k = false ∧ has_nul v = false.
Proof.
  unfold step. destruct (parse_line line) as [[key value]|]; [| congruence].
  destruct (PyStr.is_empty key) eqn:Hkey; simpl; [congruence |].
  case_bool_decide as Hfree; simpl; [| congruence].
  unfold environ_set. destruct (has_nul key || has_nul value) eqn:Hnul; [done |].
  apply orb_false_iff in Hnul as [Hk Hv].
  intros [= <-] Hnone. simpl. rewrite lookup_insert. case_decide as Heq.
  - intros [= <-]. subst key. repeat split; try done. intros ->. discriminate Hkey.
  - congruence.
Qed.

Lemma run_adds lines st k v :
  environ_of st !! k = None →
  environ_of (run st lines).1 !! k = Some v →
  ∃ line, line ∈ lines ∧ parse_line line = Some (k, v) ∧ k ≠ ""
    ∧ has_nul k = false ∧ has_nul v = false.
Proof.
  revert st. induction lines as [| line rest IH]; intros st Hnone; simpl.
  { congruence. }
  destruct (step st line) as [st1|] eqn:Hstep; [| simpl; congruence].
  intros Hk. destruct (environ_of st1 !! k) as [v1|] eqn:Hk1.
  - pose proof (run_preserves rest st1 k v1 Hk1) as Hkeep.
    rewrite Hk in Hkeep. injection Hkeep as <-.
    exists line. split; [apply list_elem_of_here |]. by eapply step_adds.
  - destruct (IH st1 Hk1 Hk) as (l & Hin & Hl). exists l.
    split; [by apply list_elem_of_further | done].
Qed.

End DotenvRuns.

(** *** What a line parses to *)

Lemma partition_before c s a b :
  PyStr.partition c s = Some (a, b) → occurs c a = false.
Proof.
  revert a. induction s as [| x s IH]; intros a; simpl; [done |].
  destruct (Ascii.eqb x c) eqn:Hx; [by intros [= <- <-] |].
  destruct (PyStr.partition c s) as [[k v]|]; [| done].
  intros [= <- <-]. simpl. rewrite Hx. by apply IH.
Qed.

Lemma occurs_lstrip c s : occurs c s = false → occurs c (PyStr.lstrip s) = false.
Proof.
  induction s as [| x s IH]; simpl; [done |].
  intros H. apply orb_false_iff in H as [Hx Hs].
  destruct (PyStr.is_space x); [by apply IH |]. simpl. by rewrite Hx, Hs.
Qed.

Lemma occurs_rstrip c s : occurs c s = false → occurs c (PyStr.rstrip s) = false.
Proof.
  induction s as [| x s IH]; simpl; [done |].
  intros H. apply orb_false_iff in H as [Hx Hs]. specialize (IH Hs).
  destruct (PyStr.rstrip s); simpl in *.
  - destruct (PyStr.is_space x); [done |]. simpl. by rewrite Hx.
  - by rewrite Hx, IH.
Qed.

Lemma occurs_strip c s : occurs c s = false → occurs c (PyStr.strip s) = false.
Proof. intros H. by apply occurs_rstrip, occurs_lstrip. Qed.

Lemma parse_line_key line k v :
  Dotenv.parse_line line = Some (k, v) →
  PyStr.strip k = k ∧ occurs "=" k = false.
Proof.
  unfold Dotenv.parse_line. destruct (_ || _); [done |].
  destruct (PyStr.partition "=" (PyStr.strip line)) as [[key value]|] eqn:Hp; [| done].
  intros [= <- _]. split; [apply strip_idempotent |].
  eapply occurs_strip, partition_before, Hp.
Qed.

(** X10. Loading the same [.env] file a second time, on the environment the first
    load left, changes no variable and returns the same result. *)
Theorem load_dotenv_idempotent (file : option (list string)) (env : environ) :
  _load_dotenv file (_load_dotenv file env).1 = _load_dotenv file env.
Proof.
  unfold _load_dotenv. destruct file as [lines|]; [| done].
  destruct (Dotenv.run (Dotenv.State env 0) lines) as [st ok] eqn:Hrun. simpl.
  destruct (run_again _ _ _ _ 0%nat Hrun) as [n' ->]. done.
Qed.

(** X11. When the file is loaded to its end, a name that was not set before takes
    the value of the first line that parses to this name: the lines after
    it do not change it. *)
Theorem load_dotenv_first_line_wins (pre post : list string) (line : string)
    (env env' : environ) (k v : string) :
  _load_dotenv (Some (pre ++ line :: post)%list) env = (env', true) →
  Dotenv.parse_line line = Some (k, v) →
  k ≠ "" →
  env !! k = None →
  (∀ l v', l ∈ pre → Dotenv.parse_line l ≠ Some (k, v')) →
  env' !! k = Some v.
Proof.
  unfold _load_dotenv. rewrite run_app. intros Hrun Hline Hk Hfree Hpre.
  pose proof (run_adds pre (Dotenv.State env 0) k) as Hadds.
  destruct (Dotenv.run (Dotenv.State env 0) pre) as [st1 ok1]. simpl in Hadds.
  destruct ok1.
  2: { by injection Hrun. }
  assert (Dotenv.environ_of st1 !! k = None) as Hfree1.
  { destruct (Dotenv.environ_of st1 !! k) as [v1|] eqn:Hv1; [| done].
    destruct (Hadds v1 Hfree eq_refl) as (l & Hin & Hl & _). by destruct (Hpre l v1). }
  simpl in Hrun. unfold Dotenv.step in Hrun. rewrite Hline in Hrun.
  assert (PyStr.is_empty k = false) as Hke by (by destruct k).
  rewrite Hke in Hrun.
  rewrite bool_decide_eq_true_2 in Hrun by done. simpl in Hrun.
  unfold Dotenv.environ_set in Hrun.
  destruct (Dotenv.has_nul k || Dotenv.has_nul v).
  { by injection Hrun. }
  pose proof (run_preserves post
                (Dotenv.State (<[k := v]> (Dotenv.environ_of st1))
                   (S (Dotenv.loaded_count st1))) k v) as Hkeep.
  destruct (Dotenv.run _ post) as [st2 ok2]. injection Hrun as <- _.
  apply Hkeep. simpl. apply lookup_insert_eq.
Qed.

Lemma load_dotenv_first_line_wins_witness :
  _load_dotenv (Some ["# settings"; "A=1"; "A=2"]) ∅ = (<["A" := "1"]> ∅, true)
  ∧ (<["A" := "1"]> ∅ : environ) !! "A" = Some "1".
Proof.
  assert (_load_dotenv (Some ["# settings"; "A=1"; "A=2"]) ∅
          = (<["A" := "1"]> ∅, true)) as Hrun by (by vm_compute).
  split; [exact Hrun |].
  apply (load_dotenv_first_line_wins ["# settings"] ["A=2"] "A=1" ∅ _ "A" "1" Hrun);
    [by vm_compute | done | done |].
  intros l v' Hl. apply list_elem_of_singleton in Hl as ->. by vm_compute.
Defined.

(** X12. Every variable the overlay adds has a name that is not empty, is trimmed
    and holds neither [=] nor a NUL character, and a value without a NUL
    character. *)
Theorem load_dotenv_writes_well_formed_names (file : option (list string))
    (env : environ) (k v : string) :
  env !! k = None →
  (_load_dotenv file env).1 !! k = Some v →
  k ≠ "" ∧ PyStr.strip k = k ∧ occurs "=" k = false
  ∧ Dotenv.has_nul k = false ∧ Dotenv.has_nul v = false.
Proof.
  unfold _load_dotenv. destruct file as [lines|]; simpl; [| congruence].
  intros Hfree Hk.
  pose proof (run_adds lines (Dotenv.State env 0) k v Hfree) as Hadds.
  destruct (Dotenv.run (Dotenv.State env 0) lines) as [st ok]. simpl in *.
  destruct (Hadds Hk) as (line & _ & Hline & Hne & Hnk & Hnv).
  destruct (parse_line_key _ _ _ Hline) as [Hstrip Heq]. done.
Qed.

Lemma load_dotenv_writes_well_formed_names_witness :
  (∅ : environ) !! "A" = None
  ∧ (_load_dotenv (Some [" A = '1' "]) ∅).1 !! "A" = Some "1"
  ∧ occurs "=" "A" = false.
Proof.
  split; [done |].
  assert ((_load_dotenv (Some [" A = '1' "]) ∅).1 !! "A" = Some "1") as Hk
    by (by vm_compute).
  split; [exact Hk |].
  by destruct (load_dotenv_writes_well_formed_names (Some [" A = '1' "]) ∅ "A" "1"
                 (lookup_empty _) Hk) as (_ & _ & Heq & _).
Defined.

(** ** The lines of a [.env] file *)

Lemma first_char_app s t c : first_char s = Some c → first_char (s ++ t) = Some c.
Proof. by destruct s. Qed.

Lemma last_char_app s t c : last_char t = Some c → last_char (s ++ t) = Some c.
Proof.
  intros Ht. induction s as [| a s IH]; simpl; [done |].
  destruct (s ++ t) eqn:Hs; [done | exact IH].
Qed.

Lemma last_char_cons a s : s ≠ "" → last_char (String a s) = last_char s.
Proof. by destruct s. Qed.

Lemma last_char_snoc s c : last_char (s ++ String c "") = Some c.
Proof. by apply last_char_app. Qed.

Lemma partition_app c k rest :
  occurs c k = false →
  PyStr.partition c (k ++ String c rest) = Some (k, rest).
Proof.
  induction k as [| a k IH]; simpl.
  - intros _. by rewrite Ascii.eqb_refl.
  - intros H. apply orb_false_iff in H as [Ha Hk]. by rewrite Ha, IH.
Qed.

Lemma endswith_last c s : PyStr.endswith c s = true ↔ last_char s = Some c.
Proof.
  induction s as [| a s IH]; simpl; [done |].
  destruct s as [| b s]; [| done]. rewrite Ascii.eqb_eq. split; congruence.
Qed.

Lemma drop_last_snoc s c : PyStr.drop_last (s ++ String c "") = s.
Proof.
  induction s as [| a s IH]; simpl; [done |].
  rewrite IH. by destruct s.
Qed.

Lemma quoted_value q v :
  q = PyStr.dquote ∨ q = PyStr.squote →
  PyStr.strip (quoted q v) = quoted q v
  ∧ PyStr.startswith q (quoted q v) = true
  ∧ PyStr.endswith q (quoted q v) = true
  ∧ PyStr.slice_1_m1 (quoted q v) = v.
Proof.
  intros Hq. assert (PyStr.is_space q = false) as Hs by (by destruct Hq as [-> | ->]).
  split; [| split; [| split]].
  - apply strip_fixed. split.
    + by intros c [= <-].
    + intros c. unfold quoted. rewrite last_char_cons by (by destruct v).
      rewrite last_char_snoc. by intros [= <-].
  - simpl. apply Ascii.eqb_refl.
  - apply endswith_last. unfold quoted.
    rewrite last_char_cons by (by destruct v). apply last_char_snoc.
  - simpl. apply drop_last_snoc.
Qed.

Lemma key_line k rest :
  k ≠ "" → trimmed k → occurs "=" k = false → PyStr.startswith "#" k = false →
  trimmed rest →
  let line := k ++ String "=" rest in
  PyStr.strip line = line
  ∧ PyStr.is_empty line || PyStr.startswith "#" line = false
  ∧ PyStr.partition "=" line = Some (k, rest)
  ∧ PyStr.strip k = k.
Proof.
  intros Hk [Hfirst Hlast] Heq Hhash [_ Hrest]. cbv zeta.
  split; [| split; [| split]].
  - apply strip_fixed. split.
    + intros c Hc. apply Hfirst. destruct k; [done |]. exact Hc.
    + intros c Hc. destruct rest as [| a rest].
      * rewrite (last_char_app k "=" "=" eq_refl) in Hc. by injection Hc as <-.
      * apply Hrest. destruct (last_char (String a rest)) as [c'|] eqn:Hc'.
        -- rewrite (last_char_app k (String "=" (String a rest)) c') in Hc; [done |].
           by rewrite last_char_cons.
        -- exfalso. clear -Hc'. revert a Hc'.
           induction rest as [| b rest IH]; intros a; simpl; [done |]. apply IH.
  - destruct k; [done |]. exact Hhash.
  - by apply partition_app.
  - by apply strip_fixed.
Qed.

(** X13. A line [KEY=VALUE] whose key is a plain name gives the key and the
    value as they stand; between two quote characters of one kind the
    value is taken verbatim, whitespace included. *)
Theorem dotenv_line_value (k v : string) :
  k ≠ "" → trimmed k → occurs "=" k = false → PyStr.startswith "#" k = false →
  (∀ q, q = PyStr.dquote ∨ q = PyStr.squote →
     Dotenv.parse_line (k ++ "=" ++ quoted q v) = Some (k, v))
  ∧ (trimmed v → unquoted v → Dotenv.parse_line (k ++ "=" ++ v) = Some (k, v)).
Proof.
  intros Hk Htrim Heq Hhash. split.
  - intros q Hq. destruct (quoted_value q v Hq) as (Hs & Hstart & Hend & Hslice).
    assert (trimmed (quoted q v)) as Hqt by (rewrite <- Hs; apply strip_trimmed).
    destruct (key_line k (quoted q v) Hk Htrim Heq Hhash Hqt) as (H1 & H2 & H3 & H4).
    unfold Dotenv.parse_line. change (k ++ "=" ++ quoted q v) with (k ++ String "=" (quoted q v)).
    rewrite H1, H2, H3, H4, Hs.
    destruct Hq as [-> | ->]; rewrite Hstart, Hend, Hslice; simpl; try done.
  - intros Hv [Hd Hsq].
    destruct (key_line k v Hk Htrim Heq Hhash Hv) as (H1 & H2 & H3 & H4).
    unfold Dotenv.parse_line. change (k ++ "=" ++ v) with (k ++ String "=" v).
    rewrite H1, H2, H3, H4, (strip_fixed v Hv), Hd, Hsq. done.
Qed.

Lemma dotenv_line_value_witness :
  trimmed "KEY" ∧ occurs "=" "KEY" = false
  ∧ Dotenv.parse_line ("KEY" ++ "=" ++ quoted PyStr.squote " a b ")
    = Some ("KEY", " a b ")
  ∧ Dotenv.parse_line ("KEY" ++ "=" ++ "a=b") = Some ("KEY", "a=b").
Proof.
  assert (trimmed "KEY") as Hk.
  { split; intros c [= <-]; reflexivity. }
  split; [exact Hk |]. split; [reflexivity |].
  destruct (dotenv_line_value "KEY" " a b " ltac:(done) Hk eq_refl eq_refl)
    as [Hq _].
  destruct (dotenv_line_value "KEY" "a=b" ltac:(done) Hk eq_refl eq_refl)
    as [_ Hp].
  split; [apply Hq; by right |]. apply Hp.
  - split; intros c [= <-]; reflexivity.
  - split; reflexivity.
Defined.









(** ** The order and the labels of the channel summary *)

Ltac case_result :=
  repeat (rewrite ?bind_ok, ?bind_raise; cbv beta;
    match goal with
    | |- context [?m ≫= _] => destruct m
    | |- context [if ?b then _ else _] => destruct b
    | |- context [let '(_, _) := ?p in _] => destruct p
    | |- context [match ?l with [] => _ | _ :: _ => _ end] => destruct l
    end);
  rewrite ?bind_ok, ?bind_raise.

(** One more block keeps the lines in the order of the channels. *)
Lemma appends_sublist config max_accounts ch block seen l l' :
  appends_line config max_accounts ch block →
  entry_channel <$> l `sublist_of` seen →
  block l = Ok l' →
  entry_channel <$> l' `sublist_of` (seen ++ [ch])%list.
Proof.
  intros Hb Hl Hrun. destruct (Hb l l' Hrun) as [-> | (e & -> & <- & _)].
  - by apply sublist_inserts_r.
  - rewrite fmap_app. by apply sublist_app.
Qed.

Lemma sources_in_channel_order env config max_accounts l :
  notification_sources_of env config max_accounts = Ok l →
  entry_channel <$> l `sublist_of` channel_order.
Proof.
  intros H.
  apply notification_sources_steps in H
    as (l1 & l2 & l3 & l4 & l5 & l6 & l7 & H1 & H2 & H3 & H4 & H5 & H6 & H7 & H8).
  pose proof (sublist_nil (A := channel)) as S0.
  change (@nil channel) with (entry_channel <$> @nil entry) in S0 at 1.
  pose proof (appends_sublist _ _ _ _ [] _ _
    (single_field_appends env config max_accounts Feishu ltac:(done)) S0 H1) as S1.
  pose proof (appends_sublist _ _ _ _ _ _ _
    (single_field_appends env config max_accounts DingTalk ltac:(done)) S1 H2) as S2.
  pose proof (appends_sublist _ _ _ _ _ _ _
    (single_field_appends env config max_accounts WeWork ltac:(done)) S2 H3) as S3.
  pose proof (appends_sublist _ _ _ _ _ _ _
    (telegram_appends env config max_accounts) S3 H4) as S4.
  pose proof (appends_sublist _ _ _ _ _ _ _
    (email_appends env config max_accounts) S4 H5) as S5.
  pose proof (appends_sublist _ _ _ _ _ _ _
    (ntfy_appends env config max_accounts) S5 H6) as S6.
  pose proof (appends_sublist _ _ _ _ _ _ _
    (single_field_appends env config max_accounts Bark ltac:(done)) S6 H7) as S7.
  exact (appends_sublist _ _ _ _ _ _ _
    (single_field_appends env config max_accounts Slack ltac:(done)) S7 H8).
Qed.

(** X15. The lines of the summary follow the fixed order of the channels, each
    channel at most once, whatever the configuration holds; the summary
    says that no channel is configured exactly when there is no line. *)
Theorem summary_lines_in_channel_order (env : environ) (config : pydict)
    (out : summary) :
  _print_notification_sources env config = Ok out →
  entry_channel <$> entries_of out `sublist_of` channel_order
  ∧ NoDup (entry_channel <$> entries_of out)
  ∧ (out = NoChannel ↔ entries_of out = []).
Proof.
  unfold _print_notification_sources. intros H.
  apply bind_Ok_inv in H as (m & _ & H).
  apply bind_Ok_inv in H as (l & Hl & H).
  apply sources_in_channel_order in Hl.
  assert (entries_of out = l) as ->.
  { destruct l; by injection H as <-. }
  split; [done |]. split.
  - eapply sublist_NoDup; [| exact Hl].
    unfold channel_order. repeat (apply NoDup_cons; split;
      [rewrite ?elem_of_cons, elem_of_nil; intuition discriminate |]).
    apply NoDup_nil_2.
  - destruct l; injection H as <-; split; done.
Qed.

Lemma summary_lines_in_channel_order_witness :
  _print_notification_sources ∅ Sample.resolved_config
  = Ok (Sources [Entry Feishu FromFile (Some (VInt 3));
                 Entry Email FromFile None] (VInt 3))
  ∧ [Feishu; Email] `sublist_of` channel_order.
Proof.
  assert (_print_notification_sources ∅ Sample.resolved_config
          = Ok (Sources [Entry Feishu FromFile (Some (VInt 3));
                         Entry Email FromFile None] (VInt 3))) as Hout
    by (by vm_compute).
  split; [exact Hout |].
  exact (proj1 (summary_lines_in_channel_order _ _ _ Hout)).
Defined.

Lemma same_lines_refl_app l l' e e' :
  unlabelled <$> l = unlabelled <$> l' → unlabelled e = unlabelled e' →
  unlabelled <$> (l ++ [e])%list = unlabelled <$> (l' ++ [e'])%list.
Proof. intros Hl He. by rewrite !fmap_app, Hl, !fmap_cons, He. Qed.

Ltac same_block :=
  intros l l' Hl; unfold same_lines; case_result;
  first [done | by apply same_lines_refl_app].

Lemma single_field_same env env' config max_accounts ch key l l' :
  unlabelled <$> l = unlabelled <$> l' →
  same_lines (single_field_channel env config max_accounts ch key l)
             (single_field_channel env' config max_accounts ch key l').
Proof. revert l l'. unfold single_field_channel. same_block. Qed.

Lemma telegram_same env env' config max_accounts l l' :
  unlabelled <$> l = unlabelled <$> l' →
  same_lines (telegram_channel env config max_accounts l)
             (telegram_channel env' config max_accounts l').
Proof. revert l l'. unfold telegram_channel. same_block. Qed.

Lemma email_same env env' config l l' :
  unlabelled <$> l = unlabelled <$> l' →
  same_lines (email_channel env config l) (email_channel env' config l').
Proof. revert l l'. unfold email_channel. same_block. Qed.

Lemma ntfy_same env env' config max_accounts l l' :
  unlabelled <$> l = unlabelled <$> l' →
  same_lines (ntfy_channel env config max_accounts l)
             (ntfy_channel env' config max_accounts l').
Proof. revert l l'. unfold ntfy_channel. same_block. Qed.

Lemma same_lines_bind (a b : result (list entry))
    (f g : list entry → result (list entry)) :
  same_lines a b →
  (∀ l l', unlabelled <$> l = unlabelled <$> l' → same_lines (f l) (g l')) →
  same_lines (a ≫= f) (b ≫= g).
Proof.
  destruct a as [l|e], b as [l'|e']; simpl; try done. intros H Hfg. by apply Hfg.
Qed.

Lemma sources_same env env' config max_accounts :
  same_lines (notification_sources_of env config max_accounts)
             (notification_sources_of env' config max_accounts).
Proof.
  unfold notification_sources_of. cbv zeta.
  apply same_lines_bind; [by apply single_field_same |]. intros l1 l1' H1.
  apply same_lines_bind; [by apply single_field_same |]. intros l2 l2' H2.
  apply same_lines_bind; [by apply single_field_same |]. intros l3 l3' H3.
  apply same_lines_bind; [by apply telegram_same |]. intros l4 l4' H4.
  apply same_lines_bind; [by apply email_same |]. intros l5 l5' H5.
  apply same_lines_bind; [by apply ntfy_same |]. intros l6 l6' H6.
  apply same_lines_bind; [by apply single_field_same |]. intros l7 l7' H7.
  by apply single_field_same.
Qed.

(** X16. The environment decides the source labels of the summary and nothing
    else: under two environments the same configuration gives the same
    channels with the same counts and the same maximum, or raises the same
    exception. *)
Theorem summary_environment_only_labels (env env' : environ) (config : pydict) :
  match _print_notification_sources env config,
        _print_notification_sources env' config with
  | Ok out, Ok out' => unlabelled_summary out = unlabelled_summary out'
  | Raise e, Raise e' => e = e'
  | _, _ => False
  end.
Proof.
  unfold _print_notification_sources.
  destruct (py_getitem config "MAX_ACCOUNTS_PER_CHANNEL") as [m|e]; [| done].
  rewrite !bind_ok.
  pose proof (sources_same env env' config m) as H. unfold same_lines in H.
  destruct (notification_sources_of env config m) as [l|e],
    (notification_sources_of env' config m) as [l'|e']; try done.
  rewrite !bind_ok.
  destruct l as [| x l], l' as [| x' l']; try done.
  unfold unlabelled_summary. by rewrite H.
Qed.
